(** * minimatch-fast: a shallow embedding of the matching core

    The development follows the TypeScript sources file by file:
    [utils.ts], [escape.ts], [unescape.ts], [fast-paths.ts],
    [brace-expand.ts], [options.ts], [minimatch-class.ts], [cache.ts] and
    [index.ts].  Strings are sequences of 8-bit code units ([string] of the
    Standard Library); lengths and indices are integers ([Z]); the two
    module-level [Map]s are association lists kept in insertion order and
    threaded through every function that touches them.  The third-party
    packages [picomatch] and [braces] are not part of the repository: they
    are fields of an [Engine] record that every definition using them takes
    as an argument. *)

From Stdlib Require Import String Ascii List ZArith Lia Bool.
Import ListNotations.
Open Scope string_scope.
Open Scope Z_scope.

(* ===================================================================== *)
(** ** The string primitives of the host language used by the sources *)
(* ===================================================================== *)

Module JS.

(** [s.length] *)
Definition len (s : string) : Z := Z.of_nat (String.length s).

(** [s.startsWith(p)] *)
Fixpoint startsWith (s p : string) {struct p} : bool :=
  match p with
  | EmptyString => true
  | String a p' =>
      match s with
      | String b s' => Ascii.eqb a b && startsWith s' p'
      | EmptyString => false
      end
  end.

(** [s.endsWith(p)] *)
Definition endsWith (s p : string) : bool :=
  let n := String.length s in
  let m := String.length p in
  if (m <=? n)%nat then String.eqb (String.substring (n - m) m s) p
  else false.

(** [s.includes(sub)] *)
Fixpoint includes (s sub : string) : bool :=
  startsWith s sub ||
  match s with
  | EmptyString => false
  | String _ rest => includes rest sub
  end.

(** [s.charAt(0) === c] *)
Definition charAt0_is (s : string) (c : ascii) : bool :=
  match s with
  | String d _ => Ascii.eqb d c
  | EmptyString => false
  end.

(** [s.replace(/c/g, d)] for single code units [c] and [d]. *)
Fixpoint replaceAllChar (c d : ascii) (s : string) : string :=
  match s with
  | EmptyString => EmptyString
  | String x rest =>
      String (if Ascii.eqb x c then d else x) (replaceAllChar c d rest)
  end.

(** [s.lastIndexOf(c)] for a single code unit: the largest index holding
    [c], or [-1]. *)
Fixpoint lastIndexOf (s : string) (c : ascii) : Z :=
  match s with
  | EmptyString => -1
  | String x rest =>
      let r := lastIndexOf rest c in
      if 0 <=? r then r + 1
      else if Ascii.eqb x c then 0 else -1
  end.

(** [s.indexOf(c)] and [s.indexOf(c, from)] for a single code unit. *)
Fixpoint indexOf (s : string) (c : ascii) : Z :=
  match s with
  | EmptyString => -1
  | String x rest =>
      if Ascii.eqb x c then 0
      else let r := indexOf rest c in if 0 <=? r then r + 1 else -1
  end.

(** [s.slice(k)] for [0 <= k]. *)
Definition sliceFrom (s : string) (k : Z) : string :=
  String.substring (Z.to_nat k) (String.length s - Z.to_nat k) s.

Definition indexOfFrom (s : string) (c : ascii) (from : Z) : Z :=
  let r := indexOf (sliceFrom s from) c in
  if 0 <=? r then r + from else -1.

(** [s.slice(0, -1)] *)
Definition dropLast (s : string) : string :=
  String.substring 0 (String.length s - 1) s.

(** [s.split(c)] for a single code unit: never the empty list. *)
Fixpoint split (c : ascii) (s : string) : list string :=
  match s with
  | EmptyString => [EmptyString]
  | String x rest =>
      if Ascii.eqb x c then EmptyString :: split c rest
      else match split c rest with
           | [] => [String x EmptyString]
           | h :: t => String x h :: t
           end
  end.

(** [s.toLowerCase()] on code units below 256: the letters A to Z and
    the Latin-1 capitals 0xC0 to 0xDE, the multiplication sign 0xD7
    excepted, move up by 32; every other code unit stays. *)
Definition lowerChar (c : ascii) : ascii :=
  let n := nat_of_ascii c in
  if ((65 <=? n) && (n <=? 90))%nat then ascii_of_nat (n + 32)
  else if ((192 <=? n) && (n <=? 222) && negb (n =? 215))%nat
       then ascii_of_nat (n + 32)
  else c.

Fixpoint toLowerCase (s : string) : string :=
  match s with
  | EmptyString => EmptyString
  | String x rest => String (lowerChar x) (toLowerCase rest)
  end.

(** Membership of a code unit in a bracket class written as a string. *)
Fixpoint inClass (cls : string) (c : ascii) : bool :=
  match cls with
  | EmptyString => false
  | String x rest => Ascii.eqb x c || inClass rest c
  end.

(** [/^(?:[cls])*$/.test(s)] and its negated-class twin. *)
Fixpoint allIn (cls : string) (s : string) : bool :=
  match s with
  | EmptyString => true
  | String x rest => inClass cls x && allIn cls rest
  end.

Fixpoint noneIn (cls : string) (s : string) : bool :=
  match s with
  | EmptyString => true
  | String x rest => negb (inClass cls x) && noneIn cls rest
  end.

(** The longest prefix made of code units of [cls], and what follows. *)
Fixpoint span (cls : string) (s : string) : string * string :=
  match s with
  | EmptyString => (EmptyString, EmptyString)
  | String x rest =>
      if inClass cls x
      then let (a, b) := span cls rest in (String x a, b)
      else (EmptyString, s)
  end.

(** The longest prefix made of code units outside [cls], and what
    follows. *)
Fixpoint spanNot (cls : string) (s : string) : string * string :=
  match s with
  | EmptyString => (EmptyString, EmptyString)
  | String x rest =>
      if inClass cls x
      then (EmptyString, s)
      else let (a, b) := spanNot cls rest in (String x a, b)
  end.

(** [[...new Set(xs)]]: duplicates removed, first occurrence kept. *)
Fixpoint dedupeFrom (seen : list string) (xs : list string) : list string :=
  match xs with
  | [] => []
  | x :: rest =>
      if existsb (String.eqb x) seen then dedupeFrom seen rest
      else x :: dedupeFrom (x :: seen) rest
  end.

Definition dedupe (xs : list string) : list string := dedupeFrom [] xs.

End JS.

(* ===================================================================== *)
(** ** escape.ts and unescape.ts *)
(* ===================================================================== *)

Module Escape.

(** The class [[?*()[\]{}]] of the Windows mode. *)
Definition magicWin : string := "?*()[]{}".

(** The class [[?*()[\]{}\\]] of the default mode. *)
Definition magic : string := "?*()[]{}\".

(** [str.replace(/[?*()[\]{}\\]/g, '\\$&')] *)
Fixpoint escapeBackslash (s : string) : string :=
  match s with
  | EmptyString => EmptyString
  | String c rest =>
      if JS.inClass magic c
      then String "\" (String c (escapeBackslash rest))
      else String c (escapeBackslash rest)
  end.

(** [str.replace(/[?*()[\]{}]/g, '[$&]')] *)
Fixpoint escapeClass (s : string) : string :=
  match s with
  | EmptyString => EmptyString
  | String c rest =>
      if JS.inClass magicWin c
      then String "[" (String c (String "]" (escapeClass rest)))
      else String c (escapeClass rest)
  end.

Definition escape (str : string) (windowsPathsNoEscape : bool) : string :=
  if windowsPathsNoEscape then escapeClass str else escapeBackslash str.

(** [str.replace(/\\([^/])/g, '$1')]: a backslash followed by any code
    unit but a slash is dropped, the scan resumes after that code unit. *)
Fixpoint unescapeBackslash (s : string) : string :=
  match s with
  | EmptyString => EmptyString
  | String c rest =>
      if Ascii.eqb c "\"
      then match rest with
           | String d rest' =>
               if Ascii.eqb d "/" then String c (unescapeBackslash rest)
               else String d (unescapeBackslash rest')
           | EmptyString => String c EmptyString
           end
      else String c (unescapeBackslash rest)
  end.

(** [str.replace(/\[([^\/\\[\]{}])\]/g, '$1')]: a bracket pair around one
    code unit that is none of [/ \ [ ] { }] is removed. *)
Fixpoint unescapeClass (s : string) : string :=
  match s with
  | EmptyString => EmptyString
  | String c rest =>
      if Ascii.eqb c "["
      then match rest with
           | String d (String e rest'') =>
               if negb (JS.inClass "/\[]{}" d) && Ascii.eqb e "]"
               then String d (unescapeClass rest'')
               else String c (unescapeClass rest)
           | _ => String c (unescapeClass rest)
           end
      else String c (unescapeClass rest)
  end.

Definition unescape (str : string) (windowsPathsNoEscape : bool) : string :=
  if windowsPathsNoEscape then unescapeClass str else unescapeBackslash str.

End Escape.

(* ===================================================================== *)
(** ** types.ts: the option set *)
(* ===================================================================== *)

Module Types.

(** A value of the host language's number type, as far as the options
    carry one: not-a-number, the two infinities, or a finite (here
    integral) value. *)
Inductive number : Type :=
| NaN
| PosInfinity
| NegInfinity
| Finite (z : Z).

(** [MinimatchOptions].  A boolean switch that is absent reads as
    [false]: the sources only test these switches for truthiness.  The
    switches that are compared with [undefined] or [false] keep their
    three states. *)
Record MinimatchOptions : Type := mkOptions {
  dot : bool;
  nocase : bool;
  noglobstar : bool;
  nobrace : bool;
  noext : bool;
  nonegate : bool;
  nocomment : bool;
  matchBase : bool;
  nonull : bool;
  flipNegate : bool;
  windowsPathsNoEscape : bool;
  allowWindowsEscape : option bool;
  partial : bool;
  preserveMultipleSlashes : bool;
  platform : option string;
  failglob : bool;
  maxLength : option number
}.

(** The empty option object [{}]. *)
Definition noOptions : MinimatchOptions :=
  {| dot := false; nocase := false; noglobstar := false; nobrace := false;
     noext := false; nonegate := false; nocomment := false;
     matchBase := false; nonull := false; flipNegate := false;
     windowsPathsNoEscape := false; allowWindowsEscape := None;
     partial := false; preserveMultipleSlashes := false;
     platform := None; failglob := false; maxLength := None |}.

Definition withDot (o : MinimatchOptions) (b : bool) : MinimatchOptions :=
  mkOptions b (nocase o) (noglobstar o) (nobrace o) (noext o) (nonegate o)
    (nocomment o) (matchBase o) (nonull o) (flipNegate o)
    (windowsPathsNoEscape o) (allowWindowsEscape o) (partial o)
    (preserveMultipleSlashes o) (platform o) (failglob o) (maxLength o).

Definition withNobrace (o : MinimatchOptions) (b : bool) : MinimatchOptions :=
  mkOptions (dot o) (nocase o) (noglobstar o) b (noext o) (nonegate o)
    (nocomment o) (matchBase o) (nonull o) (flipNegate o)
    (windowsPathsNoEscape o) (allowWindowsEscape o) (partial o)
    (preserveMultipleSlashes o) (platform o) (failglob o) (maxLength o).

Definition withNonull (o : MinimatchOptions) (b : bool) : MinimatchOptions :=
  mkOptions (dot o) (nocase o) (noglobstar o) (nobrace o) (noext o)
    (nonegate o) (nocomment o) (matchBase o) b (flipNegate o)
    (windowsPathsNoEscape o) (allowWindowsEscape o) (partial o)
    (preserveMultipleSlashes o) (platform o) (failglob o) (maxLength o).

Definition withFlipNegate (o : MinimatchOptions) (b : bool) : MinimatchOptions :=
  mkOptions (dot o) (nocase o) (noglobstar o) (nobrace o) (noext o)
    (nonegate o) (nocomment o) (matchBase o) (nonull o) b
    (windowsPathsNoEscape o) (allowWindowsEscape o) (partial o)
    (preserveMultipleSlashes o) (platform o) (failglob o) (maxLength o).

Definition withWindowsPathsNoEscape (o : MinimatchOptions) (b : bool)
  : MinimatchOptions :=
  mkOptions (dot o) (nocase o) (noglobstar o) (nobrace o) (noext o)
    (nonegate o) (nocomment o) (matchBase o) (nonull o) (flipNegate o)
    b (allowWindowsEscape o) (partial o)
    (preserveMultipleSlashes o) (platform o) (failglob o) (maxLength o).

Definition withFailglob (o : MinimatchOptions) (b : bool) : MinimatchOptions :=
  mkOptions (dot o) (nocase o) (noglobstar o) (nobrace o) (noext o)
    (nonegate o) (nocomment o) (matchBase o) (nonull o) (flipNegate o)
    (windowsPathsNoEscape o) (allowWindowsEscape o) (partial o)
    (preserveMultipleSlashes o) (platform o) b (maxLength o).

Definition withMaxLength (o : MinimatchOptions) (n : number)
  : MinimatchOptions :=
  mkOptions (dot o) (nocase o) (noglobstar o) (nobrace o) (noext o)
    (nonegate o) (nocomment o) (matchBase o) (nonull o) (flipNegate o)
    (windowsPathsNoEscape o) (allowWindowsEscape o) (partial o)
    (preserveMultipleSlashes o) (platform o) (failglob o) (Some n).

(** [PicomatchOptions], the part of it that [translateOptions] fills
    from the switches above. *)
Record PicomatchOptions : Type := mkPicoOpts {
  pico_dot : bool;
  pico_nocase : bool;
  pico_nonegate : bool;
  pico_noglobstar : bool;
  pico_nobrace : bool;
  pico_noextglob : bool;
  pico_basename : bool;
  pico_posix : bool;
  pico_maxLength : option number
}.

(** What the sources throw. *)
Inductive error : Type :=
| TypeError (message : string).

Inductive result (A : Type) : Type :=
| Ok (value : A)
| Throw (e : error).
Arguments Ok {A} value.
Arguments Throw {A} e.

(** The packages the repository imports and the platform it runs on:
    [picomatch(glob, opts)] returns a matcher or throws ([None]);
    [braces(pattern, {expand: true, rangeLimit: 1000})] returns the
    expansion or throws ([None]); [defaultPlatform] is the value of
    [process.platform] read when [utils.ts] is loaded. *)
Record Engine : Type := mkEngine {
  picomatch : string -> PicomatchOptions -> option (string -> bool);
  braces : string -> option (list string);
  defaultPlatform : string
}.

End Types.
Import Types.

(* ===================================================================== *)
(** ** fast-paths.ts *)
(* ===================================================================== *)

Module FastPaths.

(** [STAR_RE = /^\*+$/] *)
Definition STAR_RE (pattern : string) : bool :=
  negb (String.eqb pattern "") && JS.allIn "*" pattern.

(** The negated class [[^+@!?\*\[\(]] of the two extension groups. *)
Definition extExcluded : string := "+@!?*[(".

(** A group [(\.[^+@!?\*\[\(]+)] matching the whole of [s]. *)
Definition isExtGroup (s : string) : bool :=
  match s with
  | String "." t => negb (String.eqb t "") && JS.noneIn extExcluded t
  | _ => false
  end.

(** [STAR_DOT_EXT_RE = /^\*+(\.[^+@!?\*\[\(]+)$/]; the result is the
    captured group.  The group holds no star, so the stars before it are
    the whole leading run. *)
Definition STAR_DOT_EXT_RE (pattern : string) : option string :=
  let (stars, rest) := JS.span "*" pattern in
  if negb (String.eqb stars "") && isExtGroup rest then Some rest else None.

(** [STAR_DOT_STAR_RE = /^\*+\.\*+$/] *)
Definition STAR_DOT_STAR_RE (pattern : string) : bool :=
  let (stars, rest) := JS.span "*" pattern in
  negb (String.eqb stars "") &&
  match rest with
  | String "." t => STAR_RE t
  | _ => false
  end.

(** [DOT_STAR_RE = /^\.\*+$/] *)
Definition DOT_STAR_RE (pattern : string) : bool :=
  match pattern with
  | String "." t => STAR_RE t
  | _ => false
  end.

(** [QMARKS_RE = /^(\?+)(\.[^+@!?\*\[\(]+)?$/]; the result holds the two
    captured groups, the second one [None] when it took no part. *)
Definition QMARKS_RE (pattern : string) : option (string * option string) :=
  let (qmarks, rest) := JS.span "?" pattern in
  if String.eqb qmarks "" then None
  else if String.eqb rest "" then Some (qmarks, None)
  else if isExtGroup rest then Some (qmarks, Some rest)
  else None.

(** [/[@!?+*]\(/.test(pattern)] *)
Fixpoint hasExtglobOpener (pattern : string) : bool :=
  match pattern with
  | String c rest =>
      (JS.inClass "@!?+*" c && JS.charAt0_is rest "(") || hasExtglobOpener rest
  | EmptyString => false
  end.

Definition isDotOrDotDot (path : string) : bool :=
  String.eqb path "." || String.eqb path "..".

(** [tryFastPath(path, pattern, options)]: [None] is the [null] of the
    source. *)
Definition tryFastPath (path pattern : string) (options : MinimatchOptions)
  : option bool :=
  if JS.includes path "/" then None
  else if JS.includes pattern "/" then None
  else if negb (nonegate options) && JS.startsWith pattern "!" then None
  else if negb (nobrace options) && JS.includes pattern "{" then None
  else if negb (noext options) && hasExtglobOpener pattern then None
  else if JS.includes pattern "[" then None
  else
    let dot := dot options in
    let nocase := nocase options in
    if STAR_RE pattern then
      if JS.len path =? 0 then Some false
      else if dot then Some (negb (isDotOrDotDot path))
      else Some (negb (JS.startsWith path "."))
    else
    match STAR_DOT_EXT_RE pattern with
    | Some ext =>
        if JS.len path =? 0 then Some false
        else if nocase then
          let lpath := JS.toLowerCase path in
          let lext := JS.toLowerCase ext in
          if dot then Some (JS.endsWith lpath lext)
          else Some (negb (JS.startsWith path ".") && JS.endsWith lpath lext)
        else if dot then Some (JS.endsWith path ext)
        else Some (negb (JS.startsWith path ".") && JS.endsWith path ext)
    | None =>
    if STAR_DOT_STAR_RE pattern then
      if JS.len path =? 0 then Some false
      else if dot then
        Some (negb (isDotOrDotDot path) && JS.includes path ".")
      else Some (negb (JS.startsWith path ".") && JS.includes path ".")
    else
    if DOT_STAR_RE pattern then
      Some (JS.startsWith path "." && negb (isDotOrDotDot path))
    else
    match QMARKS_RE pattern with
    | Some (qmarks, m2) =>
        let ext := match m2 with Some e => e | None => "" end in
        let qLen := JS.len qmarks in
        let expectedLen := qLen + JS.len ext in
        if negb (JS.len path =? expectedLen) then Some false
        else if isDotOrDotDot path then Some false
        else if negb (String.eqb ext "") &&
                (if nocase
                 then negb (JS.endsWith (JS.toLowerCase path)
                                        (JS.toLowerCase ext))
                 else negb (JS.endsWith path ext))
        then Some false
        else if negb dot && JS.startsWith path "." then Some false
        else Some true
    | None => None
    end
    end.

(** [mightUseFastPath(pattern)] *)
Definition mightUseFastPath (pattern : string) : bool :=
  negb (JS.includes pattern "/") &&
  negb (JS.includes pattern "{") &&
  negb (JS.includes pattern "[") &&
  negb (hasExtglobOpener pattern).

End FastPaths.

(* ===================================================================== *)
(** ** The host language's [Map], keyed by strings *)
(* ===================================================================== *)

Module JsMap.

(** Entries in insertion order, oldest first. *)
Definition t (V : Type) : Type := list (string * V).

Definition empty {V : Type} : t V := [].

(** [m.get(k)] *)
Fixpoint get {V : Type} (k : string) (m : t V) : option V :=
  match m with
  | [] => None
  | (k', v) :: rest => if String.eqb k' k then Some v else get k rest
  end.

Definition has {V : Type} (k : string) (m : t V) : bool :=
  match get k m with Some _ => true | None => false end.

(** [m.delete(k)] *)
Definition delete {V : Type} (k : string) (m : t V) : t V :=
  filter (fun kv => negb (String.eqb (fst kv) k)) m.

(** [m.set(k, v)]: a key already present keeps its place, a new key goes
    last. *)
Fixpoint set {V : Type} (k : string) (v : V) (m : t V) : t V :=
  match m with
  | [] => [(k, v)]
  | (k', v') :: rest =>
      if String.eqb k' k then (k, v) :: rest else (k', v') :: set k v rest
  end.

(** [m.size] *)
Definition size {V : Type} (m : t V) : Z := Z.of_nat (List.length m).

(** [m.keys().next().value] *)
Definition firstKey {V : Type} (m : t V) : option string :=
  match m with
  | [] => None
  | (k, _) :: _ => Some k
  end.

Definition keys {V : Type} (m : t V) : list string := map fst m.

End JsMap.

(* ===================================================================== *)
(** ** brace-expand.ts *)
(* ===================================================================== *)

Module BraceExpand.

Definition MAX_EXPANSION_LENGTH : Z := 10000.

Definition BRACE_CACHE_SIZE : Z := 200.

(** The module-level [braceCache]. *)
Definition BraceCache : Type := JsMap.t (list string).

(** [addToBraceCache(pattern, result)] *)
Definition addToBraceCache (pattern : string) (result : list string)
           (braceCache : BraceCache) : BraceCache :=
  let evicted :=
    if JsMap.size braceCache >=? BRACE_CACHE_SIZE then
      match JsMap.firstKey braceCache with
      | Some firstKey => JsMap.delete firstKey braceCache
      | None => braceCache
      end
    else braceCache in
  JsMap.set pattern result evicted.

(** [SIMPLE_BRACE_RE]: from the start of the pattern, a run of code units
    other than an opening brace (group 1), an opening brace, a non-empty
    run of code units other than braces (group 2), a closing brace, and a
    run of code units other than an opening brace (group 3) up to the end.
    The result holds the three groups.  No group may hold an opening
    brace, so the first one ends at the first opening brace of the
    pattern, and the second one at the first closing brace after it. *)
Definition SIMPLE_BRACE_RE (pattern : string)
  : option (string * string * string) :=
  let (prefix, r1) := JS.spanNot "{" pattern in
  match r1 with
  | String "{" r2 =>
      let (content, r3) := JS.spanNot "{}" r2 in
      match r3 with
      | String "}" suffix =>
          if negb (String.eqb content "") && JS.noneIn "{" suffix
          then Some (prefix, content, suffix)
          else None
      | _ => None
      end
  | _ => None
  end.

(** [trySimpleBraceExpand(pattern)] *)
Definition trySimpleBraceExpand (pattern : string) : option (list string) :=
  match SIMPLE_BRACE_RE pattern with
  | None => None
  | Some (prefix, content, suffix) =>
      if JS.includes content ".." then None
      else
        let items := JS.split "," content in
        Some (map (fun item => prefix ++ item ++ suffix) items)
  end.

(** [braceExpand(pattern, options)], with the cache it reads and
    writes.  The [try] block of the source is the last [match]: a throw
    of [braces] is its [None]. *)
Definition braceExpand (E : Engine) (pattern : string)
           (options : MinimatchOptions) (braceCache : BraceCache)
  : list string * BraceCache :=
  if nobrace options then ([pattern], braceCache)
  else
    let braceIdx := JS.indexOf pattern "{" in
    if (braceIdx =? -1) || (JS.indexOfFrom pattern "}" braceIdx =? -1)
    then ([pattern], braceCache)
    else
      match JsMap.get pattern braceCache with
      | Some cached => (cached, braceCache)
      | None =>
          match trySimpleBraceExpand pattern with
          | Some fastResult =>
              (fastResult, addToBraceCache pattern fastResult braceCache)
          | None =>
              match braces E pattern with
              | None => ([pattern], braceCache)
              | Some expanded =>
                  if Z.of_nat (List.length expanded) >? MAX_EXPANSION_LENGTH
                  then ([pattern], braceCache)
                  else
                    let unique := JS.dedupe expanded in
                    let result :=
                      if Z.of_nat (List.length unique) >? 0
                      then unique else [pattern] in
                    (result, addToBraceCache pattern result braceCache)
              end
          end
      end.

End BraceExpand.

(* ===================================================================== *)
(** ** utils.ts and options.ts *)
(* ===================================================================== *)

Module Utils.

(** [isWindows(platform)] *)
Definition isWindows (E : Engine) (platform : option string) : bool :=
  let p := match platform with
           | Some p => if String.eqb p "" then defaultPlatform E else p
           | None => defaultPlatform E
           end in
  String.eqb p "win32".

(** [getPlatform()] *)
Definition getPlatform (E : Engine) : string := defaultPlatform E.

(** [normalizePath(path, windowsPathsNoEscape)] *)
Definition normalizePath (path : string) (windowsPathsNoEscape : bool)
  : string :=
  if windowsPathsNoEscape then JS.replaceAllChar "\" "/" path else path.

(** [normalizePattern(pattern, windowsPathsNoEscape)] *)
Definition normalizePattern (pattern : string) (windowsPathsNoEscape : bool)
  : string :=
  if windowsPathsNoEscape then JS.replaceAllChar "\" "/" pattern
  else pattern.

(** [translateOptions(opts).picoOpts] *)
Definition translateOptions (opts : MinimatchOptions) : PicomatchOptions :=
  {| pico_dot := dot opts;
     pico_nocase := nocase opts;
     pico_nonegate := nonegate opts;
     pico_noglobstar := noglobstar opts;
     pico_nobrace := nobrace opts;
     pico_noextglob := noext opts;
     pico_basename := matchBase opts;
     pico_posix := true;
     pico_maxLength := maxLength opts |}.

End Utils.

(* ===================================================================== *)
(** ** minimatch-class.ts *)
(* ===================================================================== *)

Module MinimatchClass.

Definition MAX_PATTERN_LENGTH : Z := 65536.

(** [ParseReturn]: what one pattern segment parses to.  A compiled
    segment is represented by its [test] method. *)
Inductive ParseReturn : Type :=
| PFalse
| GLOBSTAR
| PString (s : string)
| PRegExp (test : string -> bool).

(** The instance fields that [match] reads.  The fields [set],
    [globParts] and [regexp] serve [hasMagic] and [makeRe] only and are
    left out. *)
Record Minimatch : Type := mkMinimatch {
  mm_pattern : string;
  mm_options : MinimatchOptions;
  mm_negate : bool;
  mm_comment : bool;
  mm_empty : bool;
  mm_preserveMultipleSlashes : bool;
  mm_partial : bool;
  mm_globSet : list string;
  mm_nocase : bool;
  mm_isWindows : bool;
  mm_platform : string;
  mm_windowsPathsNoEscape : bool;
  mm_nonegate : bool;
  mm_picoOpts : PicomatchOptions;
  mm_matchers : list (string -> bool);
  mm_hasNegatedCharClassCached : bool;
  mm_requiresTrailingSlashCached : bool;
  mm_patternBasename : string
}.

(** The loop of [parseNegate]: every leading exclamation mark toggles
    [negate] and is removed. *)
Fixpoint negateLoop (pattern : string) (negate : bool) : bool * string :=
  match pattern with
  | String "!" rest => negateLoop rest (negb negate)
  | _ => (negate, pattern)
  end.

(** [parseNegate()]: the new values of [negate] and [pattern]. *)
Definition parseNegate (nonegate : bool) (pattern : string)
  : bool * string :=
  if nonegate then (false, pattern) else negateLoop pattern false.

(** [pattern.replace(/\[\\b\]/g, '[b]')] *)
Fixpoint preprocessPattern (pattern : string) : string :=
  match pattern with
  | EmptyString => EmptyString
  | String c rest =>
      match c, rest with
      | "["%char, String "\" (String "b" (String "]" rest')) =>
          String "[" (String "b" (String "]" (preprocessPattern rest')))
      | _, _ => String c (preprocessPattern rest)
      end
  end.

(** The test of the constructor for a negated bracket expression: an
    opening bracket, a caret, a non-empty run of code units other than a
    closing bracket, and a closing bracket, anywhere in the pattern. *)
Fixpoint hasNegatedCharClass (pattern : string) : bool :=
  match pattern with
  | EmptyString => false
  | String c rest =>
      (Ascii.eqb c "[" &&
       match rest with
       | String "^" t =>
           let (body, r) := JS.spanNot "]" t in
           negb (String.eqb body "") && JS.charAt0_is r "]"
       | _ => false
       end)
      || hasNegatedCharClass rest
  end.

(** The test of the constructor for a dot directory between two
    globstars: two stars, a slash, a dot, a non-empty run of code units
    other than a slash, a slash and two stars, anywhere in the
    pattern. *)
Fixpoint requiresTrailingSlash (pattern : string) : bool :=
  match pattern with
  | EmptyString => false
  | String c rest =>
      (Ascii.eqb c "*" &&
       match rest with
       | String "*" (String "/" (String "." t)) =>
           let (body, r) := JS.spanNot "/" t in
           negb (String.eqb body "") && JS.startsWith r "/**"
       | _ => false
       end)
      || requiresTrailingSlash rest
  end.

(** [lastSlash >= 0 ? s.slice(lastSlash + 1) : s] *)
Definition afterLastSlash (s : string) : string :=
  let lastSlash := JS.lastIndexOf s "/" in
  if lastSlash >=? 0 then JS.sliceFrom s (lastSlash + 1) else s.

(** [new Minimatch(pattern, options)], with [make()] inlined: the
    instance, or the error thrown, and the brace cache after the call. *)
Definition new (E : Engine) (pattern : string) (options : MinimatchOptions)
           (braceCache : BraceExpand.BraceCache)
  : result Minimatch * BraceExpand.BraceCache :=
  if JS.len pattern >? MAX_PATTERN_LENGTH
  then (Throw (TypeError "pattern is too long"), braceCache)
  else
    let platform :=
      match platform options with
      | Some p => if String.eqb p "" then Utils.getPlatform E else p
      | None => Utils.getPlatform E
      end in
    let isWindows := Utils.isWindows E (Some platform) in
    let windowsPathsNoEscape :=
      windowsPathsNoEscape options ||
      match allowWindowsEscape options with
      | Some false => true
      | _ => false
      end in
    let pattern1 :=
      if windowsPathsNoEscape then Utils.normalizePattern pattern true
      else pattern in
    let picoOpts := Utils.translateOptions options in
    let instance (comment empty negate : bool) (pattern' : string)
                 (globSet : list string) (matchers : list (string -> bool)) :=
      {| mm_pattern := pattern';
         mm_options := options;
         mm_negate := negate;
         mm_comment := comment;
         mm_empty := empty;
         mm_preserveMultipleSlashes := preserveMultipleSlashes options;
         mm_partial := partial options;
         mm_globSet := globSet;
         mm_nocase := nocase options;
         mm_isWindows := isWindows;
         mm_platform := platform;
         mm_windowsPathsNoEscape := windowsPathsNoEscape;
         mm_nonegate := nonegate options;
         mm_picoOpts := picoOpts;
         mm_matchers := matchers;
         mm_hasNegatedCharClassCached := hasNegatedCharClass pattern';
         mm_requiresTrailingSlashCached := requiresTrailingSlash pattern';
         mm_patternBasename := afterLastSlash pattern' |} in
    (* make() *)
    if negb (nocomment options) && JS.charAt0_is pattern1 "#"
    then (Ok (instance true false false pattern1 [] []), braceCache)
    else if String.eqb pattern1 ""
    then (Ok (instance false true false pattern1 [] []), braceCache)
    else
      let (negate, pattern2) := parseNegate (nonegate options) pattern1 in
      let (expanded, braceCache') :=
        BraceExpand.braceExpand E pattern2 options braceCache in
      let globSet := JS.dedupe expanded in
      let matchers :=
        map (fun p =>
               match picomatch E (preprocessPattern p) picoOpts with
               | Some matcher => matcher
               | None => fun _ => false
               end) globSet in
      (Ok (instance false false negate pattern2 globSet matchers),
       braceCache').

(** The path as [match] looks at it once backslashes are folded. *)
Definition normalizedPath (mm : Minimatch) (path : string) : string :=
  if (mm_windowsPathsNoEscape mm || mm_isWindows mm) && JS.includes path "\"
  then Utils.normalizePath path true
  else path.

(** The scan of [match] for a dot directory between two globstars whose
    name is the last segment of the path. *)
Fixpoint endsAtDotDirectory (patternParts : list string)
         (lastPathPart : string) : bool :=
  match patternParts with
  | a :: rest =>
      match rest with
      | dotPart :: c :: _ =>
          (String.eqb a "**" && negb (String.eqb dotPart "") &&
           JS.startsWith dotPart "." && String.eqb c "**" &&
           String.eqb lastPathPart dotPart)
          || endsAtDotDirectory rest lastPathPart
      | _ => false
      end
  | [] => false
  end.

(** The first part of [match], up to the special handling of [.] and
    [..]: [Some b] when the method returns [b] there, [None] when it
    goes on to the matchers. *)
Definition matchEarly (mm : Minimatch) (path : string) (partial : bool)
  : option bool :=
  if mm_comment mm then Some false
  else if mm_empty mm then Some (String.eqb path "")
  else if String.eqb path "/" && partial then Some true
  else
    let path := normalizedPath mm path in
    let basename := afterLastSlash path in
    if (String.eqb basename "." || String.eqb basename "..") &&
       negb (String.eqb (mm_patternBasename mm) basename) &&
       negb (String.eqb (mm_patternBasename mm)
                        (".*" ++ JS.sliceFrom basename 1)) &&
       negb (JS.includes (mm_pattern mm) basename)
    then Some (mm_negate mm)
    else None.

(** The rest of [match]: the matchers and the compatibility
    corrections applied to their verdict. *)
Definition matchLate (mm : Minimatch) (path : string) : bool :=
  let path := normalizedPath mm path in
  let basename := afterLastSlash path in
  let pathWithoutTrailingSlash :=
    if JS.endsWith path "/" && (JS.len path >? 1) then JS.dropLast path
    else path in
  let matches :=
    if matchBase (mm_options mm) && negb (JS.includes path "/")
    then existsb (fun matcher => matcher path) (mm_matchers mm)
    else if matchBase (mm_options mm)
    then existsb (fun matcher => matcher path || matcher basename)
                 (mm_matchers mm)
    else existsb (fun matcher =>
                    matcher path || matcher pathWithoutTrailingSlash)
                 (mm_matchers mm) in
  let matches :=
    if matches && negb (dot (mm_options mm)) &&
       mm_hasNegatedCharClassCached mm && JS.startsWith basename "."
    then false else matches in
  let matches :=
    if matches && mm_requiresTrailingSlashCached mm &&
       negb (JS.endsWith path "/")
    then
      let patternParts := JS.split "/" (mm_pattern mm) in
      let pathParts := JS.split "/" path in
      let lastPathPart := List.last pathParts "" in
      if endsAtDotDirectory patternParts lastPathPart then false
      else matches
    else matches in
  if flipNegate (mm_options mm) then matches
  else if mm_negate mm then negb matches else matches.

(** [mm.match(path, partial)]; an absent [partial] is [this.partial]. *)
Definition match_ (mm : Minimatch) (path : string) (partial : option bool)
  : bool :=
  let partial := match partial with
                 | Some b => b
                 | None => mm_partial mm
                 end in
  match matchEarly mm path partial with
  | Some verdict => verdict
  | None => matchLate mm path
  end.

(** The test of [matchOne] for a segment a globstar may not swallow. *)
Definition isDotSegment (dot : bool) (f : string) : bool :=
  String.eqb f "." || String.eqb f ".." ||
  (negb dot && JS.charAt0_is f ".").

(** [mm.matchOne(file, pattern, partial)], [dot] being
    [this.options.dot].  The arguments are what is left of the two
    arrays from the indices [fi] and [pi] on; the recursive call of the
    source on [file.slice(fr)] and [pattern.slice(pr)] is the call on
    the corresponding tails. *)
Fixpoint matchOne (dot : bool) (file : list string)
         (pattern : list ParseReturn) (partial : bool) {struct pattern}
  : bool :=
  match pattern with
  | [] =>
      (* pi === pl *)
      match file with
      | [] => true
      | [f] => String.eqb f ""
      | _ => false
      end
  | p :: pr =>
      match file with
      | [] => partial
      | f :: fs =>
          match p with
          | PFalse => false
          | GLOBSTAR =>
              match pr with
              | [] => negb (existsb (isDotSegment dot) file)
              | _ :: _ =>
                  (fix swallow (rest : list string) : bool :=
                     match rest with
                     | [] => partial
                     | swallowee :: rest' =>
                         if matchOne dot rest pr partial then true
                         else if isDotSegment dot swallowee then false
                         else swallow rest'
                     end) file
              end
          | PString s =>
              if String.eqb f s then matchOne dot fs pr partial else false
          | PRegExp test =>
              if test f then matchOne dot fs pr partial else false
          end
      end
  end.

End MinimatchClass.

(* ===================================================================== *)
(** ** cache.ts *)
(* ===================================================================== *)

Module Cache.

Definition CACHE_SIZE : Z := 500.

(** The module-level state of the package: [patternCache] of [cache.ts]
    and [braceCache] of [brace-expand.ts]. *)
Record Store : Type := mkStore {
  patternCache : JsMap.t MinimatchClass.Minimatch;
  braceCache : BraceExpand.BraceCache
}.

Definition emptyStore : Store :=
  {| patternCache := JsMap.empty; braceCache := JsMap.empty |}.

Definition flag (b : bool) : string := if b then "1" else "0".

(** [getCacheKey(pattern, options)] *)
Definition getCacheKey (pattern : string) (options : MinimatchOptions)
  : string :=
  pattern ++ String Ascii.zero "" ++
  flag (nocase options) ++ flag (dot options) ++
  flag (noglobstar options) ++ flag (nobrace options) ++
  flag (noext options) ++ flag (nonegate options) ++
  flag (nocomment options) ++ flag (matchBase options) ++
  flag (flipNegate options) ++ flag (windowsPathsNoEscape options) ++
  flag (preserveMultipleSlashes options) ++ flag (partial options) ++
  match platform options with Some p => p | None => "" end.

(** [getOrCreateMatcher(pattern, options)] *)
Definition getOrCreateMatcher (E : Engine) (pattern : string)
           (options : MinimatchOptions) (st : Store)
  : result MinimatchClass.Minimatch * Store :=
  let key := getCacheKey pattern options in
  match JsMap.get key (patternCache st) with
  | Some mm =>
      (Ok mm,
       {| patternCache := JsMap.set key mm (JsMap.delete key (patternCache st));
          braceCache := braceCache st |})
  | None =>
      match MinimatchClass.new E pattern options (braceCache st) with
      | (Throw e, braceCache') =>
          (Throw e,
           {| patternCache := patternCache st; braceCache := braceCache' |})
      | (Ok mm, braceCache') =>
          let evicted :=
            if JsMap.size (patternCache st) >=? CACHE_SIZE then
              match JsMap.firstKey (patternCache st) with
              | Some firstKey => JsMap.delete firstKey (patternCache st)
              | None => patternCache st
              end
            else patternCache st in
          (Ok mm,
           {| patternCache := JsMap.set key mm evicted;
              braceCache := braceCache' |})
      end
  end.

(** [clearCache()] *)
Definition clearCache (st : Store) : Store :=
  {| patternCache := JsMap.empty; braceCache := braceCache st |}.

(** [getCacheSize()] *)
Definition getCacheSize (st : Store) : Z := JsMap.size (patternCache st).

End Cache.

(* ===================================================================== *)
(** ** index.ts *)
(* ===================================================================== *)

Module Index.

Import Cache.

(** [minimatch(path, pattern, options)] *)
Definition minimatch (E : Engine) (path pattern : string)
           (options : MinimatchOptions) (st : Store) : result bool * Store :=
  if String.eqb pattern "" then (Ok (String.eqb path ""), st)
  else if negb (nocomment options) && JS.charAt0_is pattern "#"
  then (Ok false, st)
  else
    let viaMatcher :=
      match getOrCreateMatcher E pattern options st with
      | (Ok mm, st') => (Ok (MinimatchClass.match_ mm path None), st')
      | (Throw e, st') => (Throw e, st')
      end in
    if negb (matchBase options) && FastPaths.mightUseFastPath pattern then
      match FastPaths.tryFastPath path pattern options with
      | Some fastResult => (Ok fastResult, st)
      | None => viaMatcher
      end
    else viaMatcher.

(** [minimatch.match(list, pattern, options)] *)
Definition match_ (E : Engine) (list : list string) (pattern : string)
           (options : MinimatchOptions) (st : Store)
  : result (List.list string) * Store :=
  match getOrCreateMatcher E pattern options st with
  | (Throw e, st') => (Throw e, st')
  | (Ok mm, st') =>
      let result :=
        filter (fun f => MinimatchClass.match_ mm f None) list in
      if nonull (MinimatchClass.mm_options mm) &&
         (Z.of_nat (List.length result) =? 0)
      then (Ok [pattern], st')
      else (Ok result, st')
  end.

End Index.

(* ===================================================================== *)
(** ** Sequences of cached compilations, and a stand-in engine *)
(* ===================================================================== *)

Module Runs.

Import Cache.

(** The store after a sequence of calls of [getOrCreateMatcher], the
    results being dropped. *)
Fixpoint run (E : Engine) (calls : list (string * MinimatchOptions))
         (st : Store) : Store :=
  match calls with
  | [] => st
  | (pattern, options) :: rest =>
      run E rest (snd (getOrCreateMatcher E pattern options st))
  end.

(** The invariant of the pattern cache: unique keys, at most
    [CACHE_SIZE] entries. *)
Definition cacheInvariant (st : Store) : Prop :=
  NoDup (JsMap.keys (patternCache st)) /\
  JsMap.size (patternCache st) <= CACHE_SIZE.

(** A pair of a file segment and a pattern token that lets [matchOne]
    step to the next pair: a string token equal to the segment, or a
    compiled token accepting it. *)
Definition hit (f : string) (p : MinimatchClass.ParseReturn) : bool :=
  match p with
  | MinimatchClass.PString s => String.eqb f s
  | MinimatchClass.PRegExp test => test f
  | _ => false
  end.

(** A wildcard matcher for one path: a star stands for a run of code
    units other than a slash, a question mark for one of them, any other
    code unit for itself. *)
Fixpoint wildcard (pattern : string) (s : string) {struct pattern} : bool :=
  match pattern with
  | EmptyString => String.eqb s ""
  | String c pattern' =>
      if Ascii.eqb c "*" then
        (fix star (s : string) : bool :=
           wildcard pattern' s ||
           match s with
           | String d s' => negb (Ascii.eqb d "/") && star s'
           | EmptyString => false
           end) s
      else
        match s with
        | String d s' =>
            (if Ascii.eqb c "?" then negb (Ascii.eqb d "/")
             else Ascii.eqb c d) && wildcard pattern' s'
        | EmptyString => false
        end
  end.

(** A stand-in for the two imported packages, used to run the
    definitions on concrete inputs: its segment compiler is [wildcard],
    with a leading dot of the path matched only by a dot of the pattern
    unless [dot] is set; its brace expander always throws. *)
Definition sampleEngine : Engine :=
  {| picomatch := fun glob opts =>
       Some (fun s =>
               (pico_dot opts || negb (JS.startsWith s ".") ||
                JS.startsWith glob ".") && wildcard glob s);
     braces := fun _ => None;
     defaultPlatform := "linux" |}.

(** The two-letter patterns [aa], [ab], ..., [az], [ba], ...: the first
    [n] of them, all distinct for [n] up to 676, each with the empty
    option object. *)
Definition nthPattern (i : nat) : string :=
  String (ascii_of_nat (97 + i / 26))
         (String (ascii_of_nat (97 + i mod 26)) EmptyString).

Definition distinctPatterns (n : nat) : list (string * MinimatchOptions) :=
  map (fun i => (nthPattern i, noOptions)) (seq 0 n).

End Runs.
Import Runs.

(* ===================================================================== *)
(** ** utils.ts and minimatch-class.ts: pattern segments *)
(* ===================================================================== *)

Module Segments.

(** [s.split(/\/+/)]: the pieces between the maximal runs of slashes;
    [inRun] tells that the code unit before [s] was a slash of the run
    being skipped. *)
Fixpoint splitSlashRunsFrom (inRun : bool) (s : string) : list string :=
  match s with
  | EmptyString => [EmptyString]
  | String c rest =>
      if Ascii.eqb c "/" then
        if inRun then splitSlashRunsFrom true rest
        else EmptyString :: splitSlashRunsFrom true rest
      else
        match splitSlashRunsFrom false rest with
        | [] => [String c EmptyString]
        | h :: t => String c h :: t
        end
  end.

Definition splitSlashRuns (s : string) : list string :=
  splitSlashRunsFrom false s.

(** The test of [slashSplit] for a UNC path: two slashes at the start
    followed by a code unit other than a slash. *)
Definition isUNC (path : string) : bool :=
  match path with
  | String "/" (String "/" (String c _)) => negb (Ascii.eqb c "/")
  | _ => false
  end.

(** [parts.filter((p) => p !== '')] *)
Definition nonEmptyParts (parts : list string) : list string :=
  filter (fun p => negb (String.eqb p "")) parts.

(** [slashSplit(path, preserveMultipleSlashes, isWindowsPlatform)] *)
Definition slashSplit (path : string)
           (preserveMultipleSlashes isWindowsPlatform : bool) : list string :=
  if String.eqb path "" then [""]
  else if preserveMultipleSlashes then JS.split "/" path
  else if isWindowsPlatform && isUNC path then
    let parts := splitSlashRuns path in
    "" :: match parts with
          | [] => []
          | first :: others => first :: nonEmptyParts others
          end
  else
    let parts := splitSlashRuns path in
    if JS.startsWith path "/" then "" :: nonEmptyParts parts
    else nonEmptyParts parts.

(** [set[set.length - 1]], [None] for [undefined]. *)
Fixpoint lastOf (set : list string) : option string :=
  match set with
  | [] => None
  | [x] => Some x
  | _ :: rest => lastOf rest
  end.

(** A segment that a following [..] cancels: the test
    [prev && prev !== '..' && prev !== '.' && prev !== '**'] of
    [preprocess]. *)
Definition cancellable (prev : string) : bool :=
  negb (String.eqb prev "") && negb (String.eqb prev "..") &&
  negb (String.eqb prev ".") && negb (String.eqb prev "**").

(** The callback that [preprocess] hands to [parts.reduce]: [set] is the
    accumulator, in the order of the array. *)
Definition reduceStep (set : list string) (part : string) : list string :=
  match lastOf set with
  | Some prev =>
      if String.eqb part "**" && String.eqb prev "**" then set
      else if String.eqb part ".." && cancellable prev then removelast set
      else (set ++ [part])%list
  | None => (set ++ [part])%list
  end.

(** [preprocess(globParts)], with [this.options.noglobstar] and the
    value of [optimizationLevel] (1 when the option is absent) as
    arguments. *)
Definition preprocess (noglobstar : bool) (optimizationLevel : Z)
           (globParts : list (list string)) : list (list string) :=
  let globParts :=
    if noglobstar
    then map (map (fun part => if String.eqb part "**" then "*" else part))
             globParts
    else globParts in
  if optimizationLevel >=? 1 then
    map (fun parts => match parts with [] => [""] | _ => parts end)
        (map (fun parts => fold_left reduceStep parts []) globParts)
  else globParts.

(** The value [make()] stores in [this.globParts]. *)
Definition globParts (mm : MinimatchClass.Minimatch) (optimizationLevel : Z)
  : list (list string) :=
  preprocess (noglobstar (MinimatchClass.mm_options mm)) optimizationLevel
    (map (fun s => slashSplit s (MinimatchClass.mm_preserveMultipleSlashes mm)
                     (MinimatchClass.mm_isWindows mm))
         (MinimatchClass.mm_globSet mm)).

End Segments.

(* ===================================================================== *)
(** ** Notions used to state the properties *)
(* ===================================================================== *)

Module Notions.

(** What [preprocess] aims at: no globstar right after a globstar, and
    no [..] right after a segment it cancels. *)
Fixpoint reduced (parts : list string) : bool :=
  match parts with
  | a :: rest =>
      match rest with
      | b :: _ =>
          negb (String.eqb b "**" && String.eqb a "**") &&
          negb (String.eqb b ".." && Segments.cancellable a) &&
          reduced rest
      | [] => true
      end
  | [] => true
  end.

(** [sep] between the members of [parts]: [parts.join(sep)]. *)
Fixpoint join (sep : string) (parts : list string) : string :=
  match parts with
  | [] => EmptyString
  | [x] => x
  | x :: rest => x ++ sep ++ join sep rest
  end.

(** A run of [n] exclamation marks. *)
Fixpoint bangs (n : nat) : string :=
  match n with
  | O => EmptyString
  | S n' => String "!" (bangs n')
  end.

(** The instance with its negation flag flipped. *)
Definition negated (mm : MinimatchClass.Minimatch) : MinimatchClass.Minimatch :=
  MinimatchClass.mkMinimatch
    (MinimatchClass.mm_pattern mm) (MinimatchClass.mm_options mm)
    (negb (MinimatchClass.mm_negate mm)) (MinimatchClass.mm_comment mm)
    (MinimatchClass.mm_empty mm) (MinimatchClass.mm_preserveMultipleSlashes mm)
    (MinimatchClass.mm_partial mm) (MinimatchClass.mm_globSet mm)
    (MinimatchClass.mm_nocase mm) (MinimatchClass.mm_isWindows mm)
    (MinimatchClass.mm_platform mm) (MinimatchClass.mm_windowsPathsNoEscape mm)
    (MinimatchClass.mm_nonegate mm) (MinimatchClass.mm_picoOpts mm)
    (MinimatchClass.mm_matchers mm)
    (MinimatchClass.mm_hasNegatedCharClassCached mm)
    (MinimatchClass.mm_requiresTrailingSlashCached mm)
    (MinimatchClass.mm_patternBasename mm).

(** The loop of [matchOne] at a globstar that is not the last token,
    [tryRest] being the recursive call on what is left of the pattern. *)
Fixpoint swallow (dot partial : bool) (tryRest : list string -> bool)
         (rest : list string) : bool :=
  match rest with
  | [] => partial
  | swallowee :: rest' =>
      if tryRest rest then true
      else if MinimatchClass.isDotSegment dot swallowee then false
      else swallow dot partial tryRest rest'
  end.

(** The store after a sequence of calls of [braceExpand]. *)
Fixpoint runBrace (E : Engine) (calls : list (string * MinimatchOptions))
         (bc : BraceExpand.BraceCache) : BraceExpand.BraceCache :=
  match calls with
  | [] => bc
  | (pattern, options) :: rest =>
      runBrace E rest (snd (BraceExpand.braceExpand E pattern options bc))
  end.

(** What [braceExpand] returns from an empty cache with [nobrace]
    unset. *)
Definition expandCold (E : Engine) (pattern : string) : list string :=
  fst (BraceExpand.braceExpand E pattern noOptions JsMap.empty).

(** A brace cache whose every entry holds what a call from an empty
    cache returns for its key. *)
Definition braceCacheSound (E : Engine) (bc : BraceExpand.BraceCache) : Prop :=
  forall pattern cached,
    JsMap.get pattern bc = Some cached -> cached = expandCold E pattern.

End Notions.
Import Notions.

(* ===================================================================== *)
(** * Checks on concrete inputs *)
(* ===================================================================== *)

Open Scope list_scope.
Example fast1 : FastPaths.tryFastPath "foo.js" "*.js" noOptions = Some true.
Proof. reflexivity. Qed.
Example fast2 : FastPaths.tryFastPath "foo.txt" "*.js" noOptions = Some false.
Proof. reflexivity. Qed.
Example fast3 : FastPaths.tryFastPath ".hidden" "*" noOptions = Some false.
Proof. reflexivity. Qed.
Example fast4 : FastPaths.tryFastPath ".hidden" "*" (withDot noOptions true) = Some true.
Proof. reflexivity. Qed.
Example fast5 : FastPaths.tryFastPath "foo.js" "**/*.js" noOptions = None.
Proof. reflexivity. Qed.
Example fast6 : FastPaths.tryFastPath "abc.js" "???.js" noOptions = Some true.
Proof. reflexivity. Qed.
Example fast7 : FastPaths.tryFastPath ".." "??" (withDot noOptions true) = Some false.
Proof. reflexivity. Qed.
Example fast8 : FastPaths.tryFastPath "a.b" "*.*" noOptions = Some true.
Proof. reflexivity. Qed.
Example fast9 : FastPaths.tryFastPath "ab" "a*" noOptions = None.
Proof. reflexivity. Qed.

Example js_afterLastSlash :
  MinimatchClass.afterLastSlash "a/b/c" = "c" /\
  MinimatchClass.afterLastSlash "a/" = "" /\
  MinimatchClass.afterLastSlash "abc" = "abc".
Proof. repeat split. Qed.

Example js_split :
  JS.split "/" "a//b" = ["a"; ""; "b"] /\ JS.split "/" "" = [""] /\
  JS.split "," "a,b,c" = ["a"; "b"; "c"].
Proof. repeat split. Qed.

Example js_endsWith :
  JS.endsWith "foo.js" ".js" = true /\ JS.endsWith "js" ".js" = false /\
  JS.endsWith "dir/" "/" = true.
Proof. repeat split. Qed.

Example js_indexOf :
  JS.indexOf "a{b}c" "{" = 1 /\ JS.indexOfFrom "}a{b}c" "}" 2 = 4 /\
  JS.indexOfFrom "}a{b" "}" 2 = -1 /\ JS.lastIndexOf "a/b/c" "/" = 3.
Proof. repeat split. Qed.

Example js_dedupe : JS.dedupe ["a"; "b"; "a"; "c"; "b"] = ["a"; "b"; "c"].
Proof. reflexivity. Qed.

Example compat_flags :
  MinimatchClass.hasNegatedCharClass "a[^bc]d" = true /\
  MinimatchClass.hasNegatedCharClass "a[^]d" = false /\
  MinimatchClass.requiresTrailingSlash "**/.x/**" = true /\
  MinimatchClass.requiresTrailingSlash "**/x/**" = false /\
  MinimatchClass.preprocessPattern "a[\b]c" = "a[b]c".
Proof. repeat split. Qed.

Example sample_dot_directory :
  match MinimatchClass.new sampleEngine "**/.x/**" noOptions JsMap.empty with
  | (Ok mm, _) =>
      MinimatchClass.endsAtDotDirectory
        (JS.split "/" (MinimatchClass.mm_pattern mm)) ".x" = true
  | _ => False
  end.
Proof. reflexivity. Qed.

Example escape_star_js : Escape.escape "*.js" false = "\*.js".
Proof. reflexivity. Qed.

Example escape_star_js_win : Escape.escape "*.js" true = "[*].js".
Proof. reflexivity. Qed.

Example unescape_star_js_win : Escape.unescape "[*].js" true = "*.js".
Proof. reflexivity. Qed.

Example unescape_readme :
  Escape.unescape (Escape.escape "test[*].js" false) false = "test[*].js".
Proof. reflexivity. Qed.

Example simple_brace_abc :
  BraceExpand.trySimpleBraceExpand "{a,b,c}" = Some ["a"; "b"; "c"].
Proof. reflexivity. Qed.

Example simple_brace_file :
  BraceExpand.trySimpleBraceExpand "file.{js,ts}" = Some ["file.js"; "file.ts"].
Proof. reflexivity. Qed.

Example simple_brace_range : BraceExpand.trySimpleBraceExpand "{1..5}" = None.
Proof. reflexivity. Qed.

Example simple_brace_nested : BraceExpand.trySimpleBraceExpand "{a,{b,c}}" = None.
Proof. reflexivity. Qed.

Example brace_nobrace :
  fst (BraceExpand.braceExpand sampleEngine "{a,b}" (withNobrace noOptions true)
         JsMap.empty) = ["{a,b}"].
Proof. reflexivity. Qed.

Example negate_three : MinimatchClass.parseNegate false "!!!*.js" = (true, "*.js").
Proof. reflexivity. Qed.

Example matchOne_globstar_mid :
  MinimatchClass.matchOne false ["a"; "x"; "y"; "b"]
    [MinimatchClass.PString "a"; MinimatchClass.GLOBSTAR; MinimatchClass.PString "b"]
    false = true.
Proof. reflexivity. Qed.

Example matchOne_globstar_dot :
  MinimatchClass.matchOne false ["a"; ".x"; "b"]
    [MinimatchClass.PString "a"; MinimatchClass.GLOBSTAR; MinimatchClass.PString "b"]
    false = false.
Proof. reflexivity. Qed.

Example sample_match_neg :
  match MinimatchClass.new sampleEngine "!*.js" noOptions JsMap.empty with
  | (Ok mm, _) => MinimatchClass.match_ mm "foo.js" None = false
  | _ => False
  end.
Proof. reflexivity. Qed.

Example sample_match_neg2 :
  match MinimatchClass.new sampleEngine "!!*.js" noOptions JsMap.empty with
  | (Ok mm, _) => MinimatchClass.match_ mm "foo.js" None = true
  | _ => False
  end.
Proof. reflexivity. Qed.

Example cache_key_example :
  Cache.getCacheKey "a" (withDot noOptions true)
  = ("a" ++ String Ascii.zero "010000000000")%string.
Proof. reflexivity. Qed.

(* ===================================================================== *)
(** * escape and unescape *)
(* ===================================================================== *)

(** Case analysis on the eight bits of a code unit, for the facts about
    classes of code units that hold by inspection. *)
Ltac each_code_unit c := destruct c as [[] [] [] [] [] [] [] []].

Section EscapeFacts.

Import Escape.

Lemma magic_not_slash (c : ascii) :
  JS.inClass magic c = true -> Ascii.eqb c "/" = false.
Proof.
  intro H. destruct (Ascii.eqb_spec c "/") as [-> | _]; [| reflexivity].
  discriminate H.
Qed.

Lemma plain_not_backslash (c : ascii) :
  JS.inClass magic c = false -> Ascii.eqb c "\" = false.
Proof.
  intro H. destruct (Ascii.eqb_spec c "\") as [-> | _]; [| reflexivity].
  discriminate H.
Qed.

(** In the default mode [unescape] undoes [escape] on every string. *)
Lemma unescape_escape_backslash (s : string) :
  unescape (escape s false) false = s.
Proof.
  unfold unescape, escape.
  induction s as [| c s IH]; [reflexivity |].
  cbn [escapeBackslash].
  destruct (JS.inClass magic c) eqn:Hc.
  - cbn [unescapeBackslash]. rewrite (magic_not_slash c Hc).
    cbn. now rewrite IH.
  - cbn [unescapeBackslash]. rewrite (plain_not_backslash c Hc).
    now rewrite IH.
Qed.

(** The strings the class-wrap mode can round-trip: those free of
    brackets and braces. *)
Lemma unescape_escape_class (s : string) :
  JS.noneIn "[]{}" s = true -> unescape (escape s true) true = s.
Proof.
  unfold unescape, escape.
  induction s as [| c s IH]; [reflexivity |].
  intro H. cbn [JS.noneIn] in H. apply andb_true_iff in H as [Hc Hs].
  specialize (IH Hs). cbn [escapeClass].
  destruct (JS.inClass magicWin c) eqn:Hm.
  - assert (Hd : JS.inClass "/\[]{}" c = false).
    { clear IH Hs. unfold magicWin in Hm.
      each_code_unit c;
        first [reflexivity | discriminate Hm | discriminate Hc]. }
    cbn [unescapeClass]. cbn [Ascii.eqb Bool.eqb]. rewrite Hd. cbn.
    now rewrite IH.
  - assert (Hb : Ascii.eqb c "[" = false).
    { destruct (Ascii.eqb_spec c "[") as [-> | _]; [| reflexivity].
      discriminate Hm. }
    cbn [unescapeClass]. rewrite Hb. now rewrite IH.
Qed.

End EscapeFacts.

(** C9 (at the failing input).  With [windowsPathsNoEscape] set, [escape]
    wraps an opening bracket into a bracket pair, and [unescape] leaves
    the three code units as they are, because its class rules out a
    bracket between the pair: the round trip of the one-character string
    made of an opening bracket is not the identity. *)
Theorem unescape_escape_class_bracket :
  Escape.escape "[" true = "[[]" /\
  Escape.unescape (Escape.escape "[" true) true = "[[]" /\
  Escape.unescape (Escape.escape "[" true) true <> "[".
Proof. repeat split; try reflexivity. discriminate. Qed.

(* ===================================================================== *)
(** * The match engine: [matchOne] *)
(* ===================================================================== *)

Section MatchOneFacts.

Import MinimatchClass.

Variable dot : bool.

(** One step of the walk over a pair that hits. *)
Lemma matchOne_step f fs p pr partial :
  hit f p = true ->
  matchOne dot (f :: fs) (p :: pr) partial = matchOne dot fs pr partial.
Proof.
  destruct p as [| | s | test]; cbn [hit]; intro H; try discriminate H.
  - cbn [matchOne]. now rewrite H.
  - cbn [matchOne]. now rewrite H.
Qed.

(** The walk over a prefix of pairs that all hit. *)
Lemma matchOne_walk fpre ppre frest prest partial :
  Forall2 (fun f p => hit f p = true) fpre ppre ->
  matchOne dot (fpre ++ frest) (ppre ++ prest) partial
  = matchOne dot frest prest partial.
Proof.
  induction 1 as [| f p fpre ppre Hfp _ IH]; [reflexivity |].
  cbn [app]. now rewrite matchOne_step.
Qed.

Lemma matchOne_file_exhausted p pr partial :
  matchOne dot [] (p :: pr) partial = partial.
Proof. reflexivity. Qed.

Lemma matchOne_pattern_exhausted file :
  matchOne dot file [] false = true <-> file = [] \/ file = [""].
Proof.
  destruct file as [| f [| g rest]]; cbn [matchOne].
  - split; [now left | reflexivity].
  - split.
    + intro H. apply String.eqb_eq in H. subst. now right.
    + intros [H | H]; [discriminate H |]. injection H as ->. reflexivity.
  - split; [discriminate |]. intros [H | H]; discriminate H.
Qed.

Lemma matchOne_globstar_last f fs partial :
  matchOne dot (f :: fs) [GLOBSTAR] partial
  = negb (existsb (isDotSegment dot) (f :: fs)).
Proof. reflexivity. Qed.

End MatchOneFacts.

(** C7.  When the walk of [matchOne] has hit on every pair
    before a globstar that is the last pattern token, and at least one
    file segment is left there, the result is [true] unless one of the
    segments left is [.], [..] or, when [dot] is not set, starts with a
    dot; when no file segment is left the result is the [partial] flag. *)
Theorem matchOne_trailing_globstar
        (dot : bool) (fpre frest : list string)
        (ppre : list MinimatchClass.ParseReturn) (partial : bool) :
  Forall2 (fun f p => hit f p = true) fpre ppre ->
  MinimatchClass.matchOne dot (fpre ++ frest)
    (ppre ++ [MinimatchClass.GLOBSTAR]) partial
  = match frest with
    | [] => partial
    | _ :: _ => negb (existsb (MinimatchClass.isDotSegment dot) frest)
    end.
Proof.
  intro Hwalk. rewrite (matchOne_walk dot _ _ _ _ _ Hwalk).
  destruct frest as [| f fs]; reflexivity.
Qed.

Lemma matchOne_trailing_globstar_witness :
  Forall2 (fun f p => hit f p = true) ["a"] [MinimatchClass.PString "a"] /\
  MinimatchClass.matchOne false (["a"] ++ ["b"; "c"])
    ([MinimatchClass.PString "a"] ++ [MinimatchClass.GLOBSTAR]) false = true /\
  MinimatchClass.matchOne false (["a"] ++ ["b"; ".c"])
    ([MinimatchClass.PString "a"] ++ [MinimatchClass.GLOBSTAR]) false = false.
Proof.
  assert (H : Forall2 (fun f p => hit f p = true)
                      ["a"] [MinimatchClass.PString "a"]).
  { constructor; [reflexivity | constructor]. }
  split; [exact H |]. split.
  - exact (matchOne_trailing_globstar false ["a"] ["b"; "c"]
             [MinimatchClass.PString "a"] false H).
  - exact (matchOne_trailing_globstar false ["a"] ["b"; ".c"]
             [MinimatchClass.PString "a"] false H).
Defined.

(** C8.  When the walk of [matchOne] has hit on every pair and one of the
    two sequences is used up: with both used up the result is [true];
    with only the file used up it is the [partial] flag; with only the
    pattern used up it is [true] exactly when one file segment is left
    and that segment is the empty string. *)
Theorem matchOne_walk_end
        (dot : bool) (fpre frest : list string)
        (ppre prest : list MinimatchClass.ParseReturn) (partial : bool) :
  Forall2 (fun f p => hit f p = true) fpre ppre ->
  (frest = [] -> prest = [] ->
   MinimatchClass.matchOne dot (fpre ++ frest) (ppre ++ prest) partial = true) /\
  (frest = [] -> prest <> [] ->
   MinimatchClass.matchOne dot (fpre ++ frest) (ppre ++ prest) partial
   = partial) /\
  (frest <> [] -> prest = [] ->
   (MinimatchClass.matchOne dot (fpre ++ frest) (ppre ++ prest) partial = true
    <-> frest = [""])).
Proof.
  intro Hwalk. rewrite (matchOne_walk dot _ _ _ _ _ Hwalk).
  repeat split.
  - intros -> ->. reflexivity.
  - intros -> Hp. destruct prest as [| p pr]; [now elim Hp | reflexivity].
  - subst prest. destruct frest as [| f [| g rest]]; cbn [MinimatchClass.matchOne].
    + now elim H.
    + intro E. apply String.eqb_eq in E. now subst.
    + discriminate.
  - subst prest. intros ->. reflexivity.
Qed.

Lemma matchOne_walk_end_witness :
  MinimatchClass.matchOne false (["a"] ++ []) ([MinimatchClass.PString "a"] ++ [])
    false = true /\
  MinimatchClass.matchOne false (["a"] ++ [])
    ([MinimatchClass.PString "a"] ++ [MinimatchClass.PString "b"]) true = true /\
  (MinimatchClass.matchOne false (["a"] ++ [""]) ([MinimatchClass.PString "a"] ++ [])
     false = true <-> [""] = [""]).
Proof.
  assert (H : Forall2 (fun f p => hit f p = true)
                      ["a"] [MinimatchClass.PString "a"]).
  { constructor; [reflexivity | constructor]. }
  split; [| split].
  - exact (proj1 (matchOne_walk_end false ["a"] [] [MinimatchClass.PString "a"]
                    [] false H) eq_refl eq_refl).
  - refine (proj1 (proj2 (matchOne_walk_end false ["a"] []
                    [MinimatchClass.PString "a"] [MinimatchClass.PString "b"]
                    true H)) eq_refl _).
    discriminate.
  - refine (proj2 (proj2 (matchOne_walk_end false ["a"] [""]
                    [MinimatchClass.PString "a"] [] false H)) _ eq_refl).
    discriminate.
Defined.

(* ===================================================================== *)
(** * The compatibility layer: [Minimatch.match] *)
(* ===================================================================== *)

Section MatchFacts.

Import MinimatchClass.

(** The constructor throws on over-long patterns and on nothing else. *)
Lemma new_outcome E pattern options bc :
  if JS.len pattern >? MAX_PATTERN_LENGTH
  then MinimatchClass.new E pattern options bc
       = (Throw (TypeError "pattern is too long"), bc)
  else exists mm bc', MinimatchClass.new E pattern options bc = (Ok mm, bc').
Proof.
  unfold MinimatchClass.new.
  destruct (JS.len pattern >? MAX_PATTERN_LENGTH); [reflexivity |].
  repeat match goal with
         | |- context [if ?b then _ else _] => destruct b
         | |- context [let (_, _) := ?x in _] => destruct x
         end; eauto.
Qed.

(** A path equal to the root has no [.] or [..] as its last segment,
    whatever the separator mode. *)
Lemma root_basename mm :
  afterLastSlash (normalizedPath mm "/") = "".
Proof.
  unfold normalizedPath. cbn.
  destruct (mm_windowsPathsNoEscape mm || mm_isWindows mm); reflexivity.
Qed.

End MatchFacts.

(** C10.  For a compiled pattern that is neither a comment nor empty,
    [match] on the path [/] in partial mode returns [true]: the test comes
    before the matchers and before negation and [flipNegate] are looked
    at.  The partial mode is either passed to [match] or, when the
    argument is absent, the [partial] option of the instance. *)
Theorem match_root_partial
        (E : Engine) (pattern : string) (options : MinimatchOptions)
        (bc bc' : BraceExpand.BraceCache) (mm : MinimatchClass.Minimatch)
        (partial : option bool) :
  MinimatchClass.new E pattern options bc = (Ok mm, bc') ->
  MinimatchClass.mm_comment mm = false ->
  MinimatchClass.mm_empty mm = false ->
  match partial with
  | Some b => b
  | None => MinimatchClass.mm_partial mm
  end = true ->
  MinimatchClass.match_ mm "/" partial = true.
Proof.
  intros _ Hc He Hp.
  unfold MinimatchClass.match_, MinimatchClass.matchEarly.
  rewrite Hc, He, Hp. reflexivity.
Qed.

Lemma match_root_partial_witness :
  exists mm bc',
    MinimatchClass.new sampleEngine "!*.js" (withFlipNegate noOptions true)
      JsMap.empty = (Ok mm, bc') /\
    MinimatchClass.mm_negate mm = true /\
    MinimatchClass.match_ mm "/" (Some true) = true.
Proof.
  eexists. eexists. split; [reflexivity |]. split; [reflexivity |].
  eapply (match_root_partial sampleEngine "!*.js"
            (withFlipNegate noOptions true) JsMap.empty);
    reflexivity.
Defined.

(** C4 (as amended).  For a compiled pattern that is neither a comment
    nor empty and a path whose last segment, once backslashes are folded,
    is [.] or [..]: [match] goes on to the matchers when the basename of
    the pattern is that segment, or is [.*] followed by the segment less
    its first code unit, or when the pattern text contains the segment;
    otherwise it returns the negation flag, whatever [dot] and
    [flipNegate] are. *)
Theorem match_dot_segments
        (E : Engine) (pattern : string) (options : MinimatchOptions)
        (bc bc' : BraceExpand.BraceCache) (mm : MinimatchClass.Minimatch)
        (path : string) (partial : option bool) :
  MinimatchClass.new E pattern options bc = (Ok mm, bc') ->
  MinimatchClass.mm_comment mm = false ->
  MinimatchClass.mm_empty mm = false ->
  let basename :=
    MinimatchClass.afterLastSlash (MinimatchClass.normalizedPath mm path) in
  basename = "." \/ basename = ".." ->
  MinimatchClass.match_ mm path partial
  = if String.eqb (MinimatchClass.mm_patternBasename mm) basename
       || String.eqb (MinimatchClass.mm_patternBasename mm)
                     (".*" ++ JS.sliceFrom basename 1)
       || JS.includes (MinimatchClass.mm_pattern mm) basename
    then MinimatchClass.matchLate mm path
    else MinimatchClass.mm_negate mm.
Proof.
  intros _ Hc He basename Hb.
  unfold MinimatchClass.match_, MinimatchClass.matchEarly.
  rewrite Hc, He. fold basename.
  assert (Hroot : String.eqb path "/" = false).
  { destruct (String.eqb_spec path "/") as [-> | _]; [| reflexivity].
    unfold basename in Hb. rewrite root_basename in Hb.
    destruct Hb; discriminate. }
  rewrite Hroot. cbn [andb].
  assert (Hseg : String.eqb basename "." || String.eqb basename ".." = true).
  { destruct Hb as [-> | ->]; reflexivity. }
  rewrite Hseg. cbn [andb].
  destruct (String.eqb (MinimatchClass.mm_patternBasename mm) basename);
    [reflexivity |].
  destruct (String.eqb (MinimatchClass.mm_patternBasename mm)
                       (".*" ++ JS.sliceFrom basename 1));
    [reflexivity |].
  destruct (JS.includes (MinimatchClass.mm_pattern mm) basename); reflexivity.
Qed.

Lemma match_dot_segments_witness :
  exists mm bc',
    MinimatchClass.new sampleEngine "*" (withDot noOptions true) JsMap.empty
    = (Ok mm, bc') /\
    MinimatchClass.match_ mm ".." None = false.
Proof.
  eexists. eexists. split; [reflexivity |].
  refine (match_dot_segments sampleEngine "*" (withDot noOptions true)
            JsMap.empty _ _ ".." None eq_refl eq_refl eq_refl _).
  right. reflexivity.
Defined.

(** C4 (as stated) fails: for the path [.] and the pattern [*.js], whose
    basename is not [.] and which is not [.*] paired with [..], [match]
    does not return at the test of the last segment but goes on to the
    matchers, because the pattern text contains a dot. *)
Lemma match_dot_segments_as_stated :
  ~ (forall (E : Engine) (pattern : string) (options : MinimatchOptions)
            (mm : MinimatchClass.Minimatch) (bc' : BraceExpand.BraceCache)
            (path : string) (partial : bool),
        MinimatchClass.new E pattern options JsMap.empty = (Ok mm, bc') ->
        MinimatchClass.mm_comment mm = false ->
        MinimatchClass.mm_empty mm = false ->
        let basename :=
          MinimatchClass.afterLastSlash
            (MinimatchClass.normalizedPath mm path) in
        basename = "." \/ basename = ".." ->
        MinimatchClass.matchEarly mm path partial = None ->
        MinimatchClass.mm_patternBasename mm = basename \/
        (MinimatchClass.mm_pattern mm = ".*" /\ basename = "..")).
Proof.
  intro H.
  destruct (H sampleEngine "*.js" noOptions _ _ "." false eq_refl eq_refl
              eq_refl (or_introl eq_refl) eq_refl) as [Hb | [Hp _]];
    discriminate.
Qed.

(** The two instances named with the claim hold for every engine. *)
Lemma match_dot_star (E : Engine) :
  exists mm bc',
    MinimatchClass.new E "*" noOptions JsMap.empty = (Ok mm, bc') /\
    MinimatchClass.match_ mm "." None = false.
Proof.
  eexists. eexists. split; [reflexivity |].
  unfold MinimatchClass.match_, MinimatchClass.matchEarly,
    MinimatchClass.normalizedPath.
  cbn -[Utils.isWindows].
  rewrite andb_false_r. reflexivity.
Qed.

Lemma match_dotdot_star_dot (E : Engine) :
  exists mm bc',
    MinimatchClass.new E "*" (withDot noOptions true) JsMap.empty
    = (Ok mm, bc') /\
    MinimatchClass.match_ mm ".." None = false.
Proof.
  eexists. eexists. split; [reflexivity |].
  unfold MinimatchClass.match_, MinimatchClass.matchEarly,
    MinimatchClass.normalizedPath.
  cbn -[Utils.isWindows].
  rewrite andb_false_r. reflexivity.
Qed.

(* ===================================================================== *)
(** * The compiled-pattern cache *)
(* ===================================================================== *)

Section JsMapFacts.

Context {V : Type}.
Implicit Types (m : JsMap.t V) (k : string) (v : V).

Lemma get_none_iff k m :
  JsMap.get k m = None <-> ~ In k (JsMap.keys m).
Proof.
  induction m as [| [k' v'] m IH]; cbn.
  - tauto.
  - destruct (String.eqb_spec k' k) as [-> | Hne].
    + split; [discriminate | intro H; elim H; now left].
    + rewrite IH. tauto.
Qed.

Lemma set_absent k v m :
  JsMap.get k m = None -> JsMap.set k v m = (m ++ [(k, v)])%list.
Proof.
  induction m as [| [k' v'] m IH]; cbn; [reflexivity |].
  destruct (String.eqb k' k); [discriminate |].
  intro H. now rewrite IH.
Qed.

Lemma get_delete k m : JsMap.get k (JsMap.delete k m) = None.
Proof.
  induction m as [| [k' v'] m IH]; cbn; [reflexivity |].
  destruct (String.eqb k' k) eqn:Hk; cbn; [exact IH |].
  now rewrite Hk.
Qed.

Lemma delete_absent k m :
  ~ In k (JsMap.keys m) -> JsMap.delete k m = m.
Proof.
  induction m as [| [k' v'] m IH]; [reflexivity |].
  intro H. cbn in H. unfold JsMap.delete. cbn [filter fst].
  fold (JsMap.delete k m).
  destruct (String.eqb_spec k' k) as [-> | _]; cbn [negb].
  - elim H. now left.
  - rewrite IH; [reflexivity | tauto].
Qed.

(** Under unique keys, deleting a key present takes out exactly its
    entry and keeps the order of the others. *)
Lemma delete_present k v m :
  NoDup (JsMap.keys m) -> JsMap.get k m = Some v ->
  exists before after,
    m = (before ++ (k, v) :: after)%list /\
    JsMap.delete k m = (before ++ after)%list.
Proof.
  induction m as [| [k' v'] m IH]; [discriminate |].
  intros Hnd Hget. cbn in Hnd. inversion Hnd as [| ? ? Hnotin Hnd']; subst.
  cbn [JsMap.get] in Hget. unfold JsMap.delete. cbn [filter fst].
  fold (JsMap.delete k m).
  destruct (String.eqb_spec k' k) as [-> | Hne]; cbn [negb].
  - injection Hget as ->. exists [], m. split; [reflexivity |].
    now apply delete_absent.
  - destruct (IH Hnd' Hget) as (before & after & Hm & Hdel).
    exists ((k', v') :: before), after. split; [now rewrite Hm |].
    cbn [app]. f_equal. exact Hdel.
Qed.

Lemma keys_app m1 m2 :
  JsMap.keys (m1 ++ m2) = JsMap.keys m1 ++ JsMap.keys m2.
Proof. apply map_app. Qed.

Lemma size_app m1 m2 :
  JsMap.size (m1 ++ m2) = JsMap.size m1 + JsMap.size m2.
Proof. unfold JsMap.size. rewrite length_app. lia. Qed.

End JsMapFacts.

Section CacheFacts.

Import Cache.

Variable E : Engine.

(** What one call of [getOrCreateMatcher] does to a cache that
    satisfies the invariant. *)
Lemma getOrCreateMatcher_spec pattern options st :
  cacheInvariant st ->
  let key := getCacheKey pattern options in
  let out := getOrCreateMatcher E pattern options st in
  match JsMap.get key (patternCache st) with
  | Some mm =>
      fst out = Ok mm /\
      exists before after,
        patternCache st = (before ++ (key, mm) :: after)%list /\
        patternCache (snd out) = (before ++ after ++ [(key, mm)])%list
  | None =>
      match fst (MinimatchClass.new E pattern options (braceCache st)) with
      | Ok mm =>
          fst out = Ok mm /\
          patternCache (snd out)
          = (if JsMap.size (patternCache st) >=? CACHE_SIZE
             then tl (patternCache st) else patternCache st)
            ++ [(key, mm)]
      | Throw e =>
          fst out = Throw e /\ patternCache (snd out) = patternCache st
      end
  end.
Proof.
  intros [Hnd Hsize] key out. subst out. unfold getOrCreateMatcher.
  fold key. destruct (JsMap.get key (patternCache st)) as [mm |] eqn:Hget.
  - cbn [fst snd patternCache]. split; [reflexivity |].
    destruct (delete_present key mm _ Hnd Hget) as (before & after & Hpc & Hdel).
    exists before, after. split; [exact Hpc |].
    rewrite set_absent by apply get_delete.
    rewrite Hdel. now rewrite <- app_assoc.
  - destruct (MinimatchClass.new E pattern options (braceCache st))
      as [[mm | e] bc']; cbn [fst snd patternCache]; [| now split].
    split; [reflexivity |].
    destruct (JsMap.size (patternCache st) >=? CACHE_SIZE) eqn:Hfull.
    + destruct (patternCache st) as [| [k0 v0] rest] eqn:Hpc.
      * cbn in Hfull. discriminate Hfull.
      * cbn [JsMap.firstKey tl].
        assert (Hk0 : ~ In k0 (JsMap.keys rest)).
        { cbn in Hnd. now inversion Hnd. }
        assert (Hdel : JsMap.delete k0 ((k0, v0) :: rest) = rest).
        { unfold JsMap.delete. cbn [filter fst]. rewrite String.eqb_refl.
          cbn [negb]. now apply delete_absent. }
        rewrite Hdel. apply set_absent.
        cbn [JsMap.get] in Hget.
        destruct (String.eqb k0 key); [discriminate | exact Hget].
    + now apply set_absent.
Qed.

Lemma getOrCreateMatcher_invariant pattern options st :
  cacheInvariant st ->
  cacheInvariant (snd (getOrCreateMatcher E pattern options st)).
Proof.
  intro Hinv. pose proof (getOrCreateMatcher_spec pattern options st Hinv) as H.
  destruct Hinv as [Hnd Hsize]. cbn zeta in H.
  set (key := getCacheKey pattern options) in *.
  set (out := getOrCreateMatcher E pattern options st) in *.
  unfold cacheInvariant.
  destruct (JsMap.get key (patternCache st)) as [mm |] eqn:Hget.
  - destruct H as (_ & before & after & Hpc & Hpc').
    rewrite Hpc' . rewrite Hpc in Hnd, Hsize. split.
    + rewrite !keys_app in *. cbn in *.
      apply NoDup_remove in Hnd as [Hnd Hnotin].
      rewrite app_assoc. apply NoDup_app; [exact Hnd | | ].
      * constructor; [intros [] | constructor].
      * intros x Hx [<- | []]. now apply Hnotin.
    + rewrite !size_app in *. unfold JsMap.size in *. cbn [List.length] in *.
      lia.
  - apply get_none_iff in Hget.
    destruct (fst (MinimatchClass.new E pattern options (braceCache st)))
      as [mm | e].
    + destruct H as [_ Hpc']. rewrite Hpc'.
      destruct (JsMap.size (patternCache st) >=? CACHE_SIZE) eqn:Hfull.
      * destruct (patternCache st) as [| [k0 v0] rest].
        { cbn in Hfull. discriminate Hfull. }
        cbn [tl]. cbn in Hnd, Hget. inversion Hnd as [| ? ? Hk0 Hnd']; subst.
        split.
        -- rewrite keys_app. cbn. apply NoDup_app; [exact Hnd' | | ].
           ++ constructor; [intros [] | constructor].
           ++ intros x Hx [<- | []]. tauto.
        -- rewrite size_app. unfold JsMap.size in *.
           cbn [List.length] in *. lia.
      * split.
        -- rewrite keys_app. cbn. apply NoDup_app; [exact Hnd | | ].
           ++ constructor; [intros [] | constructor].
           ++ intros x Hx [<- | []]. tauto.
        -- rewrite size_app. unfold JsMap.size, CACHE_SIZE in *.
           cbn [List.length] in *. rewrite Z.geb_leb in Hfull.
           apply Z.leb_gt in Hfull. lia.
    + destruct H as [_ ->]. now split.
Qed.

Lemma run_invariant calls st :
  cacheInvariant st -> cacheInvariant (run E calls st).
Proof.
  revert st. induction calls as [| [pattern options] calls IH];
    intros st Hinv; cbn [run]; [exact Hinv |].
  apply IH. now apply getOrCreateMatcher_invariant.
Qed.

Lemma emptyStore_invariant : cacheInvariant emptyStore.
Proof.
  split; cbn; [constructor | unfold CACHE_SIZE; lia].
Qed.

End CacheFacts.

(** C5.  After any sequence of calls of [getOrCreateMatcher] from the
    empty cache, the cache holds at most 500 entries, and so it does after
    one more call.  That call, on a hit, returns the cached instance and
    moves its entry to the last (most recently used) place, the other
    entries keeping their order; on a miss with a full cache it drops the
    first (least recently touched) entry and nothing else before it adds
    the new instance last; on a miss with room left it only adds the new
    instance last; when the constructor throws the cache is unchanged. *)
Theorem pattern_cache_lru
        (E : Engine) (calls : list (string * MinimatchOptions))
        (pattern : string) (options : MinimatchOptions) :
  let st := run E calls Cache.emptyStore in
  let key := Cache.getCacheKey pattern options in
  let out := Cache.getOrCreateMatcher E pattern options st in
  Cache.getCacheSize st <= 500 /\
  Cache.getCacheSize (snd out) <= 500 /\
  match JsMap.get key (Cache.patternCache st) with
  | Some mm =>
      fst out = Ok mm /\
      exists before after,
        Cache.patternCache st = before ++ (key, mm) :: after /\
        Cache.patternCache (snd out) = before ++ after ++ [(key, mm)]
  | None =>
      match fst (MinimatchClass.new E pattern options (Cache.braceCache st)) with
      | Ok mm =>
          fst out = Ok mm /\
          Cache.patternCache (snd out)
          = (if Cache.getCacheSize st >=? 500
             then tl (Cache.patternCache st) else Cache.patternCache st)
            ++ [(key, mm)]
      | Throw e =>
          fst out = Throw e /\
          Cache.patternCache (snd out) = Cache.patternCache st
      end
  end.
Proof.
  intros st key out.
  assert (Hinv : cacheInvariant st).
  { apply run_invariant, emptyStore_invariant. }
  split; [exact (proj2 Hinv) |]. split.
  - exact (proj2 (getOrCreateMatcher_invariant E pattern options st Hinv)).
  - exact (getOrCreateMatcher_spec E pattern options st Hinv).
Qed.

(** The 501 patterns [aa], [ab], ... compiled in turn from the empty
    cache leave 500 entries: the entry of [aa], the first one compiled, is
    gone and the entry of [ab] is now the oldest. *)
Example cache_after_501 :
  let st := run sampleEngine (distinctPatterns 501) Cache.emptyStore in
  Cache.getCacheSize st = 500 /\
  JsMap.has (Cache.getCacheKey "aa" noOptions) (Cache.patternCache st) = false /\
  JsMap.firstKey (Cache.patternCache st)
  = Some (Cache.getCacheKey "ab" noOptions).
Proof. vm_compute. repeat split. Qed.

(** A hit moves the entry to the last place. *)
Example cache_hit_promotes :
  let st := run sampleEngine [("a", noOptions); ("b", noOptions);
                              ("a", noOptions)] Cache.emptyStore in
  JsMap.keys (Cache.patternCache st)
  = [Cache.getCacheKey "b" noOptions; Cache.getCacheKey "a" noOptions].
Proof. reflexivity. Qed.

(* ===================================================================== *)
(** * Brace expansion *)
(* ===================================================================== *)

Section BraceFacts.

Import BraceExpand.

Variable E : Engine.

Lemma braceExpand_nobrace pattern options bc :
  nobrace options = true ->
  braceExpand E pattern options bc = ([pattern], bc).
Proof. intro H. unfold braceExpand. now rewrite H. Qed.

Lemma braceExpand_no_brace_pair pattern options bc :
  JS.indexOf pattern "{" = -1 \/
  JS.indexOfFrom pattern "}" (JS.indexOf pattern "{") = -1 ->
  braceExpand E pattern options bc = ([pattern], bc).
Proof.
  intro H. unfold braceExpand. destruct (nobrace options); [reflexivity |].
  destruct H as [-> | ->]; [reflexivity |].
  now rewrite Z.eqb_refl, orb_true_r.
Qed.

(** The general path: the pattern has its brace pair, is not in the
    cache and is not of the simple shape. *)
Lemma braceExpand_general pattern options bc :
  nobrace options = false ->
  (JS.indexOf pattern "{" =? -1) = false ->
  (JS.indexOfFrom pattern "}" (JS.indexOf pattern "{") =? -1) = false ->
  JsMap.get pattern bc = None ->
  trySimpleBraceExpand pattern = None ->
  fst (braceExpand E pattern options bc)
  = match braces E pattern with
    | None => [pattern]
    | Some expanded =>
        if Z.of_nat (List.length expanded) >? MAX_EXPANSION_LENGTH
        then [pattern]
        else match JS.dedupe expanded with
             | [] => [pattern]
             | unique => unique
             end
    end.
Proof.
  intros Hn H1 H2 Hc Hs. unfold braceExpand.
  rewrite Hn, H1, H2, Hc, Hs. cbn [orb].
  destruct (braces E pattern) as [expanded |]; [| reflexivity].
  destruct (Z.of_nat (List.length expanded) >? MAX_EXPANSION_LENGTH);
    [reflexivity |].
  destruct (JS.dedupe expanded); reflexivity.
Qed.

(** The simple path: every item between the braces, in order, between
    the prefix and the suffix; nothing is removed. *)
Lemma braceExpand_simple pattern options bc items :
  nobrace options = false ->
  (JS.indexOf pattern "{" =? -1) = false ->
  (JS.indexOfFrom pattern "}" (JS.indexOf pattern "{") =? -1) = false ->
  JsMap.get pattern bc = None ->
  trySimpleBraceExpand pattern = Some items ->
  fst (braceExpand E pattern options bc) = items.
Proof.
  intros Hn H1 H2 Hc Hs. unfold braceExpand.
  now rewrite Hn, H1, H2, Hc, Hs.
Qed.

End BraceFacts.

Section DedupeFacts.

Lemma dedupeFrom_in seen xs x :
  In x (JS.dedupeFrom seen xs) <-> In x xs /\ ~ In x seen.
Proof.
  revert seen. induction xs as [| y xs IH]; intro seen; cbn [JS.dedupeFrom].
  - cbn. tauto.
  - destruct (existsb (String.eqb y) seen) eqn:Hy.
    + rewrite IH. apply existsb_exists in Hy as (z & Hz & Hyz).
      apply String.eqb_eq in Hyz. subst z. cbn [In].
      split; [tauto |]. intros [[-> | H] Hn]; tauto.
    + assert (Hn : ~ In y seen).
      { intro Hin. apply Bool.not_true_iff_false in Hy. apply Hy.
        apply existsb_exists. exists y. split; [exact Hin |].
        apply String.eqb_refl. }
      cbn [In]. rewrite IH. cbn [In].
      destruct (string_dec y x) as [-> | Hne]; [tauto |].
      split.
      * intros [H | [H1 H2]]; [contradiction | tauto].
      * intros [[H | H] H']; [contradiction | right; tauto].
Qed.

Lemma dedupeFrom_nodup seen xs : NoDup (JS.dedupeFrom seen xs).
Proof.
  revert seen. induction xs as [| y xs IH]; intro seen; cbn [JS.dedupeFrom].
  - constructor.
  - destruct (existsb (String.eqb y) seen); [apply IH |].
    constructor; [| apply IH].
    rewrite dedupeFrom_in. cbn [In]. tauto.
Qed.

(** [dedupe] keeps exactly the members of the list, each once. *)
Lemma dedupe_spec xs :
  NoDup (JS.dedupe xs) /\ forall x, In x (JS.dedupe xs) <-> In x xs.
Proof.
  split; [apply dedupeFrom_nodup |].
  intro x. unfold JS.dedupe. rewrite dedupeFrom_in. cbn. tauto.
Qed.

End DedupeFacts.

(** C6 (at the failing input).  From a cold cache, [braceExpand] takes
    the pattern made of a brace pair around [a,a] through the simple
    path, which returns both items: the result holds a duplicate, whatever
    the general expander would do. *)
Theorem braceExpand_simple_duplicate (E : Engine) :
  fst (BraceExpand.braceExpand E "{a,a}" noOptions JsMap.empty) = ["a"; "a"] /\
  ~ NoDup (fst (BraceExpand.braceExpand E "{a,a}" noOptions JsMap.empty)).
Proof.
  split; [reflexivity |].
  cbn. intro H. inversion H as [| ? ? Hnotin _]. apply Hnotin. now left.
Qed.

(* ===================================================================== *)
(** * The constructor and the list filter *)
(* ===================================================================== *)

(** C3 (on the code).  The constructor compares the length of the pattern
    with the constant 65536 and with nothing else: whatever [maxLength]
    holds, a pattern of at most 65536 code units is accepted and a longer
    one is rejected as too long. *)
Theorem constructor_ignores_maxLength
        (E : Engine) (pattern : string) (options : MinimatchOptions)
        (bc : BraceExpand.BraceCache) (n : number) :
  (JS.len pattern <= 65536 ->
   exists mm bc',
     MinimatchClass.new E pattern (withMaxLength options n) bc = (Ok mm, bc')) /\
  (65536 < JS.len pattern ->
   MinimatchClass.new E pattern (withMaxLength options n) bc
   = (Throw (TypeError "pattern is too long"), bc)).
Proof.
  pose proof (new_outcome E pattern (withMaxLength options n) bc) as H.
  unfold MinimatchClass.MAX_PATTERN_LENGTH in H.
  destruct (JS.len pattern >? 65536) eqn:Hlen.
  - apply Z.gtb_lt in Hlen. split; [lia | intros _; exact H].
  - rewrite Z.gtb_ltb in Hlen. apply Z.ltb_ge in Hlen.
    split; [intros _; exact H | lia].
Qed.

Lemma constructor_ignores_maxLength_witness :
  (exists mm bc',
     MinimatchClass.new sampleEngine "test" (withMaxLength noOptions (Finite 0))
       JsMap.empty = (Ok mm, bc')) /\
  (exists mm bc',
     MinimatchClass.new sampleEngine "test" (withMaxLength noOptions NaN)
       JsMap.empty = (Ok mm, bc')) /\
  (exists mm bc',
     MinimatchClass.new sampleEngine "0123456789"
       (withMaxLength noOptions (Finite 5)) JsMap.empty = (Ok mm, bc')).
Proof.
  split; [| split].
  - apply (constructor_ignores_maxLength sampleEngine "test" noOptions
             JsMap.empty (Finite 0)).
    cbn. lia.
  - apply (constructor_ignores_maxLength sampleEngine "test" noOptions
             JsMap.empty NaN).
    cbn. lia.
  - apply (constructor_ignores_maxLength sampleEngine "0123456789" noOptions
             JsMap.empty (Finite 5)).
    cbn. lia.
Defined.

(** C2 (on the code).  The list filter throws only what the constructor
    throws: for a pattern of at most 65536 code units it returns a list,
    the matching paths or, when they are none and [nonull] is set on the
    instance, the pattern alone.  The [failglob] switch is read
    nowhere. *)
Theorem list_match_returns
        (E : Engine) (list : list string) (pattern : string)
        (options : MinimatchOptions) (st : Cache.Store) :
  JS.len pattern <= 65536 ->
  exists mm,
    fst (Cache.getOrCreateMatcher E pattern options st) = Ok mm /\
    fst (Index.match_ E list pattern options st)
    = Ok (let result := filter (fun f => MinimatchClass.match_ mm f None) list in
          if nonull (MinimatchClass.mm_options mm) &&
             (Z.of_nat (List.length result) =? 0)
          then [pattern] else result).
Proof.
  intro Hlen. unfold Index.match_.
  assert (Hok : exists mm st',
             Cache.getOrCreateMatcher E pattern options st = (Ok mm, st')).
  { unfold Cache.getOrCreateMatcher.
    destruct (JsMap.get _ _) as [mm |]; [eauto |].
    pose proof (new_outcome E pattern options (Cache.braceCache st)) as H.
    unfold MinimatchClass.MAX_PATTERN_LENGTH in H.
    destruct (JS.len pattern >? 65536) eqn:Hgt.
    - apply Z.gtb_lt in Hgt. lia.
    - destruct H as (mm & bc' & ->). eauto. }
  destruct Hok as (mm & st' & ->). exists mm. split; [reflexivity |].
  cbn zeta.
  destruct (nonull (MinimatchClass.mm_options mm) && _); reflexivity.
Qed.

Lemma list_match_returns_witness :
  fst (Index.match_ sampleEngine ["a.txt"; "b.txt"] "*.js"
         (withFailglob noOptions true) Cache.emptyStore) = Ok [] /\
  fst (Index.match_ sampleEngine ["a.txt"] "*.js"
         (withNonull (withFailglob noOptions true) true) Cache.emptyStore)
  = Ok ["*.js"].
Proof.
  split.
  - destruct (list_match_returns sampleEngine ["a.txt"; "b.txt"] "*.js"
                (withFailglob noOptions true) Cache.emptyStore)
      as (mm & Hmm & Hres).
    + cbn. lia.
    + rewrite Hres. cbn in Hmm. injection Hmm as <-. reflexivity.
  - destruct (list_match_returns sampleEngine ["a.txt"] "*.js"
                (withNonull (withFailglob noOptions true) true)
                Cache.emptyStore)
      as (mm & Hmm & Hres).
    + cbn. lia.
    + rewrite Hres. cbn in Hmm. injection Hmm as <-. reflexivity.
Defined.

(** The same at an input that needs no segment compiler: nothing to
    search, [failglob] set, and the empty list comes back. *)
Lemma list_match_failglob_empty (E : Engine) :
  fst (Index.match_ E [] "*.js" (withFailglob noOptions true) Cache.emptyStore)
  = Ok [].
Proof. reflexivity. Qed.

(* ===================================================================== *)
(** * The fast path against the compiled matcher *)
(* ===================================================================== *)

(** C1 (at the failing input).  With [windowsPathsNoEscape] set, the path
    made of [a], a backslash and two dots, and the pattern [*]: the fast
    path sees no slash in the path and no leading dot and answers [true],
    and so does [minimatch]; the compiled matcher folds the backslash into
    a slash, finds [..] as the last segment and returns [false] before
    any matcher of the segment compiler is asked.  The two answers differ
    for every engine. *)
Theorem fast_path_backslash_path (E : Engine) :
  let options := withWindowsPathsNoEscape noOptions true in
  FastPaths.tryFastPath "a\.." "*" options = Some true /\
  fst (Index.minimatch E "a\.." "*" options Cache.emptyStore) = Ok true /\
  exists mm bc',
    MinimatchClass.new E "*" options JsMap.empty = (Ok mm, bc') /\
    MinimatchClass.match_ mm "a\.." None = false.
Proof.
  intro options. split; [reflexivity |]. split; [reflexivity |].
  eexists. eexists. split; reflexivity.
Qed.

(** The same slip on a plain file name behind a backslash: the compiled
    matcher asks the segment compiler's matcher for [*] about [a/b], and
    for every engine whose star does not cross a slash the two answers
    differ again. *)
Lemma fast_path_backslash_file (E : Engine) :
  let options := withWindowsPathsNoEscape noOptions true in
  (forall matcher,
      picomatch E "*" (Utils.translateOptions options) = Some matcher ->
      matcher "a/b" = false) ->
  FastPaths.tryFastPath "a\b" "*" options = Some true /\
  fst (Index.minimatch E "a\b" "*" options Cache.emptyStore) = Ok true /\
  exists mm bc',
    MinimatchClass.new E "*" options JsMap.empty = (Ok mm, bc') /\
    MinimatchClass.match_ mm "a\b" None = false.
Proof.
  intros options Hstar. split; [reflexivity |]. split; [reflexivity |].
  eexists. eexists. split; [reflexivity |].
  unfold MinimatchClass.match_, MinimatchClass.matchEarly,
    MinimatchClass.matchLate, MinimatchClass.normalizedPath.
  cbn -[picomatch Utils.translateOptions].
  fold options.
  destruct (picomatch E "*" (Utils.translateOptions options)) as [matcher |] eqn:Hm.
  - now rewrite (Hstar matcher eq_refl).
  - reflexivity.
Qed.

Example fast_path_backslash_file_sample :
  exists mm bc',
    MinimatchClass.new sampleEngine "*"
      (withWindowsPathsNoEscape noOptions true) JsMap.empty = (Ok mm, bc') /\
    MinimatchClass.match_ mm "a\b" None = false.
Proof.
  apply (fast_path_backslash_file sampleEngine).
  intros matcher Hm. cbn in Hm. injection Hm as <-. reflexivity.
Qed.

(** A pattern of none of the five shapes gets no verdict from the fast
    path. *)
Lemma tryFastPath_unrecognized path pattern options :
  FastPaths.STAR_RE pattern = false ->
  FastPaths.STAR_DOT_EXT_RE pattern = None ->
  FastPaths.STAR_DOT_STAR_RE pattern = false ->
  FastPaths.DOT_STAR_RE pattern = false ->
  FastPaths.QMARKS_RE pattern = None ->
  FastPaths.tryFastPath path pattern options = None.
Proof.
  intros H1 H2 H3 H4 H5. unfold FastPaths.tryFastPath.
  rewrite H1, H2, H3, H4, H5.
  repeat match goal with
         | |- context [if ?b then _ else _] => destruct b
         end; reflexivity.
Qed.

(* ===================================================================== *)
(** * Where the fast path and the compiled matcher cannot differ *)
(* ===================================================================== *)

Section FastPathEarlyVerdicts.

Import MinimatchClass.

Lemma span_app cls s :
  s = (fst (JS.span cls s) ++ snd (JS.span cls s))%string.
Proof.
  induction s as [| c s IH]; [reflexivity |].
  cbn [JS.span]. destruct (JS.inClass cls c); [| reflexivity].
  destruct (JS.span cls s) as [a b]. cbn in *. now rewrite <- IH.
Qed.

Lemma includes_app_r s t sub :
  JS.includes t sub = true -> JS.includes (s ++ t)%string sub = true.
Proof.
  intro H. induction s as [| c s IH]; [exact H |].
  cbn [String.append]. cbn [JS.includes]. rewrite IH. apply orb_true_r.
Qed.

Lemma no_slash_afterLastSlash s :
  JS.includes s "/" = false -> afterLastSlash s = s.
Proof.
  intro H. unfold afterLastSlash.
  assert (Hidx : JS.lastIndexOf s "/" = -1).
  { induction s as [| c s IH]; [reflexivity |].
    cbn [JS.includes] in H. apply orb_false_iff in H as [Hc Hs].
    cbn [JS.lastIndexOf]. rewrite (IH Hs). cbn.
    destruct (Ascii.eqb_spec c "/") as [-> | _]; [| reflexivity].
    cbn in Hc. discriminate Hc. }
  now rewrite Hidx.
Qed.

Lemma no_backslash_replace s :
  JS.includes s "\" = false -> JS.replaceAllChar "\" "/" s = s.
Proof.
  induction s as [| c s IH]; [reflexivity |].
  intro H. cbn [JS.includes] in H. apply orb_false_iff in H as [Hc Hs].
  cbn [JS.replaceAllChar]. rewrite (IH Hs).
  destruct (Ascii.eqb_spec c "\") as [-> | _]; [| reflexivity].
  cbn in Hc. discriminate Hc.
Qed.

Lemma no_bang_negateLoop pattern :
  JS.startsWith pattern "!" = false ->
  negateLoop pattern false = (false, pattern).
Proof.
  destruct pattern as [| c p]; [reflexivity |].
  intro H. destruct (Ascii.eqb_spec c "!") as [-> | Hne];
    [cbn in H; discriminate H |].
  cbn [negateLoop].
  each_code_unit c; first [reflexivity | now elim Hne].
Qed.

(** No shape of the fast path starts with a hash sign or is empty. *)
Lemma comment_or_empty_unrecognized path pattern options :
  JS.charAt0_is pattern "#" = true \/ pattern = "" ->
  FastPaths.tryFastPath path pattern options = None.
Proof.
  intro H. apply tryFastPath_unrecognized.
  all: destruct H as [H | ->]; [| reflexivity].
  all: destruct pattern as [| c p]; [discriminate H |].
  all: cbn [JS.charAt0_is] in H; apply Ascii.eqb_eq in H; subst c; reflexivity.
Qed.

Lemma lowerChar_dot c : JS.lowerChar c = "."%char -> c = "."%char.
Proof.
  each_code_unit c; cbn; intro H;
    first [reflexivity | discriminate H].
Qed.

(** An extension group that ends the two-dot path is the two-dot
    string, with or without case folding. *)
Lemma extGroup_ends_dotdot ext (fold : bool) :
  FastPaths.isExtGroup ext = true ->
  (if fold then JS.endsWith (JS.toLowerCase "..") (JS.toLowerCase ext)
   else JS.endsWith ".." ext) = true ->
  ext = "..".
Proof.
  unfold FastPaths.isExtGroup.
  destruct ext as [| c0 t]; [discriminate |].
  destruct (Ascii.eqb_spec c0 ".") as [-> | Hne].
  2:{ each_code_unit c0;
        first [discriminate | now elim Hne]. }
  intros Hg He. destruct t as [| c [| d t']]; [discriminate Hg | |].
  - unfold JS.endsWith in He. destruct fold; cbn -[String.eqb] in He;
      apply String.eqb_eq in He; injection He as Hc.
    + symmetry in Hc. apply lowerChar_dot in Hc. now subst.
    + now subst.
  - destruct fold; cbn in He; discriminate He.
Qed.

Lemma STAR_DOT_EXT_RE_spec pattern ext :
  FastPaths.STAR_DOT_EXT_RE pattern = Some ext ->
  FastPaths.isExtGroup ext = true /\
  exists stars, pattern = (stars ++ ext)%string.
Proof.
  unfold FastPaths.STAR_DOT_EXT_RE. pose proof (span_app "*" pattern) as Hs.
  destruct (JS.span "*" pattern) as [stars rest]. cbn [fst snd] in Hs.
  destruct (negb (stars =? "")%string && FastPaths.isExtGroup rest) eqn:Hc;
    [| discriminate].
  intro H. injection H as <-. apply andb_true_iff in Hc as [_ Hg].
  split; [exact Hg | now exists stars].
Qed.

Lemma extGroup_includes_dot ext :
  FastPaths.isExtGroup ext = true -> JS.includes ext "." = true.
Proof.
  unfold FastPaths.isExtGroup. destruct ext as [| c t]; [discriminate |].
  destruct (Ascii.eqb_spec c ".") as [-> | Hne]; [reflexivity |].
  each_code_unit c; first [discriminate | now elim Hne].
Qed.

(** The fields of an instance compiled from a pattern the fast path
    accepts, when the pattern holds no backslash. *)
Lemma new_fast_path_fields E pattern options bc mm bc' :
  JS.includes pattern "\" = false ->
  JS.includes pattern "/" = false ->
  negb (nonegate options) && JS.startsWith pattern "!" = false ->
  JS.charAt0_is pattern "#" = false \/ nocomment options = true ->
  pattern <> "" ->
  MinimatchClass.new E pattern options bc = (Ok mm, bc') ->
  mm_comment mm = false /\ mm_empty mm = false /\ mm_negate mm = false /\
  mm_pattern mm = pattern /\ mm_patternBasename mm = pattern.
Proof.
  intros Hbs Hsl Hneg Hcom Hne Hnew. unfold MinimatchClass.new in Hnew.
  destruct (JS.len pattern >? MAX_PATTERN_LENGTH); [discriminate Hnew |].
  unfold Utils.normalizePattern in Hnew.
  rewrite (no_backslash_replace pattern Hbs) in Hnew.
  assert (Hc : negb (nocomment options) && JS.charAt0_is pattern "#" = false).
  { destruct Hcom as [-> | ->]; [apply andb_false_r | reflexivity]. }
  assert (He : String.eqb pattern "" = false).
  { now apply String.eqb_neq. }
  assert (Hp : parseNegate (nonegate options) pattern = (false, pattern)).
  { unfold parseNegate. destruct (nonegate options); [reflexivity |].
    apply no_bang_negateLoop. exact Hneg. }
  match type of Hnew with
  | context [if ?c then pattern else pattern] =>
      replace (if c then pattern else pattern) with pattern in Hnew
        by (now destruct c)
  end.
  rewrite Hc, He, Hp in Hnew.
  destruct (BraceExpand.braceExpand E pattern options bc) as [expanded bc''].
  injection Hnew as <- _. cbn.
  now rewrite (no_slash_afterLastSlash pattern Hsl).
Qed.

(** When neither the path nor the pattern holds a backslash, a verdict
    that [match] reaches before it asks any matcher is the verdict of
    the fast path, if the fast path has one. *)
Lemma fast_path_early_verdict E path pattern options bc mm bc' partial b v :
  JS.includes path "\" = false ->
  JS.includes pattern "\" = false ->
  MinimatchClass.new E pattern options bc = (Ok mm, bc') ->
  FastPaths.tryFastPath path pattern options = Some b ->
  MinimatchClass.matchEarly mm path partial = Some v ->
  v = b.
Proof.
  intros Hpb Hqb Hnew Hfast Hearly.
  assert (Hcom : JS.charAt0_is pattern "#" = false).
  { destruct (JS.charAt0_is pattern "#") eqn:Hc; [| reflexivity].
    rewrite (comment_or_empty_unrecognized path pattern options) in Hfast
      by now left.
    discriminate Hfast. }
  assert (Hne : pattern <> "").
  { intros ->.
    rewrite (comment_or_empty_unrecognized path "" options) in Hfast
      by now right.
    discriminate Hfast. }
  unfold FastPaths.tryFastPath in Hfast.
  destruct (JS.includes path "/") eqn:Hps; [discriminate Hfast |].
  destruct (JS.includes pattern "/") eqn:Hqs; [discriminate Hfast |].
  destruct (negb (nonegate options) && JS.startsWith pattern "!") eqn:Hneg;
    [discriminate Hfast |].
  destruct (negb (nobrace options) && JS.includes pattern "{");
    [discriminate Hfast |].
  destruct (negb (noext options) && FastPaths.hasExtglobOpener pattern);
    [discriminate Hfast |].
  destruct (JS.includes pattern "["); [discriminate Hfast |].
  cbn zeta in Hfast.
  destruct (new_fast_path_fields E pattern options bc mm bc' Hqb Hqs Hneg
              (or_introl Hcom) Hne Hnew) as (Hc & He & Hn & Hp & Hb).
  unfold MinimatchClass.matchEarly, MinimatchClass.normalizedPath in Hearly.
  rewrite Hc, He, Hn, Hp, Hb, Hpb, andb_false_r in Hearly.
  rewrite (no_slash_afterLastSlash path Hps) in Hearly.
  destruct (String.eqb_spec path "/") as [-> | _]; [discriminate Hps |].
  cbn [andb] in Hearly.
  destruct (String.eqb_spec path ".") as [-> | _];
    [| destruct (String.eqb_spec path "..") as [-> | _];
       [| discriminate Hearly]];
    cbn [orb andb] in Hearly.
  - (* the path is a single dot *)
    destruct (negb (pattern =? ".")%string &&
              negb (pattern =? ".*" ++ JS.sliceFrom "." 1)%string &&
              negb (JS.includes pattern ".")) eqn:Hguard;
      [| discriminate Hearly].
    injection Hearly as <-.
    apply andb_true_iff in Hguard as [_ Hinc].
    apply negb_true_iff in Hinc.
    destruct (FastPaths.STAR_RE pattern).
    { destruct (dot options); cbn in Hfast; now injection Hfast as <-. }
    destruct (FastPaths.STAR_DOT_EXT_RE pattern) as [ext |] eqn:Hx.
    { apply STAR_DOT_EXT_RE_spec in Hx as (Hg & stars & ->).
      rewrite includes_app_r in Hinc by now apply extGroup_includes_dot.
      discriminate Hinc. }
    destruct (FastPaths.STAR_DOT_STAR_RE pattern).
    { destruct (dot options); cbn in Hfast; now injection Hfast as <-. }
    destruct (FastPaths.DOT_STAR_RE pattern).
    { cbn in Hfast. now injection Hfast as <-. }
    destruct (FastPaths.QMARKS_RE pattern) as [[qmarks m2] |];
      [| discriminate Hfast].
    cbn [FastPaths.isDotOrDotDot String.eqb Ascii.eqb Bool.eqb orb] in Hfast.
    destruct (negb _) in Hfast; now injection Hfast as <-.
  - (* the path is two dots *)
    destruct (negb (pattern =? "..")%string &&
              negb (pattern =? ".*" ++ JS.sliceFrom ".." 1)%string &&
              negb (JS.includes pattern "..")) eqn:Hguard;
      [| discriminate Hearly].
    injection Hearly as <-.
    apply andb_true_iff in Hguard as [_ Hinc].
    apply negb_true_iff in Hinc.
    destruct (FastPaths.STAR_RE pattern).
    { destruct (dot options); cbn in Hfast; now injection Hfast as <-. }
    destruct (FastPaths.STAR_DOT_EXT_RE pattern) as [ext |] eqn:Hx.
    { apply STAR_DOT_EXT_RE_spec in Hx as (Hg & stars & ->).
      destruct b; [| reflexivity]. exfalso.
      assert (Hext : ext = "..").
      { apply (extGroup_ends_dotdot ext (nocase options) Hg).
        cbn [JS.len String.length Z.of_nat Z.eqb] in Hfast.
        destruct (nocase options); destruct (dot options);
          cbn [JS.startsWith Ascii.eqb Bool.eqb andb negb] in Hfast;
          first [now injection Hfast | discriminate Hfast]. }
      subst ext. rewrite includes_app_r in Hinc by reflexivity.
      discriminate Hinc. }
    destruct (FastPaths.STAR_DOT_STAR_RE pattern).
    { destruct (dot options); cbn in Hfast; now injection Hfast as <-. }
    destruct (FastPaths.DOT_STAR_RE pattern).
    { cbn in Hfast. now injection Hfast as <-. }
    destruct (FastPaths.QMARKS_RE pattern) as [[qmarks m2] |];
      [| discriminate Hfast].
    cbn [FastPaths.isDotOrDotDot String.eqb Ascii.eqb Bool.eqb orb] in Hfast.
    destruct (negb _) in Hfast; now injection Hfast as <-.
Qed.

End FastPathEarlyVerdicts.

(* ===================================================================== *)
(** * More on the match engine *)
(* ===================================================================== *)

Section MatchOneMore.

Import MinimatchClass.

Variable dot : bool.

Lemma swallow_loop p pr partial rest :
  (fix loop (rest : list string) : bool :=
     match rest with
     | [] => partial
     | swallowee :: rest' =>
         if matchOne dot rest (p :: pr) partial then true
         else if isDotSegment dot swallowee then false
         else loop rest'
     end) rest
  = swallow dot partial (fun r => matchOne dot r (p :: pr) partial) rest.
Proof.
  induction rest as [| x rest IH]; [reflexivity |].
  cbn [swallow]. now rewrite <- IH.
Qed.

(** [matchOne] at a globstar that is not the last token runs the
    swallowing loop on the file segments left. *)
Lemma matchOne_globstar_inner file p pr partial :
  matchOne dot file (GLOBSTAR :: p :: pr) partial
  = swallow dot partial (fun r => matchOne dot r (p :: pr) partial) file.
Proof.
  destruct file as [| f fs]; [reflexivity |].
  rewrite <- swallow_loop. reflexivity.
Qed.

Lemma swallow_iff partial tryRest file :
  tryRest [] = partial ->
  swallow dot partial tryRest file = true <->
  exists mid rest,
    file = mid ++ rest /\
    Forall (fun f => isDotSegment dot f = false) mid /\
    tryRest rest = true.
Proof.
  intro Hnil. induction file as [| x file IH]; cbn [swallow].
  - split.
    + intro H. exists [], []. repeat split; [constructor | congruence].
    + intros (mid & rest & Hf & _ & Ht).
      symmetry in Hf. apply app_eq_nil in Hf as [_ ->]. congruence.
  - destruct (tryRest (x :: file)) eqn:Hx.
    + split; [| reflexivity]. intros _. exists [], (x :: file).
      repeat split; [constructor | exact Hx].
    + destruct (isDotSegment dot x) eqn:Hd.
      * split; [discriminate |].
        intros (mid & rest & Hf & Hmid & Ht). destruct mid as [| m mid].
        -- cbn in Hf. subst rest. congruence.
        -- cbn in Hf. injection Hf as <- _. inversion Hmid; congruence.
      * rewrite IH. split.
        -- intros (mid & rest & -> & Hmid & Ht).
           exists (x :: mid), rest. repeat split; [now constructor | exact Ht].
        -- intros (mid & rest & Hf & Hmid & Ht). destruct mid as [| m mid].
           ++ cbn in Hf. subst rest. congruence.
           ++ cbn in Hf. injection Hf as <- ->. inversion Hmid; subst.
              now exists mid, rest.
Qed.

Lemma existsb_firstn {A} (f : A -> bool) k l :
  existsb f l = false -> existsb f (firstn k l) = false.
Proof.
  revert k. induction l as [| x l IH]; intros [| k] H; try reflexivity.
  cbn in *. apply orb_false_iff in H as [-> H]. now apply IH.
Qed.

End MatchOneMore.

(** X1.  A globstar that is not the last pattern token stands for zero or
    more file segments none of which is [.], [..] or, with [dot] unset, a
    segment starting with a dot: the match succeeds exactly when the file
    splits into such a run and a rest that matches the rest of the
    pattern. *)
Theorem matchOne_globstar_runs
        (dot : bool) (file : list string) (p : MinimatchClass.ParseReturn)
        (pr : list MinimatchClass.ParseReturn) (partial : bool) :
  MinimatchClass.matchOne dot file (MinimatchClass.GLOBSTAR :: p :: pr) partial
  = true <->
  exists mid rest,
    file = mid ++ rest /\
    Forall (fun f => MinimatchClass.isDotSegment dot f = false) mid /\
    MinimatchClass.matchOne dot rest (p :: pr) partial = true.
Proof.
  rewrite matchOne_globstar_inner. apply swallow_iff. reflexivity.
Qed.

(** X2.  For a pattern made of string tokens only, [matchOne] without
    partial mode succeeds exactly on the file made of the same segments,
    and on that file followed by one empty segment. *)
Theorem matchOne_literal
        (dot : bool) (file segments : list string) :
  MinimatchClass.matchOne dot file (map MinimatchClass.PString segments) false
  = true <->
  file = segments \/ file = segments ++ [""].
Proof.
  revert file. induction segments as [| s segments IH]; intro file.
  - cbn [map app]. apply matchOne_pattern_exhausted.
  - cbn [map]. destruct file as [| f fs].
    + cbn. split; [discriminate |]. intros [H | H]; discriminate H.
    + cbn [MinimatchClass.matchOne].
      destruct (String.eqb_spec f s) as [-> | Hne].
      * rewrite IH. cbn [app]. split.
        -- intros [-> | ->]; [now left | now right].
        -- intros [H | H]; injection H as ->; [now left | now right].
      * split; [discriminate |].
        intros [H | H]; injection H as -> _; now elim Hne.
Qed.

(** X3.  Partial mode only adds matches: a file that [matchOne] accepts
    without partial mode is accepted with it. *)
Theorem matchOne_partial_monotone
        (dot : bool) (file : list string)
        (pattern : list MinimatchClass.ParseReturn) :
  MinimatchClass.matchOne dot file pattern false = true ->
  MinimatchClass.matchOne dot file pattern true = true.
Proof.
  revert file. induction pattern as [| p pr IH]; intro file.
  - destruct file as [| f [| g rest]]; cbn; auto.
  - destruct file as [| f fs]; [reflexivity |].
    destruct p as [| | s | test].
    + cbn. auto.
    + destruct pr as [| p' pr'].
      * cbn [MinimatchClass.matchOne]. auto.
      * rewrite !matchOne_globstar_inner.
        generalize (f :: fs). intro rest.
        induction rest as [| x rest IHrest]; [discriminate |].
        cbn [swallow].
        destruct (MinimatchClass.matchOne dot (x :: rest) (p' :: pr') false)
          eqn:H1.
        -- now rewrite (IH _ H1).
        -- destruct (MinimatchClass.matchOne dot (x :: rest) (p' :: pr') true);
             [reflexivity |].
           destruct (MinimatchClass.isDotSegment dot x); auto.
    + cbn [MinimatchClass.matchOne]. destruct (String.eqb f s); auto.
    + cbn [MinimatchClass.matchOne]. destruct (test f); auto.
Qed.

Lemma matchOne_partial_monotone_witness :
  MinimatchClass.matchOne false ["a"; "x"; "b"]
    [MinimatchClass.PString "a"; MinimatchClass.GLOBSTAR;
     MinimatchClass.PString "b"] true = true.
Proof.
  apply (matchOne_partial_monotone false ["a"; "x"; "b"]). reflexivity.
Defined.

(** X4.  Partial mode accepts every leading part of a matching file: if
    [matchOne] accepts a file without partial mode, it accepts each of its
    prefixes in partial mode. *)
Theorem matchOne_partial_prefix
        (dot : bool) (file : list string)
        (pattern : list MinimatchClass.ParseReturn) (k : nat) :
  MinimatchClass.matchOne dot file pattern false = true ->
  MinimatchClass.matchOne dot (firstn k file) pattern true = true.
Proof.
  revert file k. induction pattern as [| p pr IH]; intros file k.
  - destruct file as [| f [| g rest]]; destruct k as [| [| k]]; cbn; auto;
      discriminate.
  - destruct file as [| f fs]; [discriminate |].
    destruct k as [| k]; [reflexivity |].
    destruct p as [| | s | test].
    + discriminate.
    + destruct pr as [| p' pr'].
      * cbn [firstn]. rewrite !matchOne_globstar_last.
        intro H. apply negb_true_iff in H. apply negb_true_iff.
        change (f :: firstn k fs) with (firstn (S k) (f :: fs)).
        now apply existsb_firstn.
      * rewrite !matchOne_globstar_inner.
        generalize (S k) (f :: fs). clear f fs k. intros k rest. revert k.
        induction rest as [| x rest IHrest]; intro k; [discriminate |].
        destruct k as [| k]; [reflexivity |].
        cbn [swallow firstn].
        destruct (MinimatchClass.matchOne dot (x :: rest) (p' :: pr') false)
          eqn:H1.
        -- intros _. specialize (IH _ (S k) H1). cbn [firstn] in IH.
           now rewrite IH.
        -- destruct (MinimatchClass.matchOne dot (x :: firstn k rest)
                       (p' :: pr') true); [reflexivity |].
           destruct (MinimatchClass.isDotSegment dot x); auto.
    + cbn [firstn MinimatchClass.matchOne]. destruct (String.eqb f s); auto.
    + cbn [firstn MinimatchClass.matchOne]. destruct (test f); auto.
Qed.

Lemma matchOne_partial_prefix_witness :
  MinimatchClass.matchOne false (firstn 2 ["a"; "x"; "y"; "b"])
    [MinimatchClass.PString "a"; MinimatchClass.GLOBSTAR;
     MinimatchClass.PString "b"] true = true.
Proof.
  apply (matchOne_partial_prefix false ["a"; "x"; "y"; "b"]). reflexivity.
Defined.

(* ===================================================================== *)
(** * Pattern segments: [slashSplit] and [preprocess] *)
(* ===================================================================== *)

Section SegmentFacts.

Import Segments.

Lemma lastOf_app_one set x : lastOf (set ++ [x]) = Some x.
Proof.
  induction set as [| a set IH]; [reflexivity |].
  cbn [app lastOf]. rewrite IH.
  destruct (set ++ [x]) eqn:H; [| reflexivity].
  now destruct set.
Qed.

Lemma lastOf_none set : lastOf set = None -> set = [].
Proof.
  induction set as [| a [| b set] IH]; [reflexivity | discriminate |].
  intro H. specialize (IH H). discriminate IH.
Qed.

Lemma lastOf_some set prev :
  lastOf set = Some prev -> exists init, set = init ++ [prev].
Proof.
  induction set as [| a [| b set] IH]; [discriminate | |].
  - intro H. injection H as ->. now exists [].
  - intro H. destruct (IH H) as (init & Hinit).
    exists (a :: init). cbn [app]. now rewrite <- Hinit.
Qed.

(** [reduced] on an array with one more member at its end. *)
Lemma reduced_app_one set x :
  reduced (set ++ [x])
  = reduced set &&
    match lastOf set with
    | Some prev =>
        negb (String.eqb x "**" && String.eqb prev "**") &&
        negb (String.eqb x ".." && cancellable prev)
    | None => true
    end.
Proof.
  induction set as [| a [| b set] IH].
  - reflexivity.
  - cbn. now rewrite !andb_true_r.
  - change ((a :: b :: set) ++ [x]) with (a :: (b :: set) ++ [x]).
    change (reduced (a :: (b :: set) ++ [x]))
      with (negb (String.eqb b "**" && String.eqb a "**") &&
            negb (String.eqb b ".." && cancellable a) &&
            reduced ((b :: set) ++ [x])).
    rewrite IH.
    change (reduced (a :: b :: set))
      with (negb (String.eqb b "**" && String.eqb a "**") &&
            negb (String.eqb b ".." && cancellable a) &&
            reduced (b :: set)).
    change (lastOf (a :: b :: set)) with (lastOf (b :: set)).
    now rewrite !andb_assoc.
Qed.

Lemma reduced_init init x : reduced (init ++ [x]) = true -> reduced init = true.
Proof.
  rewrite reduced_app_one. intro H. now apply andb_true_iff in H as [H _].
Qed.

Lemma removelast_app_one {A} (l : list A) x : removelast (l ++ [x]) = l.
Proof.
  rewrite removelast_app by discriminate. cbn. apply app_nil_r.
Qed.

Lemma reduceStep_reduced set part :
  reduced set = true -> reduced (reduceStep set part) = true.
Proof.
  intro H. unfold reduceStep. destruct (lastOf set) as [prev |] eqn:Hlast.
  - destruct (String.eqb part "**" && String.eqb prev "**") eqn:H1;
      [exact H |].
    destruct (String.eqb part ".." && cancellable prev) eqn:H2.
    + destruct (lastOf_some set prev Hlast) as (init & ->).
      rewrite removelast_app_one. now apply reduced_init in H.
    + rewrite reduced_app_one, H, Hlast, H1, H2. reflexivity.
  - rewrite reduced_app_one, H, Hlast. reflexivity.
Qed.

Lemma fold_reduceStep_reduced parts set :
  reduced set = true -> reduced (fold_left reduceStep parts set) = true.
Proof.
  revert set. induction parts as [| part parts IH]; intros set H; [exact H |].
  cbn [fold_left]. apply IH. now apply reduceStep_reduced.
Qed.

(** On an array that is already reduced the pass changes nothing. *)
Lemma fold_reduceStep_fixed parts set :
  reduced (set ++ parts) = true ->
  fold_left reduceStep parts set = set ++ parts.
Proof.
  revert set. induction parts as [| part parts IH]; intros set H.
  - now rewrite app_nil_r.
  - cbn [fold_left].
    assert (Hstep : reduceStep set part = set ++ [part]).
    { assert (H' : reduced (set ++ [part]) = true).
      { replace (set ++ part :: parts) with ((set ++ [part]) ++ parts) in H
          by now rewrite <- app_assoc.
        clear IH. revert H. generalize (set ++ [part]). intros l.
        induction parts as [| q parts IHp] using rev_ind.
        - now rewrite app_nil_r.
        - rewrite app_assoc. intro H. apply reduced_init in H. now apply IHp. }
      rewrite reduced_app_one in H'. apply andb_true_iff in H' as [_ H'].
      unfold reduceStep. destruct (lastOf set) as [prev |]; [| reflexivity].
      apply andb_true_iff in H' as [H1 H2].
      apply negb_true_iff in H1, H2. now rewrite H1, H2. }
    rewrite Hstep, IH; rewrite <- app_assoc; [reflexivity | exact H].
Qed.

Lemma fold_reduceStep_in parts set x :
  In x (fold_left reduceStep parts set) -> In x set \/ In x parts.
Proof.
  revert set. induction parts as [| part parts IH]; intros set H;
    [now left |].
  cbn [fold_left] in H. apply IH in H as [H | H]; [| right; now right].
  unfold reduceStep in H. destruct (lastOf set) as [prev |] eqn:Hlast.
  - destruct (String.eqb part "**" && String.eqb prev "**"); [now left |].
    destruct (String.eqb part ".." && cancellable prev).
    + destruct (lastOf_some set prev Hlast) as (init & ->).
      rewrite removelast_app_one in H. left. apply in_or_app. now left.
    + apply in_app_or in H as [H | [<- | []]]; [now left | right; now left].
  - apply in_app_or in H as [H | [<- | []]]; [now left | right; now left].
Qed.

Lemma star_for_globstar_fixed parts :
  ~ In "**" parts ->
  map (fun part => if String.eqb part "**" then "*" else part) parts = parts.
Proof.
  induction parts as [| a parts IH]; [reflexivity |].
  intro H. cbn [map]. rewrite IH by (intro; apply H; now right).
  destruct (String.eqb_spec a "**") as [-> | _]; [| reflexivity].
  elim H. now left.
Qed.

Lemma star_for_globstar_none parts :
  ~ In "**"
      (map (fun part => if String.eqb part "**" then "*" else part) parts).
Proof.
  induction parts as [| a parts IH]; [intros [] |].
  cbn [map]. intros [H | H]; [| now apply IH].
  destruct (String.eqb_spec a "**") as [-> | Hne]; [discriminate H |].
  now elim Hne.
Qed.

End SegmentFacts.

(** X5.  With [optimizationLevel] at least 1, every array that
    [preprocess] returns is non-empty, holds no globstar right after a
    globstar and no [..] right after a segment that cancels it (a
    non-empty segment other than [.], [..] and the globstar); the number
    of arrays is unchanged. *)
Theorem preprocess_reduced
        (noglobstar : bool) (optimizationLevel : Z)
        (globParts : list (list string)) :
  1 <= optimizationLevel ->
  List.length (Segments.preprocess noglobstar optimizationLevel globParts)
  = List.length globParts /\
  Forall (fun parts => parts <> [] /\ reduced parts = true)
         (Segments.preprocess noglobstar optimizationLevel globParts).
Proof.
  intro Hlevel. unfold Segments.preprocess.
  assert (Hge : (optimizationLevel >=? 1) = true).
  { rewrite Z.geb_leb. now apply Z.leb_le. }
  rewrite Hge. split.
  - rewrite !length_map. destruct noglobstar; [apply length_map | reflexivity].
  - apply Forall_map, Forall_map. apply Forall_forall. intros parts _.
    pose proof (fold_reduceStep_reduced parts [] eq_refl) as H.
    destruct (fold_left Segments.reduceStep parts []);
      split; [discriminate | reflexivity | discriminate | exact H].
Qed.

Lemma preprocess_reduced_witness :
  Segments.preprocess false 1 [["a"; "**"; "**"; "b"; ".."; "c"]; [".."]; ["x"; ".."]]
  = [["a"; "**"; "c"]; [".."]; [""]] /\
  Forall (fun parts => parts <> [] /\ reduced parts = true)
         (Segments.preprocess false 1
            [["a"; "**"; "**"; "b"; ".."; "c"]; [".."]; ["x"; ".."]]).
Proof.
  split; [reflexivity |].
  apply (preprocess_reduced false 1
           [["a"; "**"; "**"; "b"; ".."; "c"]; [".."]; ["x"; ".."]]).
  lia.
Defined.

(** X6.  [preprocess] is idempotent: its result, preprocessed again with
    the same settings, is unchanged. *)
Theorem preprocess_idempotent
        (noglobstar : bool) (optimizationLevel : Z)
        (globParts : list (list string)) :
  Segments.preprocess noglobstar optimizationLevel
    (Segments.preprocess noglobstar optimizationLevel globParts)
  = Segments.preprocess noglobstar optimizationLevel globParts.
Proof.
  unfold Segments.preprocess.
  set (star := fun part : string => if String.eqb part "**" then "*" else part).
  set (fill := fun parts : list string =>
                 match parts with [] => [""] | _ => parts end).
  set (pass := fun parts : list string =>
                 fold_left Segments.reduceStep parts []).
  assert (Hpass : forall parts, pass (fill (pass parts)) = fill (pass parts)).
  { intro parts. unfold pass at 1.
    pose proof (fold_reduceStep_reduced parts [] eq_refl) as H.
    fold (pass parts) in H. unfold fill.
    destruct (pass parts) as [| a l] eqn:Hp; [reflexivity |].
    now apply (fold_reduceStep_fixed (a :: l) []). }
  assert (Hfill : forall parts, fill (fill parts) = fill parts).
  { intros [| a l]; reflexivity. }
  destruct (optimizationLevel >=? 1); destruct noglobstar.
  - rewrite !map_map. apply map_ext. intro parts.
    assert (Hstar : map star (fill (pass (map star parts)))
                    = fill (pass (map star parts))).
    { apply star_for_globstar_fixed. intro Hin. unfold fill in Hin.
      destruct (pass (map star parts)) as [| a l] eqn:Hp.
      - destruct Hin as [H | []]. discriminate H.
      - rewrite <- Hp in Hin. unfold pass in Hin.
        apply fold_reduceStep_in in Hin as [[] | Hin].
        now apply star_for_globstar_none in Hin. }
    rewrite Hstar, Hpass. apply Hfill.
  - rewrite !map_map. apply map_ext. intro parts.
    rewrite Hpass. apply Hfill.
  - rewrite map_map. apply map_ext. intro parts. rewrite map_map.
    apply map_ext. intro part. unfold star.
    destruct (String.eqb_spec part "**") as [-> | Hne]; [reflexivity |].
    now rewrite (proj2 (String.eqb_neq _ _) Hne).
  - reflexivity.
Qed.

(** X7.  The two rewriting laws of the reduction pass of [preprocess]:
    anywhere in an array, a segment that a [..] cancels disappears with
    the [..] that follows it, and a globstar that follows a globstar
    disappears. *)
Theorem reduce_laws (before after : list string) (a : string) :
  (Segments.cancellable a = true ->
   fold_left Segments.reduceStep (before ++ a :: ".." :: after) []
   = fold_left Segments.reduceStep (before ++ after) []) /\
  fold_left Segments.reduceStep (before ++ "**" :: "**" :: after) []
  = fold_left Segments.reduceStep (before ++ "**" :: after) [].
Proof.
  rewrite !fold_left_app. cbn [fold_left]. split.
  - intro Ha. f_equal.
    set (set := fold_left Segments.reduceStep before []).
    assert (Hpush : Segments.reduceStep set a = set ++ [a]).
    { unfold Segments.reduceStep.
      destruct (Segments.lastOf set) as [prev |]; [| reflexivity].
      unfold Segments.cancellable in Ha.
      destruct (String.eqb_spec a "**") as [Heq | _];
        [rewrite Heq in Ha; discriminate Ha |].
      destruct (String.eqb_spec a "..") as [Heq | _];
        [rewrite Heq in Ha; discriminate Ha |].
      reflexivity. }
    rewrite Hpush. unfold Segments.reduceStep.
    rewrite lastOf_app_one, Ha. cbn. apply removelast_app_one.
  - f_equal.
    set (set := fold_left Segments.reduceStep before []).
    assert (Hlast : Segments.lastOf (Segments.reduceStep set "**") = Some "**").
    { unfold Segments.reduceStep.
      destruct (Segments.lastOf set) as [prev |] eqn:Hl;
        [| apply lastOf_app_one].
      cbn [String.eqb Ascii.eqb Bool.eqb andb].
      destruct (String.eqb_spec prev "**") as [-> | Hne].
      - exact Hl.
      - cbn. apply lastOf_app_one. }
    unfold Segments.reduceStep at 1. now rewrite Hlast.
Qed.

Lemma reduce_laws_witness :
  fold_left Segments.reduceStep (["x"] ++ "a" :: ".." :: ["y"]) []
  = fold_left Segments.reduceStep (["x"] ++ ["y"]) [].
Proof.
  apply (reduce_laws ["x"] ["y"] "a"). reflexivity.
Defined.

Section SlashSplitFacts.

Import Segments.

Lemma split_pieces_no_sep c s piece :
  In piece (JS.split c s) -> JS.noneIn (String c "") piece = true.
Proof.
  revert piece.
  induction s as [| x s IH]; intros piece Hin.
  - destruct Hin as [<- | []]. reflexivity.
  - cbn [JS.split] in Hin. destruct (Ascii.eqb x c) eqn:Hx.
    + destruct Hin as [<- | Hin]; [reflexivity | now apply IH].
    + destruct (JS.split c s) as [| h t] eqn:Hs.
      * destruct Hin as [<- | []]. cbn. now rewrite Ascii.eqb_sym, Hx.
      * destruct Hin as [<- | Hin].
        -- cbn [JS.noneIn JS.inClass]. rewrite Ascii.eqb_sym, Hx. cbn.
           apply IH. now left.
        -- apply IH. now right.
Qed.

(** Splitting on runs of slashes and on single slashes give the same
    first piece and the same non-empty pieces. *)
Lemma runs_and_plain s :
  (exists h t t',
      splitSlashRunsFrom false s = h :: t /\ JS.split "/" s = h :: t' /\
      nonEmptyParts t = nonEmptyParts t') /\
  nonEmptyParts (splitSlashRunsFrom true s) = nonEmptyParts (JS.split "/" s).
Proof.
  induction s as [| c s [(h & t & t' & Hr & Hs & Ht) IHb]].
  - split; [now exists "", [], [] | reflexivity].
  - cbn [splitSlashRunsFrom JS.split]. destruct (Ascii.eqb c "/").
    + split.
      * exists "", (splitSlashRunsFrom true s), (JS.split "/" s).
        now repeat split.
      * exact IHb.
    + rewrite Hr, Hs. split.
      * now exists (String c h), t, t'.
      * unfold nonEmptyParts in *. cbn [filter String.eqb negb].
        now rewrite Ht.
Qed.

Lemma split_slash_free s :
  JS.noneIn "/" s = true -> JS.split "/" s = [s].
Proof.
  induction s as [| c s IH]; [reflexivity |].
  cbn [JS.noneIn JS.inClass JS.split]. rewrite orb_false_r.
  intro H. apply andb_true_iff in H as [Hc Hs].
  apply negb_true_iff in Hc. rewrite Ascii.eqb_sym in Hc.
  now rewrite Hc, (IH Hs).
Qed.

Lemma split_app_slash a b :
  JS.noneIn "/" a = true ->
  JS.split "/" (a ++ "/" ++ b)%string = a :: JS.split "/" b.
Proof.
  induction a as [| c a IH]; [reflexivity |].
  cbn [JS.noneIn JS.inClass String.append JS.split]. rewrite orb_false_r.
  intro H. apply andb_true_iff in H as [Hc Ha].
  apply negb_true_iff in Hc. rewrite Ascii.eqb_sym in Hc.
  rewrite Hc. cbn [String.append] in IH. now rewrite (IH Ha).
Qed.

Lemma split_join segments :
  segments <> [] ->
  Forall (fun seg => JS.noneIn "/" seg = true) segments ->
  JS.split "/" (join "/" segments) = segments.
Proof.
  induction segments as [| a [| b segments] IH]; [now intros [] | |].
  - intros _ H. inversion H; subst. now apply split_slash_free.
  - intros _ H. inversion H as [| ? ? Ha Hrest]; subst.
    change (join "/" (a :: b :: segments))
      with (a ++ "/" ++ join "/" (b :: segments))%string.
    rewrite split_app_slash by exact Ha.
    now rewrite IH.
Qed.

Lemma nonEmptyParts_fixed segments :
  Forall (fun seg => seg <> "") segments -> nonEmptyParts segments = segments.
Proof.
  induction 1 as [| seg segments Hseg _ IH]; [reflexivity |].
  unfold nonEmptyParts in *. cbn [filter].
  rewrite (proj2 (String.eqb_neq _ _) Hseg). cbn [negb]. now rewrite IH.
Qed.

Lemma join_head a segments :
  exists tail, join "/" (a :: segments) = (a ++ tail)%string.
Proof.
  destruct segments as [| b segments].
  - exists "". cbn. induction a; cbn; congruence.
  - now exists ("/" ++ join "/" (b :: segments))%string.
Qed.

End SlashSplitFacts.

(** X8.  Without [preserveMultipleSlashes], [slashSplit] of a non-empty
    path is a marker followed by the non-empty pieces between single
    slashes, in order: the marker is two empty segments for a UNC path on
    Windows, one empty segment for any other path that starts with a
    slash, and nothing otherwise.  Runs of slashes and a slash at the end
    leave no trace. *)
Theorem slashSplit_pieces (path : string) (isWindowsPlatform : bool) :
  path <> "" ->
  Segments.slashSplit path false isWindowsPlatform
  = (if isWindowsPlatform && Segments.isUNC path then [""; ""]
     else if JS.startsWith path "/" then [""] else [])
    ++ Segments.nonEmptyParts (JS.split "/" path).
Proof.
  intro Hne. unfold Segments.slashSplit.
  rewrite (proj2 (String.eqb_neq _ _) Hne).
  destruct (runs_and_plain path) as [(h & t & t' & Hr & Hs & Ht) _].
  unfold Segments.splitSlashRuns. rewrite Hr, Hs.
  destruct (isWindowsPlatform && Segments.isUNC path) eqn:Hunc.
  - apply andb_true_iff in Hunc as [_ Hunc].
    assert (Hh : h = "").
    { destruct path as [| c path]; [discriminate Hunc |].
      cbn [Segments.isUNC] in Hunc.
      destruct (Ascii.eqb_spec c "/") as [-> | Hc].
      - cbn in Hs. now injection Hs as <- _.
      - each_code_unit c; first [discriminate Hunc | now elim Hc]. }
    subst h. unfold Segments.nonEmptyParts in *. cbn [filter String.eqb negb app].
    now rewrite Ht.
  - assert (Hcase : Segments.nonEmptyParts (h :: t)
                    = Segments.nonEmptyParts (h :: t')).
    { unfold Segments.nonEmptyParts in *. cbn [filter]. now rewrite Ht. }
    rewrite Hcase. now destruct (JS.startsWith path "/").
Qed.

Lemma slashSplit_pieces_witness :
  Segments.slashSplit "/a//b/" false false = [""; "a"; "b"] /\
  Segments.slashSplit "//server/share" false true = [""; ""; "server"; "share"].
Proof.
  split.
  - rewrite (slashSplit_pieces "/a//b/" false) by discriminate. reflexivity.
  - rewrite (slashSplit_pieces "//server/share" true) by discriminate.
    reflexivity.
Defined.

(** X9.  No segment that [slashSplit] returns holds a slash. *)
Theorem slashSplit_no_slash
        (path : string) (preserveMultipleSlashes isWindowsPlatform : bool)
        (segment : string) :
  In segment
     (Segments.slashSplit path preserveMultipleSlashes isWindowsPlatform) ->
  JS.noneIn "/" segment = true.
Proof.
  destruct (String.eqb_spec path "") as [-> | Hne].
  - intros [<- | []]. reflexivity.
  - destruct preserveMultipleSlashes.
    + unfold Segments.slashSplit. rewrite (proj2 (String.eqb_neq _ _) Hne).
      intro Hin. now apply (split_pieces_no_sep "/" path).
    + rewrite slashSplit_pieces by exact Hne. intro Hin.
      apply in_app_or in Hin as [Hin | Hin].
      * destruct (isWindowsPlatform && Segments.isUNC path);
          [| destruct (JS.startsWith path "/")]; cbn in Hin;
          intuition (subst; reflexivity).
      * apply filter_In in Hin as [Hin _].
        now apply (split_pieces_no_sep "/" path).
Qed.

Lemma slashSplit_no_slash_witness :
  In "b" (Segments.slashSplit "a//b" false false) /\ JS.noneIn "/" "b" = true.
Proof.
  assert (H : In "b" (Segments.slashSplit "a//b" false false)).
  { cbn. tauto. }
  split; [exact H |].
  exact (slashSplit_no_slash "a//b" false false "b" H).
Defined.

(** X10.  [slashSplit] undoes joining with slashes: segments that hold
    no slash, joined with single slashes, split back into themselves
    under [preserveMultipleSlashes]; without it they do when none of them
    is empty. *)
Theorem slashSplit_join (segments : list string) (isWindowsPlatform : bool) :
  segments <> [] ->
  Forall (fun seg => JS.noneIn "/" seg = true) segments ->
  Segments.slashSplit (join "/" segments) true isWindowsPlatform = segments /\
  (Forall (fun seg => seg <> "") segments ->
   Segments.slashSplit (join "/" segments) false isWindowsPlatform = segments).
Proof.
  intros Hne Hfree. split.
  - unfold Segments.slashSplit.
    destruct (String.eqb_spec (join "/" segments) "") as [Hj | _].
    + rewrite <- (split_join segments Hne Hfree), Hj. reflexivity.
    + now apply split_join.
  - intro Hfull. destruct segments as [| a segments]; [now elim Hne |].
    inversion Hfull as [| ? ? Ha _]; subst.
    inversion Hfree as [| ? ? Hfa _]; subst.
    destruct (join_head a segments) as (tail & Hj).
    destruct a as [| c a]; [now elim Ha |].
    assert (Hc : Ascii.eqb c "/" = false).
    { cbn in Hfa. rewrite orb_false_r in Hfa.
      apply andb_true_iff in Hfa as [Hc _]. apply negb_true_iff in Hc.
      now rewrite Ascii.eqb_sym. }
    rewrite slashSplit_pieces by (rewrite Hj; discriminate).
    rewrite split_join by assumption.
    rewrite nonEmptyParts_fixed by assumption.
    rewrite Hj. cbn [String.append].
    assert (Hunc : Segments.isUNC (String c (a ++ tail)) = false).
    { destruct (Ascii.eqb_spec c "/") as [-> | Hn]; [discriminate Hc |].
      each_code_unit c; first [reflexivity | now elim Hn]. }
    rewrite Hunc, andb_false_r. cbn [JS.startsWith].
    assert (Hc' : Ascii.eqb "/" c = false) by now rewrite Ascii.eqb_sym.
    rewrite Hc'. reflexivity.
Qed.

Lemma slashSplit_join_witness :
  Segments.slashSplit (join "/" ["src"; "**"; "*.js"]) false true
  = ["src"; "**"; "*.js"].
Proof.
  apply (slashSplit_join ["src"; "**"; "*.js"] true).
  - discriminate.
  - repeat constructor.
  - repeat constructor; discriminate.
Defined.

(* ===================================================================== *)
(** * The brace cache *)
(* ===================================================================== *)

Section JsMapMore.

Context {V : Type}.
Implicit Types (m : JsMap.t V) (k : string) (v : V).

Lemma get_set k k' v m :
  JsMap.get k (JsMap.set k' v m)
  = if String.eqb k' k then Some v else JsMap.get k m.
Proof.
  induction m as [| [k0 v0] m IH]; cbn [JsMap.set JsMap.get].
  - destruct (String.eqb k' k); reflexivity.
  - destruct (String.eqb_spec k0 k') as [-> | Hne]; cbn [JsMap.get].
    + destruct (String.eqb k' k); reflexivity.
    + rewrite IH. destruct (String.eqb_spec k0 k) as [-> | _]; [| reflexivity].
      now rewrite (proj2 (String.eqb_neq _ _) (not_eq_sym Hne)).
Qed.

Lemma get_delete_any k k' m :
  JsMap.get k (JsMap.delete k' m)
  = if String.eqb k' k then None else JsMap.get k m.
Proof.
  induction m as [| [k0 v0] m IH]; unfold JsMap.delete; cbn [filter fst].
  - now destruct (String.eqb k' k).
  - fold (JsMap.delete k' m).
    destruct (String.eqb_spec k0 k') as [-> | Hne]; cbn [negb JsMap.get].
    + rewrite IH. destruct (String.eqb k' k); reflexivity.
    + rewrite IH. destruct (String.eqb_spec k0 k) as [-> | _]; [| reflexivity].
      now rewrite (proj2 (String.eqb_neq _ _) (not_eq_sym Hne)).
Qed.

Lemma size_set k v m : JsMap.size (JsMap.set k v m) <= JsMap.size m + 1.
Proof.
  unfold JsMap.size. induction m as [| [k0 v0] m IH]; cbn [JsMap.set].
  - cbn. lia.
  - destruct (String.eqb k0 k); cbn [List.length] in *; lia.
Qed.

Lemma size_delete_first k m :
  JsMap.firstKey m = Some k -> JsMap.size (JsMap.delete k m) <= JsMap.size m - 1.
Proof.
  destruct m as [| [k0 v0] m]; [discriminate |].
  intro H. injection H as ->. unfold JsMap.size, JsMap.delete.
  cbn [filter fst]. rewrite String.eqb_refl. cbn [negb List.length].
  pose proof (filter_length_le (fun kv => negb (String.eqb (fst kv) k)) m).
  lia.
Qed.

End JsMapMore.

Section BraceCacheFacts.

Import BraceExpand.

Variable E : Engine.

Lemma addToBraceCache_size pattern result bc :
  JsMap.size bc <= BRACE_CACHE_SIZE ->
  JsMap.size (addToBraceCache pattern result bc) <= BRACE_CACHE_SIZE.
Proof.
  intro H. unfold addToBraceCache.
  destruct (JsMap.size bc >=? BRACE_CACHE_SIZE) eqn:Hfull.
  - destruct (JsMap.firstKey bc) as [k |] eqn:Hk.
    + pose proof (size_delete_first k bc Hk).
      pose proof (size_set pattern result (JsMap.delete k bc)). lia.
    + destruct bc; [| destruct p; discriminate Hk].
      cbn. unfold BRACE_CACHE_SIZE. lia.
  - rewrite Z.geb_leb in Hfull. apply Z.leb_gt in Hfull.
    pose proof (size_set pattern result bc). lia.
Qed.

(** The cache after a call is the cache before it, or that cache with
    the result of the call added under the pattern. *)
Lemma braceExpand_cache pattern options bc :
  snd (braceExpand E pattern options bc) = bc \/
  snd (braceExpand E pattern options bc)
  = addToBraceCache pattern (fst (braceExpand E pattern options bc)) bc.
Proof.
  unfold braceExpand.
  repeat match goal with
         | |- context [if ?b then _ else _] => destruct b
         | |- context [match ?x with Some _ => _ | None => _ end] => destruct x
         end; cbn [fst snd]; auto.
Qed.

Lemma braceExpand_size pattern options bc :
  JsMap.size bc <= BRACE_CACHE_SIZE ->
  JsMap.size (snd (braceExpand E pattern options bc)) <= BRACE_CACHE_SIZE.
Proof.
  intro H. destruct (braceExpand_cache pattern options bc) as [-> | ->];
    [exact H | now apply addToBraceCache_size].
Qed.

(** The constructor leaves the brace cache as it is or as one call of
    [braceExpand] leaves it. *)
Lemma new_cache pattern options bc :
  snd (MinimatchClass.new E pattern options bc) = bc \/
  exists pattern',
    snd (MinimatchClass.new E pattern options bc)
    = snd (braceExpand E pattern' options bc).
Proof.
  unfold MinimatchClass.new.
  destruct (JS.len pattern >? MinimatchClass.MAX_PATTERN_LENGTH); [now left |].
  match goal with
  | |- context [if ?b then _ else _] => destruct b; [now left |]
  end.
  match goal with
  | |- context [if ?b then _ else _] => destruct b; [now left |]
  end.
  destruct (MinimatchClass.parseNegate _ _) as [negate pattern2].
  right. exists pattern2.
  now destruct (braceExpand E pattern2 options bc).
Qed.

Lemma getOrCreateMatcher_cache pattern options st :
  Cache.braceCache (snd (Cache.getOrCreateMatcher E pattern options st))
  = Cache.braceCache st \/
  Cache.braceCache (snd (Cache.getOrCreateMatcher E pattern options st))
  = snd (MinimatchClass.new E pattern options (Cache.braceCache st)).
Proof.
  unfold Cache.getOrCreateMatcher.
  destruct (JsMap.get _ _); [now left |].
  destruct (MinimatchClass.new E pattern options (Cache.braceCache st))
    as [[mm | e] bc']; now right.
Qed.

(** With [nobrace] unset the options play no part. *)
Lemma braceExpand_options pattern options bc :
  nobrace options = false ->
  braceExpand E pattern options bc = braceExpand E pattern noOptions bc.
Proof. intro H. unfold braceExpand. now rewrite H. Qed.

(** On a sound cache a call returns what it returns on an empty one, and
    leaves a sound cache. *)
Lemma braceExpand_sound pattern options bc :
  braceCacheSound E bc ->
  fst (braceExpand E pattern options bc)
  = fst (braceExpand E pattern options JsMap.empty) /\
  braceCacheSound E (snd (braceExpand E pattern options bc)).
Proof.
  intro Hs.
  assert (Hfst : fst (braceExpand E pattern options bc)
                 = fst (braceExpand E pattern options JsMap.empty)).
  { unfold braceExpand. destruct (nobrace options) eqn:Hn; [reflexivity |].
    destruct ((JS.indexOf pattern "{" =? -1) ||
              (JS.indexOfFrom pattern "}" (JS.indexOf pattern "{") =? -1))
      eqn:Hpre; [reflexivity |].
    cbn [JsMap.get JsMap.empty].
    destruct (JsMap.get pattern bc) as [cached |] eqn:Hget.
    - cbn [fst]. rewrite (Hs pattern cached Hget). unfold expandCold, braceExpand.
      cbn [nobrace noOptions]. rewrite Hpre. reflexivity.
    - destruct (trySimpleBraceExpand pattern); [reflexivity |].
      destruct (braces E pattern) as [expanded |]; [| reflexivity].
      destruct (_ >? MAX_EXPANSION_LENGTH); reflexivity. }
  split; [exact Hfst |].
  destruct (braceExpand_cache pattern options bc) as [-> | Hadd]; [exact Hs |].
  assert (Hcold : nobrace options = false ->
                  fst (braceExpand E pattern options bc) = expandCold E pattern).
  { intro Hn. rewrite Hfst. unfold expandCold.
    now rewrite (braceExpand_options pattern options JsMap.empty Hn). }
  destruct (nobrace options) eqn:Hn.
  { unfold braceExpand. rewrite Hn. exact Hs. }
  rewrite Hadd. unfold addToBraceCache. intros k cached.
  rewrite get_set. destruct (String.eqb_spec pattern k) as [<- | Hne].
  - intro H. injection H as <-. now apply Hcold.
  - destruct (JsMap.size bc >=? BRACE_CACHE_SIZE); [| apply Hs].
    destruct (JsMap.firstKey bc) as [k0 |]; [| apply Hs].
    rewrite get_delete_any. destruct (String.eqb k0 k); [discriminate |].
    apply Hs.
Qed.

Lemma new_sound pattern options bc :
  braceCacheSound E bc ->
  braceCacheSound E (snd (MinimatchClass.new E pattern options bc)).
Proof.
  intro Hs. destruct (new_cache pattern options bc) as [-> | (p' & ->)];
    [exact Hs | now apply braceExpand_sound].
Qed.

Lemma empty_sound : braceCacheSound E JsMap.empty.
Proof. intros k cached H. discriminate H. Qed.

Lemma runBrace_sound calls bc :
  braceCacheSound E bc -> braceCacheSound E (runBrace E calls bc).
Proof.
  revert bc. induction calls as [| [p o] calls IH]; intros bc Hs; [exact Hs |].
  cbn [runBrace]. apply IH. now apply braceExpand_sound.
Qed.

Lemma run_sound calls st :
  braceCacheSound E (Cache.braceCache st) ->
  braceCacheSound E (Cache.braceCache (run E calls st)).
Proof.
  revert st. induction calls as [| [p o] calls IH]; intros st Hs; [exact Hs |].
  cbn [run]. apply IH.
  destruct (getOrCreateMatcher_cache p o st) as [-> | ->];
    [exact Hs | now apply new_sound].
Qed.

Lemma runBrace_size calls bc :
  JsMap.size bc <= BRACE_CACHE_SIZE ->
  JsMap.size (runBrace E calls bc) <= BRACE_CACHE_SIZE.
Proof.
  revert bc. induction calls as [| [p o] calls IH]; intros bc Hs; [exact Hs |].
  cbn [runBrace]. apply IH. now apply braceExpand_size.
Qed.

Lemma run_size calls st :
  JsMap.size (Cache.braceCache st) <= BRACE_CACHE_SIZE ->
  JsMap.size (Cache.braceCache (run E calls st)) <= BRACE_CACHE_SIZE.
Proof.
  revert st. induction calls as [| [p o] calls IH]; intros st Hs; [exact Hs |].
  cbn [run]. apply IH.
  destruct (getOrCreateMatcher_cache p o st) as [-> | ->]; [exact Hs |].
  destruct (new_cache p o (Cache.braceCache st)) as [-> | (p' & ->)];
    [exact Hs | now apply braceExpand_size].
Qed.

(** From an empty cache [braceExpand] returns at least one string. *)
Lemma braceExpand_cold_nonempty pattern options :
  fst (braceExpand E pattern options JsMap.empty) <> [].
Proof.
  unfold braceExpand. destruct (nobrace options); [discriminate |].
  destruct (_ || _); [discriminate |]. cbn [JsMap.get JsMap.empty].
  destruct (trySimpleBraceExpand pattern) as [items |] eqn:Hs.
  - cbn [fst]. unfold trySimpleBraceExpand in Hs.
    destruct (SIMPLE_BRACE_RE pattern) as [[[prefix content] suffix] |];
      [| discriminate Hs].
    destruct (JS.includes content ".."); [discriminate Hs |].
    injection Hs as <-. destruct content as [| c content]; [discriminate |].
    cbn [JS.split]. destruct (Ascii.eqb c ","); [discriminate |].
    destruct (JS.split "," content); discriminate.
  - destruct (braces E pattern) as [expanded |]; [| discriminate].
    destruct (_ >? MAX_EXPANSION_LENGTH); [discriminate |]. cbn [fst].
    destruct (JS.dedupe expanded) eqn:Hd; [discriminate |].
    cbn. discriminate.
Qed.

End BraceCacheFacts.

(** X11.  The brace cache never holds more than 200 entries, whether it
    is filled by calls of [braceExpand] or by the compilations that
    [getOrCreateMatcher] starts. *)
Theorem brace_cache_bounded
        (E : Engine) (calls : list (string * MinimatchOptions)) :
  JsMap.size (runBrace E calls JsMap.empty) <= 200 /\
  JsMap.size (Cache.braceCache (run E calls Cache.emptyStore)) <= 200.
Proof.
  split.
  - apply (runBrace_size E calls JsMap.empty). cbn.
    unfold BraceExpand.BRACE_CACHE_SIZE. lia.
  - apply (run_size E calls Cache.emptyStore). cbn.
    unfold BraceExpand.BRACE_CACHE_SIZE. lia.
Qed.

(** X12.  The brace cache is transparent: after any sequence of calls of
    [braceExpand], or of compilations through [getOrCreateMatcher], a
    call of [braceExpand] returns what it returns from an empty cache,
    and the constructor builds the instance it builds from an empty
    cache. *)
Theorem brace_cache_transparent
        (E : Engine) (calls : list (string * MinimatchOptions))
        (pattern : string) (options : MinimatchOptions) :
  let warm := runBrace E calls JsMap.empty in
  let warm' := Cache.braceCache (run E calls Cache.emptyStore) in
  fst (BraceExpand.braceExpand E pattern options warm)
  = fst (BraceExpand.braceExpand E pattern options JsMap.empty) /\
  fst (BraceExpand.braceExpand E pattern options warm')
  = fst (BraceExpand.braceExpand E pattern options JsMap.empty) /\
  fst (MinimatchClass.new E pattern options warm)
  = fst (MinimatchClass.new E pattern options JsMap.empty) /\
  fst (MinimatchClass.new E pattern options warm')
  = fst (MinimatchClass.new E pattern options JsMap.empty).
Proof.
  intros warm warm'.
  assert (Hw : braceCacheSound E warm).
  { apply runBrace_sound, empty_sound. }
  assert (Hw' : braceCacheSound E warm').
  { apply (run_sound E calls Cache.emptyStore), empty_sound. }
  assert (Hnew : forall bc, braceCacheSound E bc ->
                   fst (MinimatchClass.new E pattern options bc)
                   = fst (MinimatchClass.new E pattern options JsMap.empty)).
  { intros bc Hs. unfold MinimatchClass.new.
    destruct (JS.len pattern >? MinimatchClass.MAX_PATTERN_LENGTH);
      [reflexivity |].
    match goal with
    | |- context [if ?b then _ else _] => destruct b; [reflexivity |]
    end.
    match goal with
    | |- context [if ?b then _ else _] => destruct b; [reflexivity |]
    end.
    destruct (MinimatchClass.parseNegate _ _) as [negate pattern2].
    pose proof (proj1 (braceExpand_sound E pattern2 options bc Hs)) as Heq.
    destruct (BraceExpand.braceExpand E pattern2 options bc) as [x1 c1].
    destruct (BraceExpand.braceExpand E pattern2 options JsMap.empty)
      as [x2 c2].
    cbn [fst] in *. now subst. }
  repeat split.
  - apply braceExpand_sound, Hw.
  - apply braceExpand_sound, Hw'.
  - apply Hnew, Hw.
  - apply Hnew, Hw'.
Qed.

(** X13.  [braceExpand] never returns the empty array, whatever the
    calls that filled the cache before. *)
Theorem braceExpand_nonempty
        (E : Engine) (calls : list (string * MinimatchOptions))
        (pattern : string) (options : MinimatchOptions) :
  fst (BraceExpand.braceExpand E pattern options (runBrace E calls JsMap.empty))
  <> [].
Proof.
  rewrite (proj1 (braceExpand_sound E pattern options _
                    (runBrace_sound E calls JsMap.empty (empty_sound E)))).
  apply braceExpand_cold_nonempty.
Qed.

(* ===================================================================== *)
(** * The simple brace shape *)
(* ===================================================================== *)

Section SimpleBraceFacts.

Import BraceExpand.

Lemma noneIn_app cls a b :
  JS.noneIn cls (a ++ b)%string = JS.noneIn cls a && JS.noneIn cls b.
Proof.
  induction a as [| c a IH]; [reflexivity |].
  cbn [String.append JS.noneIn]. now rewrite IH, andb_assoc.
Qed.

Lemma noneIn_weaken cls cls' s :
  (forall c, JS.inClass cls' c = true -> JS.inClass cls c = true) ->
  JS.noneIn cls s = true -> JS.noneIn cls' s = true.
Proof.
  intro Hsub. induction s as [| c s IH]; [reflexivity |].
  cbn [JS.noneIn]. intro H. apply andb_true_iff in H as [Hc Hs].
  rewrite (IH Hs), andb_true_r. apply negb_true_iff in Hc.
  apply negb_true_iff. destruct (JS.inClass cls' c) eqn:H'; [| reflexivity].
  now rewrite (Hsub c H') in Hc.
Qed.

Lemma spanNot_app cls a c b :
  JS.noneIn cls a = true -> JS.inClass cls c = true ->
  JS.spanNot cls (a ++ String c b)%string = (a, String c b).
Proof.
  intros Ha Hc. induction a as [| x a IH]; cbn [String.append JS.spanNot].
  - now rewrite Hc.
  - cbn [JS.noneIn] in Ha. apply andb_true_iff in Ha as [Hx Ha].
    apply negb_true_iff in Hx. now rewrite Hx, (IH Ha).
Qed.

Lemma split_sep_free c s :
  JS.noneIn (String c "") s = true -> JS.split c s = [s].
Proof.
  induction s as [| x s IH]; [reflexivity |].
  cbn [JS.noneIn JS.inClass JS.split]. rewrite orb_false_r.
  intro H. apply andb_true_iff in H as [Hx Hs].
  apply negb_true_iff in Hx. rewrite Ascii.eqb_sym in Hx.
  now rewrite Hx, (IH Hs).
Qed.

Lemma split_app_sep c a b :
  JS.noneIn (String c "") a = true ->
  JS.split c (a ++ String c b)%string = a :: JS.split c b.
Proof.
  induction a as [| x a IH]; cbn [String.append JS.split].
  - now rewrite Ascii.eqb_refl.
  - cbn [JS.noneIn JS.inClass]. rewrite orb_false_r.
    intro H. apply andb_true_iff in H as [Hx Ha].
    apply negb_true_iff in Hx. rewrite Ascii.eqb_sym in Hx.
    now rewrite Hx, (IH Ha).
Qed.

Lemma split_join_sep c items :
  items <> [] ->
  Forall (fun item => JS.noneIn (String c "") item = true) items ->
  JS.split c (join (String c "") items) = items.
Proof.
  induction items as [| a [| b items] IH]; [now intros [] | |].
  - intros _ H. inversion H; subst. now apply split_sep_free.
  - intros _ H. inversion H as [| ? ? Ha Hrest]; subst.
    change (join (String c "") (a :: b :: items))
      with (a ++ String c (join (String c "") (b :: items)))%string.
    rewrite split_app_sep by exact Ha. now rewrite IH.
Qed.

Lemma noneIn_join cls c items :
  JS.inClass cls c = false ->
  Forall (fun item => JS.noneIn cls item = true) items ->
  JS.noneIn cls (join (String c "") items) = true.
Proof.
  intros Hc. induction items as [| a [| b items] IH]; [reflexivity | |].
  - intro H. now inversion H.
  - intro H. inversion H as [| ? ? Ha Hrest]; subst.
    change (join (String c "") (a :: b :: items))
      with (a ++ String c (join (String c "") (b :: items)))%string.
    rewrite noneIn_app, Ha. cbn [JS.noneIn andb]. rewrite Hc. cbn [negb andb].
    now apply IH.
Qed.

Lemma indexOf_app c a b :
  JS.noneIn (String c "") a = true ->
  JS.indexOf (a ++ String c b)%string c = JS.len a.
Proof.
  unfold JS.len. induction a as [| x a IH]; cbn [String.append JS.indexOf].
  - now rewrite Ascii.eqb_refl.
  - cbn [JS.noneIn JS.inClass]. rewrite orb_false_r.
    intro H. apply andb_true_iff in H as [Hx Ha].
    apply negb_true_iff in Hx. rewrite Ascii.eqb_sym in Hx.
    rewrite Hx, (IH Ha).
    destruct (0 <=? Z.of_nat (String.length a)) eqn:Hle.
    + cbn [String.length]. lia.
    + apply Z.leb_gt in Hle. lia.
Qed.

Lemma indexOf_present c a b : 0 <= JS.indexOf (a ++ String c b)%string c.
Proof.
  induction a as [| x a IH]; cbn [String.append JS.indexOf].
  - rewrite Ascii.eqb_refl. lia.
  - destruct (Ascii.eqb x c); [lia |].
    destruct (0 <=? JS.indexOf (a ++ String c b) c) eqn:Hle; lia.
Qed.

Lemma sliceFrom_app a b : JS.sliceFrom (a ++ b)%string (JS.len a) = b.
Proof.
  unfold JS.sliceFrom, JS.len. rewrite Nat2Z.id.
  induction a as [| x a IH]; cbn [String.append String.length String.substring].
  - rewrite Nat.sub_0_r. induction b as [| y b IHb]; [reflexivity |].
    cbn. now rewrite IHb.
  - exact IH.
Qed.

(** Items free of braces and commas, joined by commas and set between
    braces after a prefix and before a suffix free of opening braces:
    the three groups are found again. *)
Lemma SIMPLE_BRACE_RE_shape prefix suffix content :
  JS.noneIn "{" prefix = true -> JS.noneIn "{" suffix = true ->
  JS.noneIn "{}" content = true -> content <> "" ->
  SIMPLE_BRACE_RE (prefix ++ String "{" (content ++ String "}" suffix))
  = Some (prefix, content, suffix).
Proof.
  intros Hp Hs Hc Hne. unfold SIMPLE_BRACE_RE.
  rewrite spanNot_app by (exact Hp || reflexivity).
  rewrite spanNot_app by (exact Hc || reflexivity).
  now rewrite (proj2 (String.eqb_neq _ _) Hne), Hs.
Qed.

End SimpleBraceFacts.

(** X14.  What [braceExpand] makes of one simple group: for a prefix and
    a suffix free of opening braces and items free of braces and commas,
    the pattern made of the prefix, the items joined by commas between
    braces, and the suffix expands from an empty cache into the prefix,
    each item in turn and the suffix - provided [nobrace] is unset, the
    text between the braces is not empty and holds no two dots in a
    row. *)
Theorem braceExpand_simple_group
        (E : Engine) (options : MinimatchOptions)
        (prefix suffix : string) (items : list string) :
  nobrace options = false ->
  JS.noneIn "{" prefix = true ->
  JS.noneIn "{" suffix = true ->
  items <> [] ->
  Forall (fun item => JS.noneIn "{}," item = true) items ->
  join "," items <> "" ->
  JS.includes (join "," items) ".." = false ->
  fst (BraceExpand.braceExpand E
         (prefix ++ String "{" (join "," items ++ String "}" suffix))
         options JsMap.empty)
  = map (fun item => (prefix ++ item ++ suffix)%string) items.
Proof.
  intros Hn Hp Hs Hne Hitems Hcontent Hdots.
  assert (Hcomma : Forall (fun item => JS.noneIn "," item = true) items).
  { eapply Forall_impl; [| exact Hitems]. intros item.
    apply noneIn_weaken. intros c Hc.
    each_code_unit c; first [reflexivity | discriminate Hc]. }
  assert (Hbr : JS.noneIn "{}" (join "," items) = true).
  { apply noneIn_join; [reflexivity |].
    eapply Forall_impl; [| exact Hitems]. intros item.
    apply noneIn_weaken. intros c Hc.
    each_code_unit c; first [reflexivity | discriminate Hc]. }
  unfold BraceExpand.braceExpand. rewrite Hn.
  rewrite (indexOf_app "{" prefix) by exact Hp.
  rewrite (proj2 (Z.eqb_neq _ _)) by (unfold JS.len; lia).
  unfold JS.indexOfFrom. rewrite sliceFrom_app.
  pose proof (indexOf_present "}" (String "{" (join "," items)) suffix) as Hpos.
  cbn [String.append] in Hpos.
  rewrite (proj2 (Z.leb_le _ _) Hpos).
  rewrite (proj2 (Z.eqb_neq _ _)) by (unfold JS.len; lia).
  cbn [orb JsMap.get JsMap.empty].
  unfold BraceExpand.trySimpleBraceExpand.
  rewrite SIMPLE_BRACE_RE_shape by assumption.
  rewrite Hdots. cbn [fst].
  now rewrite (split_join_sep "," items Hne Hcomma).
Qed.

Lemma braceExpand_simple_group_witness :
  fst (BraceExpand.braceExpand sampleEngine "file.{js,ts,tsx}" noOptions
         JsMap.empty)
  = ["file.js"; "file.ts"; "file.tsx"].
Proof.
  apply (braceExpand_simple_group sampleEngine noOptions "file." ""
           ["js"; "ts"; "tsx"]);
    first [reflexivity | discriminate | repeat constructor].
Defined.

(* ===================================================================== *)
(** * More on the compiled-pattern cache *)
(* ===================================================================== *)

Section CacheKeyFacts.

Lemma app_sep_inj c a1 a2 b1 b2 :
  JS.noneIn (String c "") a1 = true -> JS.noneIn (String c "") a2 = true ->
  (a1 ++ String c b1)%string = (a2 ++ String c b2)%string ->
  a1 = a2 /\ b1 = b2.
Proof.
  revert a2. induction a1 as [| x a1 IH]; intros [| y a2] H1 H2 H;
    cbn [String.append] in H.
  - injection H as ->. now split.
  - injection H as <- _. cbn in H2. rewrite Ascii.eqb_refl in H2.
    discriminate H2.
  - injection H as -> _. cbn in H1. rewrite Ascii.eqb_refl in H1.
    discriminate H1.
  - injection H as -> H. cbn [JS.noneIn] in H1, H2.
    apply andb_true_iff in H1 as [_ H1]. apply andb_true_iff in H2 as [_ H2].
    destruct (IH a2 H1 H2 H) as [-> ->]. now split.
Qed.

Lemma flag_inj b1 b2 r1 r2 :
  (Cache.flag b1 ++ r1)%string = (Cache.flag b2 ++ r2)%string ->
  b1 = b2 /\ r1 = r2.
Proof.
  destruct b1, b2; cbn; intro H; injection H as H;
    first [now split | discriminate H].
Qed.

Lemma get_after_call (E : Engine) pattern options st mm st' :
  Cache.getOrCreateMatcher E pattern options st = (Ok mm, st') ->
  JsMap.get (Cache.getCacheKey pattern options) (Cache.patternCache st')
  = Some mm.
Proof.
  unfold Cache.getOrCreateMatcher.
  destruct (JsMap.get _ (Cache.patternCache st)) as [cached |].
  - intro H. injection H as <- <-. cbn [Cache.patternCache].
    now rewrite get_set, String.eqb_refl.
  - destruct (MinimatchClass.new E pattern options (Cache.braceCache st))
      as [[fresh | e] bc']; [| discriminate].
    intro H. injection H as <- <-. cbn [Cache.patternCache].
    now rewrite get_set, String.eqb_refl.
Qed.

End CacheKeyFacts.

(** X15.  For patterns that hold no NUL code unit, the cache key tells
    apart the pattern, each of the twelve switches it encodes and the
    platform: two calls with the same key agree on all of them. *)
Theorem getCacheKey_injective
        (pattern1 pattern2 : string) (o1 o2 : MinimatchOptions) :
  JS.noneIn (String Ascii.zero "") pattern1 = true ->
  JS.noneIn (String Ascii.zero "") pattern2 = true ->
  Cache.getCacheKey pattern1 o1 = Cache.getCacheKey pattern2 o2 ->
  pattern1 = pattern2 /\
  nocase o1 = nocase o2 /\ dot o1 = dot o2 /\
  noglobstar o1 = noglobstar o2 /\ nobrace o1 = nobrace o2 /\
  noext o1 = noext o2 /\ nonegate o1 = nonegate o2 /\
  nocomment o1 = nocomment o2 /\ matchBase o1 = matchBase o2 /\
  flipNegate o1 = flipNegate o2 /\
  windowsPathsNoEscape o1 = windowsPathsNoEscape o2 /\
  preserveMultipleSlashes o1 = preserveMultipleSlashes o2 /\
  partial o1 = partial o2 /\
  match platform o1 with Some p => p | None => "" end
  = match platform o2 with Some p => p | None => "" end.
Proof.
  intros H1 H2 H. unfold Cache.getCacheKey in H.
  cbn [String.append] in H.
  apply app_sep_inj in H as [Hp H]; [| assumption | assumption].
  repeat match type of H with
         | (Cache.flag _ ++ _)%string = (Cache.flag _ ++ _)%string =>
             let Hb := fresh "Hb" in apply flag_inj in H as [Hb H]
         end.
  repeat split; assumption.
Qed.

Lemma getCacheKey_injective_witness :
  "*.js" = "*.js" /\ dot (withDot noOptions true) = dot (withDot noOptions true).
Proof.
  destruct (getCacheKey_injective "*.js" "*.js" (withDot noOptions true)
              (withDot noOptions true) eq_refl eq_refl eq_refl)
    as (Hp & _ & Hd & _).
  split; [exact Hp | exact Hd].
Defined.

(** X16.  An instance that [getOrCreateMatcher] has just returned is
    returned again by the next call with the same key, whatever the
    options outside the key are: nothing is compiled and the brace cache
    is left as it is. *)
Theorem getOrCreateMatcher_again
        (E : Engine) (pattern : string) (o1 o2 : MinimatchOptions)
        (st st1 : Cache.Store) (mm : MinimatchClass.Minimatch) :
  Cache.getCacheKey pattern o1 = Cache.getCacheKey pattern o2 ->
  Cache.getOrCreateMatcher E pattern o1 st = (Ok mm, st1) ->
  fst (Cache.getOrCreateMatcher E pattern o2 st1) = Ok mm /\
  Cache.braceCache (snd (Cache.getOrCreateMatcher E pattern o2 st1))
  = Cache.braceCache st1 /\
  Cache.getCacheSize (snd (Cache.getOrCreateMatcher E pattern o2 st1))
  <= Cache.getCacheSize st1.
Proof.
  intros Hkey Hcall. apply get_after_call in Hcall. rewrite Hkey in Hcall.
  unfold Cache.getOrCreateMatcher. rewrite Hcall. cbn [fst snd Cache.braceCache].
  repeat split. unfold Cache.getCacheSize. cbn [Cache.patternCache].
  rewrite set_absent by apply get_delete. rewrite size_app.
  assert (Hlt : JsMap.size (JsMap.delete (Cache.getCacheKey pattern o2)
                               (Cache.patternCache st1))
                < JsMap.size (Cache.patternCache st1)).
  { revert Hcall. generalize (Cache.getCacheKey pattern o2).
    generalize (Cache.patternCache st1). intros m k.
    unfold JsMap.size, JsMap.delete.
    induction m as [| [k0 v0] m IH]; [discriminate |].
    cbn [JsMap.get filter fst].
    destruct (String.eqb k0 k); cbn [negb List.length].
    - intros _.
      pose proof (filter_length_le (fun kv => negb (String.eqb (fst kv) k)) m).
      lia.
    - intro H. specialize (IH H). lia. }
  cbn. lia.
Qed.

Lemma getOrCreateMatcher_again_witness :
  exists mm st1,
    Cache.getOrCreateMatcher sampleEngine "*.js" noOptions Cache.emptyStore
    = (Ok mm, st1) /\
    fst (Cache.getOrCreateMatcher sampleEngine "*.js"
           (withNonull noOptions true) st1) = Ok mm.
Proof.
  eexists. eexists. split; [reflexivity |].
  refine (proj1 (getOrCreateMatcher_again sampleEngine "*.js" noOptions
                   (withNonull noOptions true) Cache.emptyStore _ _
                   eq_refl eq_refl)).
Defined.

(** X17.  The list filter reads [nonull] off the instance it gets from
    the cache: once a pattern has been compiled under some options, a
    call of the filter for the same pattern with only [nonull] changed
    returns what it returns with [nonull] as it was. *)
Theorem list_match_nonull_cached
        (E : Engine) (list : list string) (pattern : string)
        (options : MinimatchOptions) (b : bool)
        (st st1 : Cache.Store) (mm : MinimatchClass.Minimatch) :
  Cache.getOrCreateMatcher E pattern options st = (Ok mm, st1) ->
  fst (Index.match_ E list pattern (withNonull options b) st1)
  = fst (Index.match_ E list pattern options st1).
Proof.
  intro Hcall.
  assert (Hkey : Cache.getCacheKey pattern options
                 = Cache.getCacheKey pattern (withNonull options b)).
  { destruct options; reflexivity. }
  apply get_after_call in Hcall.
  unfold Index.match_, Cache.getOrCreateMatcher.
  rewrite <- Hkey, Hcall. reflexivity.
Qed.

Lemma list_match_nonull_cached_witness :
  exists mm st1,
    Cache.getOrCreateMatcher sampleEngine "*.js" noOptions Cache.emptyStore
    = (Ok mm, st1) /\
    fst (Index.match_ sampleEngine ["a.txt"] "*.js" (withNonull noOptions true)
           st1) = Ok [] /\
    fst (Index.match_ sampleEngine ["a.txt"] "*.js" (withNonull noOptions true)
           Cache.emptyStore) = Ok ["*.js"].
Proof.
  eexists. eexists. split; [reflexivity |]. split; [| reflexivity].
  rewrite (list_match_nonull_cached sampleEngine ["a.txt"] "*.js" noOptions
             true Cache.emptyStore _ _ eq_refl).
  reflexivity.
Defined.

(* ===================================================================== *)
(** * More on the constructor and on [match] *)
(* ===================================================================== *)

Section ConstructorFacts.

Import MinimatchClass.

Lemma negateLoop_flag pattern b :
  negateLoop pattern b
  = (xorb b (fst (negateLoop pattern false)), snd (negateLoop pattern false)).
Proof.
  revert b. induction pattern as [| c pattern IH]; intro b.
  - cbn. now rewrite xorb_false_r.
  - destruct (Ascii.eqb_spec c "!") as [-> | Hne].
    + cbn [negateLoop]. rewrite (IH (negb b)), (IH (negb false)).
      cbn [fst snd]. now destruct b, (fst (negateLoop pattern false)).
    + assert (Hstop : forall b', negateLoop (String c pattern) b'
                                 = (b', String c pattern)).
      { intro b'. cbn [negateLoop].
        each_code_unit c; first [reflexivity | now elim Hne]. }
      rewrite !Hstop. cbn. now rewrite xorb_false_r.
Qed.

Lemma negateLoop_bangs n rest b :
  JS.startsWith rest "!" = false ->
  negateLoop (bangs n ++ rest) b = (xorb b (Nat.odd n), rest).
Proof.
  intro Hrest. revert b. induction n as [| n IH]; intro b.
  - cbn [bangs String.append]. rewrite negateLoop_flag.
    rewrite (no_bang_negateLoop rest Hrest). cbn. now rewrite xorb_false_r.
  - cbn [bangs String.append negateLoop]. rewrite IH.
    rewrite Nat.odd_succ, <- Nat.negb_odd. now destruct b, (Nat.odd n).
Qed.

Lemma replace_keeps_hash p :
  JS.charAt0_is (JS.replaceAllChar "\" "/" p) "#" = JS.charAt0_is p "#".
Proof.
  destruct p as [| c p]; [reflexivity |]. cbn [JS.replaceAllChar JS.charAt0_is].
  destruct (Ascii.eqb_spec c "\") as [-> | _]; reflexivity.
Qed.

Lemma replace_keeps_empty p :
  String.eqb (JS.replaceAllChar "\" "/" p) "" = String.eqb p "".
Proof. destruct p; reflexivity. Qed.

Lemma replace_no_backslash p :
  JS.includes (JS.replaceAllChar "\" "/" p) "\" = false.
Proof.
  induction p as [| c p IH]; [reflexivity |].
  cbn [JS.replaceAllChar JS.includes]. rewrite IH, orb_false_r.
  destruct (Ascii.eqb_spec c "\") as [-> | Hne]; [reflexivity |].
  cbn [JS.startsWith]. rewrite andb_true_r.
  apply Ascii.eqb_neq. congruence.
Qed.

End ConstructorFacts.

(** X18.  [parseNegate] strips the whole run of leading exclamation
    marks and sets [negate] when their number is odd; with [nonegate] it
    leaves the pattern alone. *)
Theorem parseNegate_parity (n : nat) (rest : string) :
  JS.startsWith rest "!" = false ->
  MinimatchClass.parseNegate false (bangs n ++ rest) = (Nat.odd n, rest) /\
  MinimatchClass.parseNegate true (bangs n ++ rest) = (false, (bangs n ++ rest)%string).
Proof.
  intro H. split; [| reflexivity].
  unfold MinimatchClass.parseNegate. now rewrite negateLoop_bangs.
Qed.

Lemma parseNegate_parity_witness :
  MinimatchClass.parseNegate false (bangs 3 ++ "*.js") = (true, "*.js").
Proof.
  apply (parseNegate_parity 3 "*.js"). reflexivity.
Defined.

(** X19.  What every instance the constructor returns satisfies: its
    [globSet] holds no duplicate, it has one matcher and one array of
    [globParts] per member of [globSet], it keeps the options it was
    given, it is not both a comment and empty, and a comment or empty
    instance has nothing in [globSet]. *)
Theorem new_invariants
        (E : Engine) (pattern : string) (options : MinimatchOptions)
        (bc bc' : BraceExpand.BraceCache) (mm : MinimatchClass.Minimatch)
        (optimizationLevel : Z) :
  MinimatchClass.new E pattern options bc = (Ok mm, bc') ->
  NoDup (MinimatchClass.mm_globSet mm) /\
  List.length (MinimatchClass.mm_matchers mm)
  = List.length (MinimatchClass.mm_globSet mm) /\
  List.length (Segments.globParts mm optimizationLevel)
  = List.length (MinimatchClass.mm_globSet mm) /\
  MinimatchClass.mm_options mm = options /\
  MinimatchClass.mm_comment mm && MinimatchClass.mm_empty mm = false /\
  (MinimatchClass.mm_comment mm || MinimatchClass.mm_empty mm = true ->
   MinimatchClass.mm_globSet mm = []).
Proof.
  intro Hnew.
  assert (Hparts : List.length (Segments.globParts mm optimizationLevel)
                   = List.length (MinimatchClass.mm_globSet mm)).
  { unfold Segments.globParts, Segments.preprocess.
    destruct (noglobstar _); destruct (optimizationLevel >=? 1);
      now rewrite !length_map. }
  unfold MinimatchClass.new in Hnew.
  destruct (JS.len pattern >? MinimatchClass.MAX_PATTERN_LENGTH);
    [discriminate Hnew |].
  match type of Hnew with
  | context [if ?b then _ else _] => destruct b
  end.
  { injection Hnew as <- _. cbn. repeat split; try constructor; auto. }
  match type of Hnew with
  | context [if ?b then _ else _] => destruct b
  end.
  { injection Hnew as <- _. cbn. repeat split; try constructor; auto. }
  destruct (MinimatchClass.parseNegate _ _) as [negate pattern2].
  destruct (BraceExpand.braceExpand E pattern2 options bc) as [expanded bc2].
  injection Hnew as Hmm _. rewrite <- Hmm in Hparts |- *.
  cbn [MinimatchClass.mm_globSet MinimatchClass.mm_matchers
       MinimatchClass.mm_options MinimatchClass.mm_comment
       MinimatchClass.mm_empty andb orb].
  repeat split.
  - apply dedupe_spec.
  - apply length_map.
  - exact Hparts.
  - discriminate.
Qed.

Lemma new_invariants_witness :
  exists mm bc',
    MinimatchClass.new sampleEngine "src/{a,b,a}/*.js" noOptions JsMap.empty
    = (Ok mm, bc') /\
    MinimatchClass.mm_globSet mm = ["src/a/*.js"; "src/b/*.js"] /\
    List.length (MinimatchClass.mm_matchers mm) = 2%nat /\
    Segments.globParts mm 1 = [["src"; "a"; "*.js"]; ["src"; "b"; "*.js"]] /\
    NoDup (MinimatchClass.mm_globSet mm).
Proof.
  eexists. eexists. split; [reflexivity |]. split; [reflexivity |].
  split; [reflexivity |]. split; [reflexivity |].
  refine (proj1 (new_invariants sampleEngine "src/{a,b,a}/*.js" noOptions
                   JsMap.empty _ _ 1 eq_refl)).
Defined.

(** X20.  Negating a pattern negates its verdict: for a pattern that is
    not empty and not a comment, with [nonegate] and [flipNegate] unset,
    the pattern with one more exclamation mark in front compiles to the
    same instance with the negation flag flipped, and on every path its
    [match] is the opposite of the [match] of the pattern - except on the
    path [/] in partial mode, which both accept. *)
Theorem match_negated
        (E : Engine) (pattern : string) (options : MinimatchOptions)
        (bc bc' : BraceExpand.BraceCache) (mm : MinimatchClass.Minimatch) :
  MinimatchClass.new E pattern options bc = (Ok mm, bc') ->
  nonegate options = false ->
  flipNegate options = false ->
  pattern <> "" ->
  JS.charAt0_is pattern "#" = false \/ nocomment options = true ->
  JS.len pattern < 65536 ->
  MinimatchClass.new E (String "!" pattern) options bc = (Ok (negated mm), bc') /\
  forall (path : string) (partial : bool),
    String.eqb path "/" && partial = false ->
    MinimatchClass.match_ (negated mm) path (Some partial)
    = negb (MinimatchClass.match_ mm path (Some partial)).
Proof.
  intros Hnew Hng Hflip Hne Hcom Hlen.
  assert (Hnew' : MinimatchClass.new E (String "!" pattern) options bc
                  = (Ok (negated mm), bc') /\
                  MinimatchClass.mm_comment mm = false /\
                  MinimatchClass.mm_empty mm = false /\
                  MinimatchClass.mm_options mm = options).
  { unfold MinimatchClass.new in *.
    assert (Hl1 : (JS.len pattern >? MinimatchClass.MAX_PATTERN_LENGTH) = false).
    { rewrite Z.gtb_ltb. apply Z.ltb_ge.
      unfold MinimatchClass.MAX_PATTERN_LENGTH. lia. }
    assert (Hl2 : (JS.len (String "!" pattern)
                   >? MinimatchClass.MAX_PATTERN_LENGTH) = false).
    { rewrite Z.gtb_ltb. apply Z.ltb_ge.
      unfold MinimatchClass.MAX_PATTERN_LENGTH, JS.len in *.
      cbn [String.length]. lia. }
    rewrite Hl1 in Hnew. rewrite Hl2.
    unfold Utils.normalizePattern in *. cbn [JS.replaceAllChar].
    change (Ascii.eqb "!" "\") with false. cbn iota.
    set (wpne := windowsPathsNoEscape options || _) in *.
    set (p1 := if wpne then JS.replaceAllChar "\" "/" pattern else pattern)
      in *.
    assert (Hp1 : (if wpne then String "!" (JS.replaceAllChar "\" "/" pattern)
                   else String "!" pattern) = String "!" p1).
    { unfold p1. now destruct wpne. }
    rewrite Hp1.
    assert (Hc1 : negb (nocomment options) && JS.charAt0_is p1 "#" = false).
    { destruct Hcom as [Hc | ->]; [| reflexivity].
      unfold p1. destruct wpne; [rewrite replace_keeps_hash |];
        rewrite Hc; apply andb_false_r. }
    assert (He1 : String.eqb p1 "" = false).
    { unfold p1. destruct wpne; [rewrite replace_keeps_empty |];
        now apply String.eqb_neq. }
    rewrite Hc1, He1 in Hnew.
    cbn [JS.charAt0_is]. change (Ascii.eqb "!" "#") with false.
    rewrite andb_false_r.
    change (String.eqb (String "!" p1) "") with false. cbn iota.
    unfold MinimatchClass.parseNegate in *. rewrite Hng in *.
    cbn [MinimatchClass.negateLoop].
    rewrite (negateLoop_flag p1 (negb false)).
    destruct (MinimatchClass.negateLoop p1 false) as [negate pattern2].
    cbn [fst snd xorb negb].
    destruct (BraceExpand.braceExpand E pattern2 options bc)
      as [expanded bc2].
    injection Hnew as <- <-. cbn. repeat split. }
  destruct Hnew' as (Hneg & Hc & He & Hopt). split; [exact Hneg |].
  intros path partial Hroot.
  unfold MinimatchClass.match_, MinimatchClass.matchEarly,
    MinimatchClass.matchLate, MinimatchClass.normalizedPath.
  cbn [negated MinimatchClass.mm_comment MinimatchClass.mm_empty
       MinimatchClass.mm_negate MinimatchClass.mm_pattern
       MinimatchClass.mm_patternBasename MinimatchClass.mm_options
       MinimatchClass.mm_matchers MinimatchClass.mm_isWindows
       MinimatchClass.mm_windowsPathsNoEscape
       MinimatchClass.mm_hasNegatedCharClassCached
       MinimatchClass.mm_requiresTrailingSlashCached].
  rewrite Hc, He, Hroot, Hopt, Hflip.
  match goal with
  | |- context [if ?guard then Some _ else None] => destruct guard
  end.
  - reflexivity.
  - destruct (MinimatchClass.mm_negate mm); cbn [negb];
      [now rewrite negb_involutive | reflexivity].
Qed.

Lemma match_negated_witness :
  exists mm bc',
    MinimatchClass.new sampleEngine "*.js" noOptions JsMap.empty = (Ok mm, bc') /\
    MinimatchClass.new sampleEngine "!*.js" noOptions JsMap.empty
    = (Ok (negated mm), bc') /\
    MinimatchClass.match_ (negated mm) "foo.js" (Some false) = false.
Proof.
  eexists. eexists. split; [reflexivity |].
  destruct (match_negated sampleEngine "*.js" noOptions JsMap.empty _ _ eq_refl
              eq_refl eq_refl) as [Hnew Hmatch].
  - discriminate.
  - now left.
  - cbn. lia.
  - split; [exact Hnew |].
    rewrite (Hmatch "foo.js" false eq_refl). reflexivity.
Defined.

(** X21.  Two exclamation marks cancel: for a pattern that is not empty
    and not a comment, with [nonegate] unset, the pattern with two more
    exclamation marks in front compiles to the very same instance. *)
Theorem new_double_negation
        (E : Engine) (pattern : string) (options : MinimatchOptions)
        (bc : BraceExpand.BraceCache) :
  nonegate options = false ->
  pattern <> "" ->
  JS.charAt0_is pattern "#" = false \/ nocomment options = true ->
  JS.len pattern + 2 <= 65536 ->
  MinimatchClass.new E (String "!" (String "!" pattern)) options bc
  = MinimatchClass.new E pattern options bc.
Proof.
  intros Hng Hne Hcom Hlen. unfold MinimatchClass.new.
  assert (Hl1 : (JS.len pattern >? MinimatchClass.MAX_PATTERN_LENGTH) = false).
  { rewrite Z.gtb_ltb. apply Z.ltb_ge.
    unfold MinimatchClass.MAX_PATTERN_LENGTH. lia. }
  assert (Hl2 : (JS.len (String "!" (String "!" pattern))
                 >? MinimatchClass.MAX_PATTERN_LENGTH) = false).
  { rewrite Z.gtb_ltb. apply Z.ltb_ge.
    unfold MinimatchClass.MAX_PATTERN_LENGTH, JS.len in *.
    cbn [String.length]. lia. }
  rewrite Hl1, Hl2.
  unfold Utils.normalizePattern. cbn [JS.replaceAllChar].
  change (Ascii.eqb "!" "\") with false. cbn iota.
  set (wpne := windowsPathsNoEscape options || _).
  set (p1 := if wpne then JS.replaceAllChar "\" "/" pattern else pattern).
  assert (Hp1 : (if wpne
                 then String "!" (String "!" (JS.replaceAllChar "\" "/" pattern))
                 else String "!" (String "!" pattern))
                = String "!" (String "!" p1)).
  { unfold p1. now destruct wpne. }
  rewrite Hp1.
  assert (Hc1 : negb (nocomment options) && JS.charAt0_is p1 "#" = false).
  { destruct Hcom as [Hc | ->]; [| reflexivity].
    unfold p1. destruct wpne; [rewrite replace_keeps_hash |];
      rewrite Hc; apply andb_false_r. }
  assert (He1 : String.eqb p1 "" = false).
  { unfold p1. destruct wpne; [rewrite replace_keeps_empty |];
      now apply String.eqb_neq. }
  rewrite Hc1, He1.
  cbn [JS.charAt0_is]. change (Ascii.eqb "!" "#") with false.
  rewrite andb_false_r.
  change (String.eqb (String "!" (String "!" p1)) "") with false. cbn iota.
  unfold MinimatchClass.parseNegate. rewrite Hng.
  cbn [MinimatchClass.negateLoop negb]. reflexivity.
Qed.

Lemma new_double_negation_witness :
  MinimatchClass.new sampleEngine "!!*.js" noOptions JsMap.empty
  = MinimatchClass.new sampleEngine "*.js" noOptions JsMap.empty.
Proof.
  apply (new_double_negation sampleEngine "*.js" noOptions JsMap.empty).
  - reflexivity.
  - discriminate.
  - now left.
  - cbn. lia.
Defined.

(** X22.  Comments and the empty pattern: a pattern that starts with a
    hash sign (with [nocomment] unset) matches no path, and the empty
    pattern matches the empty path only; the function [minimatch], which
    answers these two cases itself without touching the caches, and the
    [match] of the compiled instance agree. *)
Theorem comment_and_empty_patterns
        (E : Engine) (path pattern : string) (options : MinimatchOptions)
        (st : Cache.Store) (bc bc' : BraceExpand.BraceCache)
        (mm : MinimatchClass.Minimatch) (partial : option bool) :
  pattern = "" \/
  (nocomment options = false /\ JS.charAt0_is pattern "#" = true) ->
  MinimatchClass.new E pattern options bc = (Ok mm, bc') ->
  Index.minimatch E path pattern options st
  = (Ok (String.eqb pattern "" && String.eqb path ""), st) /\
  MinimatchClass.match_ mm path partial
  = String.eqb pattern "" && String.eqb path "".
Proof.
  intros Hshape Hnew. split.
  - unfold Index.minimatch. destruct Hshape as [-> | [Hn Hc]]; [reflexivity |].
    destruct (String.eqb_spec pattern "") as [-> | _]; [discriminate Hc |].
    now rewrite Hn, Hc.
  - unfold MinimatchClass.new in Hnew.
    destruct (JS.len pattern >? MinimatchClass.MAX_PATTERN_LENGTH);
      [discriminate Hnew |].
    unfold Utils.normalizePattern in Hnew.
    set (wpne := windowsPathsNoEscape options || _) in Hnew.
    destruct Hshape as [-> | [Hn Hc]].
    + cbn [JS.replaceAllChar] in Hnew.
      replace (if wpne then "" else "") with "" in Hnew by now destruct wpne.
      cbn [JS.charAt0_is] in Hnew. rewrite andb_false_r in Hnew.
      cbn [String.eqb] in Hnew. injection Hnew as <- _.
      unfold MinimatchClass.match_, MinimatchClass.matchEarly. reflexivity.
    + assert (Hc1 : negb (nocomment options) &&
                    JS.charAt0_is (if wpne
                                   then JS.replaceAllChar "\" "/" pattern
                                   else pattern) "#" = true).
      { rewrite Hn. destruct wpne; [rewrite replace_keeps_hash |]; now rewrite Hc. }
      rewrite Hc1 in Hnew. injection Hnew as <- _.
      destruct (String.eqb_spec pattern "") as [-> | _]; [discriminate Hc |].
      reflexivity.
Qed.

Lemma comment_and_empty_patterns_witness :
  exists mm bc',
    MinimatchClass.new sampleEngine "#*" noOptions JsMap.empty = (Ok mm, bc') /\
    MinimatchClass.match_ mm "#a" None = false /\
    Index.minimatch sampleEngine "#a" "#*" noOptions Cache.emptyStore
    = (Ok false, Cache.emptyStore).
Proof.
  eexists. eexists. split; [reflexivity |].
  destruct (comment_and_empty_patterns sampleEngine "#a" "#*" noOptions
              Cache.emptyStore JsMap.empty _ _ None
              (or_intror (conj eq_refl eq_refl)) eq_refl) as [Hi Hm].
  split; [exact Hm | exact Hi].
Defined.

(** X23.  In the Windows modes a backslash in the path is a slash: when
    [windowsPathsNoEscape] is set or the platform is Windows, [match]
    gives the same verdict on a path and on that path with every
    backslash turned into a slash - the path made of one backslash
    excepted, which is not taken for the root. *)
Theorem match_backslash_path
        (mm : MinimatchClass.Minimatch) (path : string) (partial : option bool) :
  MinimatchClass.mm_windowsPathsNoEscape mm || MinimatchClass.mm_isWindows mm
  = true ->
  path <> "\" ->
  MinimatchClass.match_ mm path partial
  = MinimatchClass.match_ mm (JS.replaceAllChar "\" "/" path) partial.
Proof.
  intros Hwin Hpath.
  assert (Hnorm : MinimatchClass.normalizedPath mm path
                  = MinimatchClass.normalizedPath mm
                      (JS.replaceAllChar "\" "/" path)).
  { unfold MinimatchClass.normalizedPath, Utils.normalizePath.
    rewrite Hwin, replace_no_backslash. cbn [andb].
    destruct (JS.includes path "\") eqn:Hb; [reflexivity |].
    now rewrite no_backslash_replace. }
  assert (Hroot : String.eqb (JS.replaceAllChar "\" "/" path) "/"
                  = String.eqb path "/").
  { destruct path as [| c [| d path]]; [reflexivity | |].
    - cbn [JS.replaceAllChar].
      destruct (Ascii.eqb_spec c "\") as [-> | Hc]; [now elim Hpath |].
      reflexivity.
    - cbn [JS.replaceAllChar String.eqb].
      now destruct (Ascii.eqb _ "/"); destruct (Ascii.eqb c "/"). }
  unfold MinimatchClass.match_, MinimatchClass.matchEarly,
    MinimatchClass.matchLate.
  now rewrite <- Hnorm, Hroot, replace_keeps_empty.
Qed.

Lemma match_backslash_path_witness :
  exists mm bc',
    MinimatchClass.new sampleEngine "src/*.js"
      (withWindowsPathsNoEscape noOptions true) JsMap.empty = (Ok mm, bc') /\
    MinimatchClass.match_ mm "src\a.js" None
    = MinimatchClass.match_ mm "src/a.js" None.
Proof.
  eexists. eexists. split; [reflexivity |].
  apply match_backslash_path; [reflexivity | discriminate].
Defined.

(* ===================================================================== *)
(** * More on the fast path *)
(* ===================================================================== *)

(** X24.  The fast path never accepts the path [.], and it accepts the
    path [..] only for a pattern that holds two dots in a row. *)
Theorem tryFastPath_dot_paths
        (path pattern : string) (options : MinimatchOptions) :
  FastPaths.tryFastPath path pattern options = Some true ->
  path <> "." /\ (path = ".." -> JS.includes pattern ".." = true).
Proof.
  intro Hfast. unfold FastPaths.tryFastPath in Hfast.
  repeat match type of Hfast with
         | (if ?b then None else _) = _ =>
             destruct b; [discriminate Hfast |]
         end.
  cbn zeta in Hfast.
  assert (Hcases : path = "." \/ path = ".." ->
                   path = ".." /\ JS.includes pattern ".." = true).
  { intro Hp.
    destruct (FastPaths.STAR_RE pattern).
    { destruct Hp as [-> | ->]; destruct (dot options); discriminate Hfast. }
    destruct (FastPaths.STAR_DOT_EXT_RE pattern) as [ext |] eqn:Hx.
    { apply STAR_DOT_EXT_RE_spec in Hx as (Hg & stars & ->).
      destruct Hp as [-> | ->].
      - exfalso. unfold FastPaths.isExtGroup in Hg.
        destruct ext as [| c0 [| c1 t]]; [discriminate Hg | |].
        + destruct c0 as [[] [] [] [] [] [] [] []]; discriminate Hg.
        + unfold JS.endsWith in Hfast.
          destruct (nocase options); destruct (dot options);
            cbn in Hfast; discriminate Hfast.
      - split; [reflexivity |].
        assert (Hext : ext = "..").
        { apply (extGroup_ends_dotdot ext (nocase options) Hg).
          cbn [JS.len String.length Z.of_nat Z.eqb] in Hfast.
          destruct (nocase options); destruct (dot options);
            cbn [JS.startsWith Ascii.eqb Bool.eqb andb negb] in Hfast;
            first [now injection Hfast | discriminate Hfast]. }
        subst ext. now apply includes_app_r. }
    destruct (FastPaths.STAR_DOT_STAR_RE pattern).
    { destruct Hp as [-> | ->]; destruct (dot options); discriminate Hfast. }
    destruct (FastPaths.DOT_STAR_RE pattern).
    { destruct Hp as [-> | ->]; discriminate Hfast. }
    destruct (FastPaths.QMARKS_RE pattern) as [[qmarks m2] |];
      [| discriminate Hfast].
    destruct Hp as [-> | ->];
      cbn [FastPaths.isDotOrDotDot String.eqb Ascii.eqb Bool.eqb orb] in Hfast;
      destruct (negb _) in Hfast; discriminate Hfast. }
  split.
  - intros ->. destruct (Hcases (or_introl eq_refl)) as [H _]. discriminate H.
  - intros ->. now destruct (Hcases (or_intror eq_refl)).
Qed.

Lemma tryFastPath_dot_paths_witness :
  FastPaths.tryFastPath ".." "*.." (withDot noOptions true) = Some true /\
  JS.includes "*.." ".." = true.
Proof.
  assert (H : FastPaths.tryFastPath ".." "*.." (withDot noOptions true)
              = Some true) by reflexivity.
  split; [exact H |].
  exact (proj2 (tryFastPath_dot_paths ".." "*.." (withDot noOptions true) H)
               eq_refl).
Defined.

(** X25.  With [dot] unset the fast path accepts a path that starts with
    a dot only for a pattern of the dot-star shape. *)
Theorem tryFastPath_dotfile
        (path pattern : string) (options : MinimatchOptions) :
  FastPaths.tryFastPath path pattern options = Some true ->
  dot options = false ->
  JS.startsWith path "." = true ->
  FastPaths.DOT_STAR_RE pattern = true.
Proof.
  intros Hfast Hdot Hpath. unfold FastPaths.tryFastPath in Hfast.
  repeat match type of Hfast with
         | (if ?b then None else _) = _ =>
             destruct b; [discriminate Hfast |]
         end.
  cbn zeta in Hfast. rewrite Hdot, Hpath in Hfast. cbn [negb andb] in Hfast.
  destruct (FastPaths.STAR_RE pattern).
  { destruct (JS.len path =? 0); discriminate Hfast. }
  destruct (FastPaths.STAR_DOT_EXT_RE pattern).
  { destruct (JS.len path =? 0); destruct (nocase options);
      discriminate Hfast. }
  destruct (FastPaths.STAR_DOT_STAR_RE pattern).
  { destruct (JS.len path =? 0); discriminate Hfast. }
  destruct (FastPaths.DOT_STAR_RE pattern); [reflexivity |].
  destruct (FastPaths.QMARKS_RE pattern) as [[qmarks m2] |];
    [| discriminate Hfast].
  repeat match type of Hfast with
         | (if ?b then Some false else _) = _ =>
             destruct b; [discriminate Hfast |]
         end.
  discriminate Hfast.
Qed.

Lemma tryFastPath_dotfile_witness : FastPaths.DOT_STAR_RE ".*" = true.
Proof.
  apply (tryFastPath_dotfile ".hidden" ".*" noOptions); reflexivity.
Defined.

(** X26.  Where the fast path and the compiled instance cannot differ:
    when neither the path nor the pattern holds a backslash, a verdict
    that [match] reaches before it asks any matcher - for the path [.]
    or [..] - is the verdict of the fast path, if the fast path has
    one. *)
Theorem fast_path_agrees_before_matchers
        (E : Engine) (path pattern : string) (options : MinimatchOptions)
        (bc bc' : BraceExpand.BraceCache) (mm : MinimatchClass.Minimatch)
        (partial b v : bool) :
  JS.includes path "\" = false ->
  JS.includes pattern "\" = false ->
  MinimatchClass.new E pattern options bc = (Ok mm, bc') ->
  FastPaths.tryFastPath path pattern options = Some b ->
  MinimatchClass.matchEarly mm path partial = Some v ->
  v = b.
Proof. apply fast_path_early_verdict. Qed.

Lemma fast_path_agrees_before_matchers_witness :
  exists mm bc',
    MinimatchClass.new sampleEngine "??" (withDot noOptions true) JsMap.empty
    = (Ok mm, bc') /\
    MinimatchClass.matchEarly mm ".." false = Some false /\
    FastPaths.tryFastPath ".." "??" (withDot noOptions true) = Some false /\
    false = false.
Proof.
  eexists. eexists. split; [reflexivity |].
  split; [reflexivity |]. split; [reflexivity |].
  eapply (fast_path_agrees_before_matchers sampleEngine ".." "??"
            (withDot noOptions true) JsMap.empty _ _ false false false);
    reflexivity.
Defined.

(* ===================================================================== *)
(** * More on escape and unescape *)
(* ===================================================================== *)

(** X27.  In the default mode [unescape] undoes [escape]: every string
    comes back from the round trip. *)
Theorem unescape_escape_default (s : string) :
  Escape.unescape (Escape.escape s false) false = s.
Proof. apply unescape_escape_backslash. Qed.

(** X28.  With [windowsPathsNoEscape] the round trip through [escape]
    and [unescape] gives back every string that holds no bracket and no
    brace. *)
Theorem unescape_escape_windows (s : string) :
  JS.noneIn "[]{}" s = true ->
  Escape.unescape (Escape.escape s true) true = s.
Proof. apply unescape_escape_class. Qed.

Lemma unescape_escape_windows_witness :
  Escape.unescape (Escape.escape "a*(b)?.js" true) true = "a*(b)?.js".
Proof.
  apply (unescape_escape_windows "a*(b)?.js"). reflexivity.
Defined.

(** X29.  [escape] is one-to-one in both modes: two strings with the
    same escaped form are the same string. *)
Theorem escape_injective (s1 s2 : string) (windowsPathsNoEscape : bool) :
  Escape.escape s1 windowsPathsNoEscape = Escape.escape s2 windowsPathsNoEscape ->
  s1 = s2.
Proof.
  destruct windowsPathsNoEscape.
  - unfold Escape.escape. revert s2.
    induction s1 as [| c1 s1 IH]; intros [| c2 s2]; cbn [Escape.escapeClass].
    + reflexivity.
    + destruct (JS.inClass Escape.magicWin c2); discriminate.
    + destruct (JS.inClass Escape.magicWin c1); discriminate.
    + destruct (JS.inClass Escape.magicWin c1) eqn:H1;
        destruct (JS.inClass Escape.magicWin c2) eqn:H2; intro H.
      * injection H as -> H. now rewrite (IH s2 H).
      * injection H as <- _. discriminate H2.
      * injection H as -> _. discriminate H1.
      * injection H as -> H. now rewrite (IH s2 H).
  - intro H.
    rewrite <- (unescape_escape_backslash s1), <- (unescape_escape_backslash s2).
    now rewrite H.
Qed.

Lemma escape_injective_witness : "a[1]" = "a[1]".
Proof.
  apply (escape_injective "a[1]" "a[1]" true). reflexivity.
Defined.

(** X30.  [escape] changes exactly the strings that hold a magic code
    unit: the escaped form is the string itself if and only if the
    string holds none of [? * ( ) [ ] { }] nor, in the default mode, a
    backslash. *)
Theorem escape_fixed (s : string) (windowsPathsNoEscape : bool) :
  Escape.escape s windowsPathsNoEscape = s <->
  JS.noneIn (if windowsPathsNoEscape then Escape.magicWin else Escape.magic) s
  = true.
Proof.
  assert (Hlen : forall w t,
             (String.length t <= String.length (Escape.escape t w))%nat).
  { intros w t. unfold Escape.escape.
    destruct w; induction t as [| c t IH]; cbn; try lia;
      match goal with
      | |- context [if ?b then _ else _] => destruct b
      end; cbn; lia. }
  destruct windowsPathsNoEscape; unfold Escape.escape in *.
  - induction s as [| c s IH]; [split; reflexivity |].
    cbn [Escape.escapeClass JS.noneIn].
    destruct (JS.inClass Escape.magicWin c) eqn:Hc; cbn [negb andb].
    + split; [| discriminate]. intro H. injection H as _ H.
      pose proof (Hlen true s) as Hl. unfold Escape.escape in Hl.
      apply (f_equal String.length) in H. cbn [String.length] in H. lia.
    + rewrite <- IH. split; [now intro H; injection H | now intros ->].
  - induction s as [| c s IH]; [split; reflexivity |].
    cbn [Escape.escapeBackslash JS.noneIn].
    destruct (JS.inClass Escape.magic c) eqn:Hc; cbn [negb andb].
    + split; [| discriminate]. intro H. injection H as _ H.
      pose proof (Hlen false s) as Hl. unfold Escape.escape in Hl.
      apply (f_equal String.length) in H. cbn [String.length] in H. lia.
    + rewrite <- IH. split; [now intro H; injection H | now intros ->].
Qed.
